(** * Payment order lifecycle of the Project-Management API

    A shallow embedding of [src/services/paymentService.js] (the
    [PaymentService] class) and of the [Payment] model it persists through
    ([models/Payment.js]), followed by the properties of the order lifecycle:
    order creation, signature verification, failure and cancellation, and
    webhook reconciliation.

    Conventions of the embedding.
    - JavaScript strings are [string]s whose characters are the code units
      below 256 (the Latin-1 range), a character being its code unit; [+] on
      strings is [+:+].  [undefined] and [null] of an optional field are
      [None].
    - The MongoDB collection of payments is the list of its documents in
      insertion order; [_id] is the primary key and [razorpayOrderId] carries
      the schema's unique index, both enforced on insertion.
    - An [async] method is a state transformer over the database that either
      returns a value or throws; writes made before a [throw] stay.
    - What lies outside the repository is a parameter: the HMAC primitive of
      Node's [crypto], the gateway SDK call [razorpay.orders.create], the
      clock, the generator of ObjectIds and the texts of driver errors.
    - [console.log] output is not modelled. *)

From Stdlib Require Import ZArith NArith Ascii String.
From stdpp Require Import base option list gmap strings sorting.

Open Scope string_scope.

(** ** JavaScript string helpers *)

Module Js.

(** A value is falsy in [!x] and [x || y] when it is [undefined] or [""]. *)
Definition truthy (s : string) : bool :=
  match s with EmptyString => false | String _ _ => true end.

Definition truthy_opt (o : option string) : bool :=
  match o with Some s => truthy s | None => false end.

(** [a || b] on optional strings, [b] being a definite string. *)
Definition or_else (o : option string) (d : string) : string :=
  match o with
  | Some s => if truthy s then s else d
  | None => d
  end.

(** The code units below 256 that [String.prototype.trim] removes: the
    white space TAB, VT, FF, SP and NBSP (U+00A0) and the line terminators
    LF and CR.  The other white space of the language (U+FEFF, U+2028,
    U+2029 and the rest of the space separators) lies above 255. *)
Definition is_space (c : ascii) : bool :=
  let n := N_of_ascii c in
  ((9 <=? n) && (n <=? 13) || (n =? 32) || (n =? 160))%N.

Fixpoint trim_start (s : string) : string :=
  match s with
  | EmptyString => EmptyString
  | String c r => if is_space c then trim_start r else s
  end.

(** Drops the trailing white space: a character is kept when it is not a
    space or something is kept after it. *)
Fixpoint trim_end (s : string) : string :=
  match s with
  | EmptyString => EmptyString
  | String c r =>
      match trim_end r with
      | EmptyString => if is_space c then EmptyString else String c EmptyString
      | r' => String c r'
      end
  end.

Definition trim (s : string) : string := trim_end (trim_start s).

(** [toUpperCase] of one code unit below 256.  The letters a to z and the
    letters from U+00E0 to U+00FE (U+00F7, the division sign, is none) have
    their capital 32 below; the sharp s U+00DF becomes SS.  The capitals of
    the micro sign U+00B5 and of U+00FF are U+039C and U+0178, above 255:
    the strings here cannot hold them and the two are left as they are.  The
    only string the service upper-cases is the currency of a plan, 'INR'. *)
Definition upper_char (c : ascii) : string :=
  let n := N_of_ascii c in
  if ((97 <=? n) && (n <=? 122)
      || (224 <=? n) && (n <=? 254) && negb (n =? 247))%N
  then String (ascii_of_N (n - 32)) EmptyString
  else if (n =? 223)%N then "SS"
  else String c EmptyString.

Fixpoint toUpperCase (s : string) : string :=
  match s with
  | EmptyString => EmptyString
  | String c r => upper_char c +:+ toUpperCase r
  end.

(** [s.slice(-k)]: the last [k] characters. *)
Definition slice_last (k : nat) (s : string) : string :=
  substring (String.length s - k) k s.

(** [s.slice(0, k)]. *)
Definition slice_first (k : nat) (s : string) : string := substring 0 k s.

Definition digit36 (d : N) : ascii :=
  if (d <? 10)%N then ascii_of_N (48 + d) else ascii_of_N (87 + d).

Fixpoint toString36_aux (fuel : nat) (n : N) (acc : string) : string :=
  match fuel with
  | O => acc
  | S fuel' =>
      let acc' := String (digit36 (n mod 36)) acc in
      if (n / 36 =? 0)%N then acc' else toString36_aux fuel' (n / 36)%N acc'
  end.

(** [n.toString(36)] for a non-negative integer; the number of binary
    digits of [n] bounds the number of base-36 digits. *)
Definition toString36 (n : N) : string :=
  toString36_aux (S (N.to_nat (N.log2 n))) n EmptyString.

End Js.

(** ** Thrown values *)

(** What a [catch] clause may receive.  [new Error(m)] has only [message];
    the gateway SDK rejects with objects of other shapes, of which
    [formatError] reads [message], [error.description] and [description].
    [rendered] is the last alternative of [formatError]: the value itself
    when it is a string, else its [JSON.stringify]; [None] when that
    throws. *)
Record Thrown := mkThrown {
  message : option string;
  error_description : option string;
  thrown_description : option string;
  rendered : option string
}.

Definition Error (m : string) : Thrown :=
  {| message := Some m; error_description := None;
     thrown_description := None; rendered := None |}.

(** [`${error.message}`] inside a template literal. *)
Definition message_text (e : Thrown) : string :=
  match message e with Some m => m | None => "undefined" end.

(** ** Data model *)

Inductive Status := pending | completed | failed | cancelled.

Global Instance Status_eq_dec : EqDecision Status.
Proof. solve_decision. Defined.

Inductive RefundStatus := refund_pending | refund_processed | refund_failed.

Global Instance RefundStatus_eq_dec : EqDecision RefundStatus.
Proof. solve_decision. Defined.

(** A document of the [Payment] collection ([paymentSchema], with the
    [createdAt]/[updatedAt] pair of [timestamps: true]).  [amount] is in the
    minor currency unit.  The untyped [metadata] map, which the service never
    reads or writes, is left out. *)
Record Payment := mkPayment {
  _id : string;
  userId : string;
  razorpayOrderId : string;
  razorpayPaymentId : option string;
  razorpaySignature : option string;
  amount : Z;
  currency : string;
  status : Status;
  planType : string;
  description : option string;
  notes : gmap string string;
  failureReason : option string;
  refundId : option string;
  refundAmount : option Z;
  refundStatus : option RefundStatus;
  webhookEventId : option string;
  createdAt : N;
  updatedAt : N
}.

Global Instance Payment_eq_dec : EqDecision Payment.
Proof. solve_decision. Defined.

(** Modelled from the spec: the [User] model ([models/User.js]) is not among
    the sources.  The spec makes the premium flag a boolean that is set to
    true idempotently (setting it when already true is a no-op, not an
    error); the name and e-mail fields are those the service reads. *)
Record User := mkUser {
  firstName : string;
  lastName : string;
  email : option string;
  isPremium : bool
}.

Definition set_isPremium (b : bool) (u : User) : User :=
  {| firstName := firstName u; lastName := lastName u; email := email u;
     isPremium := b |}.

(** The database: both collections. *)
Record World := mkWorld {
  payments : list Payment;
  users : gmap string User
}.

(** ** Field assignments on a payment document *)

Definition set_status (s : Status) (p : Payment) : Payment :=
  mkPayment (_id p) (userId p) (razorpayOrderId p) (razorpayPaymentId p)
    (razorpaySignature p) (amount p) (currency p) s (planType p)
    (description p) (notes p) (failureReason p) (refundId p) (refundAmount p)
    (refundStatus p) (webhookEventId p) (createdAt p) (updatedAt p).

Definition set_razorpayPaymentId (v : option string) (p : Payment) : Payment :=
  mkPayment (_id p) (userId p) (razorpayOrderId p) v
    (razorpaySignature p) (amount p) (currency p) (status p) (planType p)
    (description p) (notes p) (failureReason p) (refundId p) (refundAmount p)
    (refundStatus p) (webhookEventId p) (createdAt p) (updatedAt p).

Definition set_razorpaySignature (v : option string) (p : Payment) : Payment :=
  mkPayment (_id p) (userId p) (razorpayOrderId p) (razorpayPaymentId p)
    v (amount p) (currency p) (status p) (planType p)
    (description p) (notes p) (failureReason p) (refundId p) (refundAmount p)
    (refundStatus p) (webhookEventId p) (createdAt p) (updatedAt p).

(** [failureReason] is declared with [trim: true]: the setter trims. *)
Definition set_failureReason (v : string) (p : Payment) : Payment :=
  mkPayment (_id p) (userId p) (razorpayOrderId p) (razorpayPaymentId p)
    (razorpaySignature p) (amount p) (currency p) (status p) (planType p)
    (description p) (notes p) (Some (Js.trim v)) (refundId p) (refundAmount p)
    (refundStatus p) (webhookEventId p) (createdAt p) (updatedAt p).

Definition set_webhookEventId (v : option string) (p : Payment) : Payment :=
  mkPayment (_id p) (userId p) (razorpayOrderId p) (razorpayPaymentId p)
    (razorpaySignature p) (amount p) (currency p) (status p) (planType p)
    (description p) (notes p) (failureReason p) (refundId p) (refundAmount p)
    (refundStatus p) v (createdAt p) (updatedAt p).

Definition set_updatedAt (t : N) (p : Payment) : Payment :=
  mkPayment (_id p) (userId p) (razorpayOrderId p) (razorpayPaymentId p)
    (razorpaySignature p) (amount p) (currency p) (status p) (planType p)
    (description p) (notes p) (failureReason p) (refundId p) (refundAmount p)
    (refundStatus p) (webhookEventId p) (createdAt p) t.

(** The assignments of the three instance methods, before [this.save()]. *)
Definition markCompleted_fields (paymentId signature : option string)
    (p : Payment) : Payment :=
  set_razorpaySignature signature
    (set_razorpayPaymentId paymentId (set_status completed p)).

Definition markFailed_fields (reason : string) (p : Payment) : Payment :=
  set_failureReason reason (set_status failed p).

Definition markCancelled_fields (p : Payment) : Payment :=
  set_status cancelled p.

(** ** Computations over the database *)

Inductive Outcome (A : Type) : Type :=
| Returned (a : A)
| Threw (e : Thrown).
Arguments Returned {A} a.
Arguments Threw {A} e.

(** An [async] method: from the database before the call to what the call
    returns or throws, and the database after it. *)
Definition M (A : Type) : Type := World -> Outcome A * World.

Definition ret {A} (a : A) : M A := fun w => (Returned a, w).

Definition throw {A} (e : Thrown) : M A := fun w => (Threw e, w).

Definition bind {A B} (m : M A) (k : A -> M B) : M B :=
  fun w =>
    match m w with
    | (Returned a, w') => k a w'
    | (Threw e, w') => (Threw e, w')
    end.

(** [try { m } catch (error) { h error }]: the handler runs on the database
    as the body left it. *)
Definition try_catch {A} (m : M A) (h : Thrown -> M A) : M A :=
  fun w =>
    match m w with
    | (Returned a, w') => (Returned a, w')
    | (Threw e, w') => h e w'
    end.

Notation "'let*' x ':=' m 'in' k" := (bind m (fun x => k))
  (at level 10, x name, m at level 100, k at level 200).
Notation "m ';;' k" := (bind m (fun _ => k))
  (at level 100, k at level 200, right associativity).

(** ** The Payment collection *)

(** [Payment.findOne(query)]: the first document that matches. *)
Fixpoint find_doc (q : Payment -> bool) (docs : list Payment) : option Payment :=
  match docs with
  | [] => None
  | d :: rest => if q d then Some d else find_doc q rest
  end.

Definition Payment_findOne (q : Payment -> bool) : M (option Payment) :=
  fun w => (Returned (find_doc q (payments w)), w).

(** [updateOne({_id: id}, ...)]: rewrites the document with that key. *)
Fixpoint updateOne (id : string) (f : Payment -> Payment) (docs : list Payment)
  : list Payment :=
  match docs with
  | [] => []
  | d :: rest =>
      if decide (_id d = id) then f d :: rest else d :: updateOne id f rest
  end.

(** The document in memory after the assignments [f] and [doc.save()]: an
    assignment of the value a path already has does not mark it modified,
    and [updatedAt] is set only when some path is modified. *)
Definition after_save (now : N) (f : Payment -> Payment) (doc : Payment)
  : Payment :=
  if decide (f doc = doc) then doc else set_updatedAt now (f doc).

(** [doc.save()] on a document read from the collection, after the
    assignments [f].  When nothing is modified no write is made, otherwise
    the assigned paths and [updatedAt] are written to the stored document.
    The assigned values pass the schema's validators by their types, and the
    stored documents, all written through the model, pass them already. *)
Definition save_changes (now : N) (f : Payment -> Payment) (doc : Payment)
  : M Payment :=
  fun w =>
    (Returned (after_save now f doc),
     if decide (f doc = doc) then w
     else
       mkWorld
         (updateOne (_id doc) (fun stored => set_updatedAt now (f stored))
            (payments w))
         (users w)).

(** The instance methods of the schema. *)
Definition markCompleted (now : N) (paymentId signature : option string)
    (doc : Payment) : M Payment :=
  save_changes now (markCompleted_fields paymentId signature) doc.

Definition markFailed (now : N) (reason : string) (doc : Payment) : M Payment :=
  save_changes now (markFailed_fields reason) doc.

Definition markCancelled (now : N) (doc : Payment) : M Payment :=
  save_changes now markCancelled_fields doc.

(** The [User] collection, keyed by [_id]. *)
Definition User_findById (id : string) : M (option User) :=
  fun w => (Returned (users w !! id), w).

Definition User_save (id : string) (u : User) : M unit :=
  fun w => (Returned tt, mkWorld (payments w) (<[id := u]> (users w))).

(** *** Creating a document *)

(** The argument of [new Payment({...})] in [createOrder]; [amount],
    [currency] and [description] come from the plan and may be
    [undefined]. *)
Record PaymentInit := mkPaymentInit {
  init_userId : string;
  init_razorpayOrderId : string;
  init_amount : option Z;
  init_currency : option string;
  init_planType : string;
  init_description : option string;
  init_status : Status;
  init_notes : gmap string string
}.

Definition planType_enum : list string := ["premium_monthly"; "premium_yearly"].

(** The validators of the schema that can reject the document built by
    [createOrder]: [razorpayOrderId] required (an empty string does not
    count), [amount] required and not negative, [planType] in its enum. *)
Definition validate_init (i : PaymentInit) : bool :=
  Js.truthy (init_razorpayOrderId i)
  && match init_amount i with Some a => (0 <=? a)%Z | None => false end
  && bool_decide (init_planType i ∈ planType_enum).

(** The [pre('save')] hook: an amount strictly between 0 and 1 is taken to
    be in the major unit and multiplied by 100.  No integer lies there. *)
Definition pre_save_amount (a : Z) : Z :=
  if ((0 <? a) && (a <? 1))%Z then (a * 100)%Z else a.

(** The document as constructed: schema defaults ([currency] 'INR') and
    setters ([uppercase], [trim]) applied. *)
Definition new_Payment (oid : string) (now : N) (a : Z) (i : PaymentInit)
  : Payment :=
  {| _id := oid;
     userId := init_userId i;
     razorpayOrderId := init_razorpayOrderId i;
     razorpayPaymentId := None;
     razorpaySignature := None;
     amount := pre_save_amount a;
     currency :=
       Js.toUpperCase
         (match init_currency i with Some c => c | None => "INR" end);
     status := init_status i;
     planType := init_planType i;
     description := Js.trim <$> init_description i;
     notes := init_notes i;
     failureReason := None;
     refundId := None;
     refundAmount := None;
     refundStatus := None;
     webhookEventId := None;
     createdAt := now;
     updatedAt := now |}.

Inductive DbFailure := ValidationFailed | DuplicateKey.

Definition key_taken (key : Payment -> string) (k : string)
    (docs : list Payment) : bool :=
  bool_decide (k ∈ key <$> docs).

Section Service.

(** Text of the errors raised by the object-document mapper and the
    database driver. *)
Variable db_error_text : DbFailure -> string.

(** [payment.save()] on a new document: validation, then the insertion,
    which the primary key and the unique index on [razorpayOrderId] can
    refuse. *)
Definition save_new (oid : string) (now : N) (i : PaymentInit) : M Payment :=
  fun w =>
    match init_amount i with
    | Some a =>
        if negb (validate_init i) then
          (Threw (Error (db_error_text ValidationFailed)), w)
        else if key_taken _id oid (payments w)
                || key_taken razorpayOrderId (init_razorpayOrderId i)
                     (payments w) then
          (Threw (Error (db_error_text DuplicateKey)), w)
        else
          let doc := new_Payment oid now a i in
          (Returned doc, mkWorld (payments w ++ [doc]) (users w))
    | None => (Threw (Error (db_error_text ValidationFailed)), w)
    end.

(** *** The service object *)

(** [this.keyId] and [this.keySecret], resolved by the constructor from the
    configuration or the environment; [None] when neither sets them. *)
Variable keyId : option string.
Variable keySecret : option string.

(** [crypto.createHmac('sha256', key).update(data).digest('hex')] for a
    string key. *)
Variable hmac_sha256_hex : string -> string -> string.

(** ** Plan catalog *)

Record Plan := mkPlan {
  plan_amount : Z;
  plan_currency : string;
  plan_description : string;
  plan_duration : Z
}.

Definition plans : list (string * Plan) :=
  [ ("premium_monthly",
     {| plan_amount := 99900; plan_currency := "INR";
        plan_description := "Premium Monthly Subscription";
        plan_duration := 30 |});
    ("premium_yearly",
     {| plan_amount := 999900; plan_currency := "INR";
        plan_description := "Premium Yearly Subscription";
        plan_duration := 365 |}) ].

Fixpoint assoc {A} (k : string) (l : list (string * A)) : option A :=
  match l with
  | [] => None
  | (k', v) :: rest => if decide (k' = k) then Some v else assoc k rest
  end.

(** Property names every object literal inherits from [Object.prototype]. *)
Definition object_prototype_keys : list string :=
  [ "constructor"; "__proto__"; "hasOwnProperty"; "isPrototypeOf";
    "propertyIsEnumerable"; "toLocaleString"; "toString"; "valueOf";
    "__defineGetter__"; "__defineSetter__"; "__lookupGetter__";
    "__lookupSetter__" ].

(** The value of [this.plans[planType]] when it is truthy: a plan of the
    catalog, or an inherited member, which has no [amount], [currency] or
    [description]. *)
Inductive PlanSlot := OwnPlan (p : Plan) | Inherited.

Definition plans_get (planType : string) : option PlanSlot :=
  match assoc planType plans with
  | Some p => Some (OwnPlan p)
  | None =>
      if bool_decide (planType ∈ object_prototype_keys) then Some Inherited
      else None
  end.

Definition slot_amount (s : PlanSlot) : option Z :=
  match s with OwnPlan p => Some (plan_amount p) | Inherited => None end.

Definition slot_currency (s : PlanSlot) : option string :=
  match s with OwnPlan p => Some (plan_currency p) | Inherited => None end.

Definition slot_description (s : PlanSlot) : option string :=
  match s with OwnPlan p => Some (plan_description p) | Inherited => None end.

(** ** Gateway *)

Record OrderOptions := mkOrderOptions {
  opt_amount : option Z;
  opt_currency : option string;
  opt_receipt : string;
  opt_notes : gmap string string
}.

(** The order the gateway answers with. *)
Record RazorpayOrder := mkRazorpayOrder {
  order_id : string;
  order_amount : Z;
  order_currency : string
}.

(** [this.razorpay.orders.create]: resolves with an order or rejects. *)
Variable orders_create : OrderOptions -> Thrown + RazorpayOrder.

Definition razorpay_orders_create (o : OrderOptions) : M RazorpayOrder :=
  match orders_create o with
  | inr order => ret order
  | inl e => throw e
  end.

(** ** formatError and generateReceipt *)

Definition formatError (error : Thrown) : string :=
  if Js.truthy_opt (message error) then default "" (message error)
  else if Js.truthy_opt (error_description error) then
    default "" (error_description error)
  else if Js.truthy_opt (thrown_description error) then
    default "" (thrown_description error)
  else
    match rendered error with
    | Some s => s
    | None => "Unknown error"
    end.

(** [now] is the reading of [Date.now()]. *)
Definition generateReceipt (now : N) (userId : string) : string :=
  let uid := Js.slice_last 8 userId in
  let ts := Js.toString36 now in
  let receipt := "r_" +:+ uid +:+ "_" +:+ ts in
  if decide (40 < String.length receipt) then Js.slice_first 40 receipt
  else receipt.

(** ** createOrder *)

Record OrderDetails := mkOrderDetails {
  od_orderId : string;
  od_amount : Z;
  od_currency : string;
  od_planType : string;
  od_description : option string;
  od_keyId : option string;
  od_user_name : string;
  od_user_email : option string
}.

Definition order_notes (userId planType : string) (user : User)
  : gmap string string :=
  <["userId" := userId]>
    (<["planType" := planType]>
       (<["userEmail" := Js.or_else (email user) ""]>
          (<["userName" :=
               Js.trim (firstName user +:+ " " +:+ lastName user)]> ∅))).

(** [t_receipt] is the clock reading inside [generateReceipt]; [oid] and
    [t_save] are the ObjectId given to the new document and the time at
    which it is saved. *)
Definition createOrder (t_receipt : N) (oid : string) (t_save : N)
    (userId planType : string) : M OrderDetails :=
  try_catch
    (if negb (Js.truthy_opt keyId) || negb (Js.truthy_opt keySecret) then
       throw (Error "Razorpay credentials are missing. Set RAZORPAY_KEY_ID and RAZORPAY_KEY_SECRET.")
     else
       match plans_get planType with
       | None => throw (Error "Invalid plan type")
       | Some plan =>
           let* user := User_findById userId in
           match user with
           | None => throw (Error "User not found")
           | Some user =>
               if isPremium user then throw (Error "User is already premium")
               else
                 let orderOptions :=
                   {| opt_amount := slot_amount plan;
                      opt_currency := slot_currency plan;
                      opt_receipt := generateReceipt t_receipt userId;
                      opt_notes := order_notes userId planType user |} in
                 let* razorpayOrder := razorpay_orders_create orderOptions in
                 let payment :=
                   {| init_userId := userId;
                      init_razorpayOrderId := order_id razorpayOrder;
                      init_amount := slot_amount plan;
                      init_currency := slot_currency plan;
                      init_planType := planType;
                      init_description := slot_description plan;
                      init_status := pending;
                      init_notes := opt_notes orderOptions |} in
                 save_new oid t_save payment ;;
                 ret {| od_orderId := order_id razorpayOrder;
                        od_amount := order_amount razorpayOrder;
                        od_currency := order_currency razorpayOrder;
                        od_planType := planType;
                        od_description := slot_description plan;
                        od_keyId := keyId;
                        od_user_name :=
                          firstName user +:+ " " +:+ lastName user;
                        od_user_email := email user |}
           end
       end)
    (fun error =>
       throw (Error ("Failed to create order: " +:+ formatError error))).

(** ** verifySignature *)

(** [crypto.createHmac('sha256', this.keySecret)] throws a [TypeError] when
    the key is [undefined]; with a string key the digest is computed. *)
Definition createHmac_digest (key : option string) (data : string)
  : Thrown + string :=
  match key with
  | Some k => inr (hmac_sha256_hex k data)
  | None => inl (Error "The key argument must be of type string")
  end.

Definition verifySignature (orderId paymentId signature : string) : bool :=
  let body := orderId +:+ "|" +:+ paymentId in
  match createHmac_digest keySecret body with
  | inr expectedSignature => bool_decide (expectedSignature = signature)
  | inl _ => false
  end.

(** ** verifyPayment *)

Record PaymentData := mkPaymentData {
  razorpay_order_id : string;
  razorpay_payment_id : string;
  razorpay_signature : string
}.

Record VerificationResult := mkVerificationResult {
  vr_success : bool;
  vr_paymentId : string;
  vr_orderId : string;
  vr_planType : string;
  vr_amount : Z;
  vr_currency : string
}.

Definition by_order_id (orderId : string) (d : Payment) : bool :=
  bool_decide (razorpayOrderId d = orderId).

Definition verifyPayment (now : N) (paymentData : PaymentData)
  : M VerificationResult :=
  try_catch
    (let* payment :=
       Payment_findOne (by_order_id (razorpay_order_id paymentData)) in
     match payment with
     | None => throw (Error "Payment record not found")
     | Some payment =>
         let isSignatureValid :=
           verifySignature (razorpay_order_id paymentData)
             (razorpay_payment_id paymentData)
             (razorpay_signature paymentData) in
         if negb isSignatureValid then
           markFailed now "Invalid payment signature" payment ;;
           throw (Error "Payment verification failed")
         else
           let* payment :=
             markCompleted now (Some (razorpay_payment_id paymentData))
               (Some (razorpay_signature paymentData)) payment in
           let* user := User_findById (userId payment) in
           match user with
           | Some user => User_save (userId payment) (set_isPremium true user)
           | None => ret tt
           end ;;
           ret {| vr_success := true;
                  vr_paymentId := razorpay_payment_id paymentData;
                  vr_orderId := razorpay_order_id paymentData;
                  vr_planType := planType payment;
                  vr_amount := amount payment;
                  vr_currency := currency payment |}
     end)
    (fun error =>
       throw (Error ("Payment verification failed: " +:+ message_text error))).

(** ** handlePaymentFailure and cancelPayment *)

Definition handlePaymentFailure (now : N) (orderId reason : string)
  : M Payment :=
  try_catch
    (let* payment := Payment_findOne (by_order_id orderId) in
     match payment with
     | None => throw (Error "Payment record not found")
     | Some payment => markFailed now reason payment
     end)
    (fun error =>
       throw (Error ("Failed to handle payment failure: "
                     +:+ message_text error))).

Definition pending_order_of (orderId user : string) (d : Payment) : bool :=
  bool_decide (razorpayOrderId d = orderId)
  && bool_decide (userId d = user)
  && bool_decide (status d = pending).

Definition cancelPayment (now : N) (orderId user : string) : M Payment :=
  try_catch
    (let* payment := Payment_findOne (pending_order_of orderId user) in
     match payment with
     | None => throw (Error "Pending payment not found")
     | Some payment => markCancelled now payment
     end)
    (fun error =>
       throw (Error ("Failed to cancel payment: " +:+ message_text error))).

(** ** Webhooks *)

(** [payload.payment.entity] of a payment event. *)
Record PaymentEntity := mkPaymentEntity {
  pe_id : string;
  pe_order_id : string;
  pe_error_description : option string
}.

(** [payload.order.entity] of an order event. *)
Record OrderEntity := mkOrderEntity {
  oe_id : string
}.

(** [payload]: each of [payment] and [order] may be missing, and so may the
    [entity] inside it. *)
Record Payload := mkPayload {
  payload_payment : option (option PaymentEntity);
  payload_order : option (option OrderEntity)
}.

Record WebhookEvent := mkWebhookEvent {
  event : string;
  payload : Payload
}.

(** The object a handler returns: [processed] and, depending on the
    handler, [paymentId], [orderId] or [event]. *)
Record WebhookResult := mkWebhookResult {
  processed : bool;
  wr_paymentId : option string;
  wr_orderId : option string;
  wr_event : option string
}.

(** The [TypeError] of a property read on [undefined]. *)
Definition undefined_read (prop : string) : Thrown :=
  Error ("Cannot read properties of undefined (reading '" +:+ prop +:+ "')").

Definition handlePaymentCaptured (now : N)
    (paymentEntity : option PaymentEntity) : M WebhookResult :=
  match paymentEntity with
  | None => throw (undefined_read "order_id")
  | Some paymentEntity =>
      let* payment :=
        Payment_findOne (by_order_id (pe_order_id paymentEntity)) in
      match payment with
      | Some payment =>
          if decide (status payment = pending) then
            let* payment :=
              markCompleted now (Some (pe_id paymentEntity)) None payment in
            let* user := User_findById (userId payment) in
            match user with
            | Some user =>
                if negb (isPremium user) then
                  User_save (userId payment) (set_isPremium true user)
                else ret tt
            | None => ret tt
            end
          else ret tt
      | None => ret tt
      end ;;
      ret {| processed := true; wr_paymentId := Some (pe_id paymentEntity);
             wr_orderId := None; wr_event := None |}
  end.

Definition handlePaymentFailedWebhook (now : N)
    (paymentEntity : option PaymentEntity) : M WebhookResult :=
  match paymentEntity with
  | None => throw (undefined_read "order_id")
  | Some paymentEntity =>
      let* payment :=
        Payment_findOne (by_order_id (pe_order_id paymentEntity)) in
      match payment with
      | Some payment =>
          if decide (status payment = pending) then
            markFailed now
              (Js.or_else (pe_error_description paymentEntity)
                 "Payment failed")
              payment ;;
            ret tt
          else ret tt
      | None => ret tt
      end ;;
      ret {| processed := true; wr_paymentId := Some (pe_id paymentEntity);
             wr_orderId := None; wr_event := None |}
  end.

Definition handleOrderPaid (now : N) (orderEntity : option OrderEntity)
  : M WebhookResult :=
  match orderEntity with
  | None => throw (undefined_read "id")
  | Some orderEntity =>
      let* payment := Payment_findOne (by_order_id (oe_id orderEntity)) in
      match payment with
      | Some payment =>
          save_changes now (set_webhookEventId (Some (oe_id orderEntity)))
            payment ;;
          ret tt
      | None => ret tt
      end ;;
      ret {| processed := true; wr_paymentId := None;
             wr_orderId := Some (oe_id orderEntity); wr_event := None |}
  end.

(** The [signature] argument is not read: its check is commented out in the
    source. *)
Definition handleWebhook (now : N) (ev : WebhookEvent) (signature : option string)
  : M WebhookResult :=
  try_catch
    (let eventType := event ev in
     if decide (eventType = "payment.captured") then
       match payload_payment (payload ev) with
       | None => throw (undefined_read "entity")
       | Some entity => handlePaymentCaptured now entity
       end
     else if decide (eventType = "payment.failed") then
       match payload_payment (payload ev) with
       | None => throw (undefined_read "entity")
       | Some entity => handlePaymentFailedWebhook now entity
       end
     else if decide (eventType = "order.paid") then
       match payload_order (payload ev) with
       | None => throw (undefined_read "entity")
       | Some entity => handleOrderPaid now entity
       end
     else
       ret {| processed := false; wr_paymentId := None; wr_orderId := None;
              wr_event := Some eventType |})
    (fun error =>
       throw (Error ("Webhook processing failed: " +:+ message_text error))).

End Service.

(** ** Named outcomes *)

(** The errors of the interface, as the methods throw them. *)
Definition InvalidPlan : Thrown :=
  Error "Failed to create order: Invalid plan type".
Definition UserNotFound : Thrown :=
  Error "Failed to create order: User not found".
Definition AlreadyPremium : Thrown :=
  Error "Failed to create order: User is already premium".
Definition RecordNotFound : Thrown :=
  Error "Payment verification failed: Payment record not found".
Definition VerificationFailed : Thrown :=
  Error "Payment verification failed: Payment verification failed".

(** The [orderOptions] of [createOrder] for a plan of the catalog. *)
Definition catalog_order_options (t_receipt : N) (uid planId : string)
    (plan : Plan) (u : User) : OrderOptions :=
  {| opt_amount := Some (plan_amount plan);
     opt_currency := Some (plan_currency plan);
     opt_receipt := generateReceipt t_receipt uid;
     opt_notes := order_notes uid planId u |}.

(** ** Sample data *)

Module Sample.

Definition hmac (key data : string) : string := "mac(" +:+ key +:+ "," +:+ data +:+ ")".

Definition db_text (f : DbFailure) : string :=
  match f with
  | ValidationFailed => "Payment validation failed"
  | DuplicateKey => "E11000 duplicate key error"
  end.

Definition gateway (o : OrderOptions) : Thrown + RazorpayOrder :=
  inr {| order_id := "order_N2";
         order_amount := default 0%Z (opt_amount o);
         order_currency := default "INR" (opt_currency o) |}.

Definition secret : option string := Some "s3cr3t".
Definition key : option string := Some "rzp_test_key".

Definition alice : User :=
  {| firstName := "Alice"; lastName := "Doe";
     email := Some "alice@example.com"; isPremium := false |}.

Definition bob : User :=
  {| firstName := "Bob"; lastName := "Roe";
     email := Some "bob@example.com"; isPremium := true |}.

Definition people : gmap string User :=
  <["64b000000000000000000001" := alice]>
    (<["64b000000000000000000002" := bob]> ∅).

(** A payment of [alice] for the monthly plan, in a given state. *)
Definition order1 (s : Status) (pid sig reason : option string) : Payment :=
  {| _id := "p1";
     userId := "64b000000000000000000001";
     razorpayOrderId := "order_O1";
     razorpayPaymentId := pid;
     razorpaySignature := sig;
     amount := 99900;
     currency := "INR";
     status := s;
     planType := "premium_monthly";
     description := Some "Premium Monthly Subscription";
     notes := ∅;
     failureReason := reason;
     refundId := None;
     refundAmount := None;
     refundStatus := None;
     webhookEventId := None;
     createdAt := 1000;
     updatedAt := 1000 |}.

(** A payment whose owner is not in the user collection. *)
Definition orphan : Payment :=
  {| _id := "p9";
     userId := "64b000000000000000000009";
     razorpayOrderId := "order_O9";
     razorpayPaymentId := None;
     razorpaySignature := None;
     amount := 999900;
     currency := "INR";
     status := pending;
     planType := "premium_yearly";
     description := None;
     notes := ∅;
     failureReason := None;
     refundId := None;
     refundAmount := None;
     refundStatus := None;
     webhookEventId := None;
     createdAt := 900;
     updatedAt := 900 |}.

Definition world_of (p : Payment) : World :=
  {| payments := [orphan; p]; users := people |}.

Definition pending_world : World := world_of (order1 pending None None None).

Definition failed_world : World :=
  world_of (order1 failed None None (Some "Invalid payment signature")).

Definition good_sig : string := hmac "s3cr3t" "order_O1|pay_P1".

Definition completed_world : World :=
  world_of (order1 completed (Some "pay_P1") (Some good_sig) None).

Definition captured (orderId : string) : WebhookEvent :=
  {| event := "payment.captured";
     payload :=
       {| payload_payment :=
            Some (Some {| pe_id := "pay_P1"; pe_order_id := orderId;
                          pe_error_description := None |});
          payload_order := None |} |}.

Definition refunded : WebhookEvent :=
  {| event := "refund.created";
     payload := {| payload_payment := None; payload_order := None |} |}.

End Sample.

(** ** Further named outcomes *)

Definition PendingNotFound : Thrown :=
  Error "Failed to cancel payment: Pending payment not found".
Definition FailureRecordNotFound : Thrown :=
  Error "Failed to handle payment failure: Payment record not found".

(** The results of the three webhook handlers. *)
Definition processed_payment (paymentId : string) : WebhookResult :=
  {| processed := true; wr_paymentId := Some paymentId; wr_orderId := None;
     wr_event := None |}.
Definition processed_order (orderId : string) : WebhookResult :=
  {| processed := true; wr_paymentId := None; wr_orderId := Some orderId;
     wr_event := None |}.

(** The database after [handlePaymentCaptured] on a well-formed entity. *)
Definition captured_world (now : N) (pe : PaymentEntity) (w : World) : World :=
  match find_doc (by_order_id (pe_order_id pe)) (payments w) with
  | Some d =>
      if decide (status d = pending) then
        let w1 :=
          (save_changes now (markCompleted_fields (Some (pe_id pe)) None) d
             w).2 in
        match users w1 !! userId d with
        | Some u =>
            if isPremium u then w1
            else mkWorld (payments w1)
                   (<[userId d := set_isPremium true u]> (users w1))
        | None => w1
        end
      else w
  | None => w
  end.

(** ** Statistics *)

(** The document the [$group] stage of [Payment.getStats] produces (its
    [_id] is [null]), which is also the shape of the default object of
    [getPaymentStats]. *)
Record PaymentStats := mkPaymentStats {
  totalPayments : Z;
  totalAmount : Z;
  completedPayments : Z;
  completedAmount : Z;
  failedPayments : Z;
  pendingPayments : Z
}.

Definition stats_zero : PaymentStats :=
  {| totalPayments := 0; totalAmount := 0; completedPayments := 0;
     completedAmount := 0; failedPayments := 0; pendingPayments := 0 |}.

(** [{ $cond: [{ $eq: ['$status', s] }, v, 0] }] *)
Definition cond_status (s : Status) (v : Z) (d : Payment) : Z :=
  if decide (status d = s) then v else 0%Z.

(** One document through the six [$sum] accumulators. *)
Definition group_step (acc : PaymentStats) (d : Payment) : PaymentStats :=
  {| totalPayments := totalPayments acc + 1;
     totalAmount := totalAmount acc + amount d;
     completedPayments := completedPayments acc + cond_status completed 1 d;
     completedAmount :=
       completedAmount acc + cond_status completed (amount d) d;
     failedPayments := failedPayments acc + cond_status failed 1 d;
     pendingPayments := pendingPayments acc + cond_status pending 1 d |}%Z.

(** [userId ? { userId } : {}] as the [$match] stage. *)
Definition stats_match (user : option string) (d : Payment) : bool :=
  match user with
  | Some uid => if Js.truthy uid then bool_decide (userId d = uid) else true
  | None => true
  end.

(** [Payment.getStats(userId)]: a group with [_id: null] over the matched
    documents; no matched document, no result document. *)
Definition Payment_getStats (user : option string) : M (list PaymentStats) :=
  fun w =>
    (Returned
       (match List.filter (stats_match user) (payments w) with
        | [] => []
        | matched => [foldl group_step stats_zero matched]
        end),
     w).

Definition getPaymentStats (user : option string) : M PaymentStats :=
  try_catch
    (let* stats := Payment_getStats user in
     ret (match stats with
          | first :: _ => first
          | [] => stats_zero
          end))
    (fun error =>
       throw (Error ("Failed to get payment stats: " +:+ message_text error))).

(** Sum of two statistics, field by field. *)
Definition stats_plus (a b : PaymentStats) : PaymentStats :=
  {| totalPayments := totalPayments a + totalPayments b;
     totalAmount := totalAmount a + totalAmount b;
     completedPayments := completedPayments a + completedPayments b;
     completedAmount := completedAmount a + completedAmount b;
     failedPayments := failedPayments a + failedPayments b;
     pendingPayments := pendingPayments a + pendingPayments b |}%Z.

(** Number of documents in a status. *)
Definition count_status (s : Status) (docs : list Payment) : Z :=
  Z.of_nat (length (List.filter (λ d, bool_decide (status d = s)) docs)).

(** ** Payment history *)

(** The [options] of [getPaymentHistory].  [page] and [limit] are positive
    integers, as the controllers pass them ([parseInt(x) || default]);
    absent, they default to 1 and 10.  Dates are time values, as the
    validation layer hands over [Date] objects. *)
Record HistoryOptions := mkHistoryOptions {
  ho_page : option positive;
  ho_limit : option positive;
  ho_status : option Status;
  ho_planType : option string;
  ho_startDate : option N;
  ho_endDate : option N;
  ho_minAmount : option Z;
  ho_maxAmount : option Z
}.

(** The filter object built for [find] and [countDocuments]: a field is
    present only when the corresponding test of the source passes. *)
Record PaymentQuery := mkPaymentQuery {
  q_userId : option string;
  q_status : option Status;
  q_planType : option string;
  q_createdAt : option (option N * option N);
  q_amount : option (option Z * option Z)
}.

(** A number is truthy when it is not 0. *)
Definition truthy_num (o : option Z) : bool :=
  match o with Some z => negb (z =? 0)%Z | None => false end.

(** A [Date] object, when there is one, is truthy. *)
Definition defined {A} (o : option A) : bool :=
  match o with Some _ => true | None => false end.

Definition keep_if {A} (b : bool) (o : option A) : option A :=
  if b then o else None.

Definition history_query (user : option string) (o : HistoryOptions)
  : PaymentQuery :=
  {| q_userId := keep_if (Js.truthy_opt user) user;
     q_status := ho_status o;
     q_planType := keep_if (Js.truthy_opt (ho_planType o)) (ho_planType o);
     q_createdAt :=
       if defined (ho_startDate o) || defined (ho_endDate o)
       then Some (ho_startDate o, ho_endDate o) else None;
     q_amount :=
       if truthy_num (ho_minAmount o) || truthy_num (ho_maxAmount o)
       then Some (keep_if (truthy_num (ho_minAmount o)) (ho_minAmount o),
                  keep_if (truthy_num (ho_maxAmount o)) (ho_maxAmount o))
       else None |}.

Definition holds {A} (test : A -> bool) (o : option A) : bool :=
  match o with Some a => test a | None => true end.

(** A document matches a filter object when it passes every field of it:
    equality for [userId], [status] and [planType], [$gte]/[$lte] for
    [createdAt] and [amount]. *)
Definition query_matches (q : PaymentQuery) (d : Payment) : bool :=
  holds (fun u => bool_decide (userId d = u)) (q_userId q)
  && holds (fun s => bool_decide (status d = s)) (q_status q)
  && holds (fun p => bool_decide (planType d = p)) (q_planType q)
  && holds (fun range =>
              holds (fun lo => (lo <=? createdAt d)%N) range.1
              && holds (fun hi => (createdAt d <=? hi)%N) range.2)
       (q_createdAt q)
  && holds (fun range =>
              holds (fun lo => (lo <=? amount d)%Z) range.1
              && holds (fun hi => (amount d <=? hi)%Z) range.2)
       (q_amount q).

(** [populate('userId', 'firstName lastName email')]: the owner's id is
    replaced by these fields of the stored user, or by [null]. *)
Record PopulatedUser := mkPopulatedUser {
  pu_id : string;
  pu_firstName : string;
  pu_lastName : string;
  pu_email : option string
}.

Record HistoryItem := mkHistoryItem {
  item_payment : Payment;
  item_user : option PopulatedUser
}.

Definition populate (users : gmap string User) (d : Payment) : HistoryItem :=
  {| item_payment := d;
     item_user :=
       (fun u => {| pu_id := userId d; pu_firstName := firstName u;
                    pu_lastName := lastName u; pu_email := email u |})
       <$> users !! userId d |}.

Record Pagination := mkPagination {
  currentPage : positive;
  totalPages : nat;
  totalItems : nat;
  itemsPerPage : positive
}.

Record HistoryResult := mkHistoryResult {
  hr_payments : list HistoryItem;
  hr_pagination : Pagination
}.

(** [Math.ceil(total / limit)] for a positive [limit]. *)
Definition ceil_div (total limit : nat) : nat :=
  (total + limit - 1) / limit.

(** [a] comes no later than [b] under [sort({ createdAt: -1 })]. *)
Definition newest_first (a b : Payment) : Prop :=
  (createdAt b <= createdAt a)%N.

(** The order in which one execution of
    [find(query).sort({ createdAt: -1 })] hands over the documents it
    matched.  The database orders them by [createdAt], newest first; which of
    two documents with the same [createdAt] comes first is its choice, and it
    chooses anew at every query.  The order is therefore an input of each
    call, as the clock reading is: two calls, also the calls for two pages of
    one listing, are given orders of their own, and the properties assume of
    each only that it is a sorted rearrangement of the documents matched. *)
Definition QueryOrder : Type := list Payment -> list Payment.

Definition Payment_find_page (sort_newest_first : QueryOrder)
    (q : PaymentQuery) (skip limit : nat) : M (list HistoryItem) :=
  fun w =>
    (Returned
       (populate (users w)
        <$> take limit
              (drop skip
                 (sort_newest_first
                    (List.filter (query_matches q) (payments w))))),
     w).

Definition Payment_countDocuments (q : PaymentQuery) : M nat :=
  fun w => (Returned (length (List.filter (query_matches q) (payments w))), w).

(** [sort_newest_first] is the order of the one [find] this call makes. *)
Definition getPaymentHistory (sort_newest_first : QueryOrder)
    (user : option string) (options : HistoryOptions) : M HistoryResult :=
  try_catch
    (let page := default 1%positive (ho_page options) in
     let limit := default 10%positive (ho_limit options) in
     let skip := ((Pos.to_nat page - 1) * Pos.to_nat limit)%nat in
     let query := history_query user options in
     let* payments :=
       Payment_find_page sort_newest_first query skip (Pos.to_nat limit) in
     let* total := Payment_countDocuments query in
     ret {| hr_payments := payments;
            hr_pagination :=
              {| currentPage := page;
                 totalPages := ceil_div total (Pos.to_nat limit);
                 totalItems := total;
                 itemsPerPage := limit |} |})
    (fun error =>
       throw (Error ("Failed to get payment history: "
                     +:+ message_text error))).

Definition with_page (p : positive) (o : HistoryOptions) : HistoryOptions :=
  {| ho_page := Some p; ho_limit := ho_limit o; ho_status := ho_status o;
     ho_planType := ho_planType o; ho_startDate := ho_startDate o;
     ho_endDate := ho_endDate o; ho_minAmount := ho_minAmount o;
     ho_maxAmount := ho_maxAmount o |}.

Definition with_maxAmount (m : option Z) (o : HistoryOptions)
  : HistoryOptions :=
  {| ho_page := ho_page o; ho_limit := ho_limit o; ho_status := ho_status o;
     ho_planType := ho_planType o; ho_startDate := ho_startDate o;
     ho_endDate := ho_endDate o; ho_minAmount := ho_minAmount o;
     ho_maxAmount := m |}.

(** The payments on the page a call returns. *)
Definition page_payments (r : Outcome HistoryResult * World) : list Payment :=
  match r.1 with
  | Returned result => item_payment <$> hr_payments result
  | Threw _ => []
  end.

(** ** The billing controller *)

(** [s.includes(sub)] *)
Fixpoint includes (s sub : string) : bool :=
  if String.prefix sub s then true
  else match s with
       | EmptyString => false
       | String _ rest => includes rest sub
       end.

(** What a controller method does with the response: a success body
    [{success: true, data, message}], an error body
    [{success: false, error: {code, message}}], the webhook's
    [{success: false, error}], or [next(error)].  [Crashed] stands for an
    exception inside the [catch] block itself. *)
Inductive Reply (A : Type) : Type :=
| Success (httpStatus : nat) (data : A) (note : option string)
| Failure (httpStatus : nat) (code : nat) (text : string)
| Acknowledged (httpStatus : nat) (error : option string)
| Next (error : Thrown)
| Crashed.
Arguments Success {A} httpStatus data note.
Arguments Failure {A} httpStatus code text.
Arguments Acknowledged {A} httpStatus error.
Arguments Next {A} error.
Arguments Crashed {A}.

Definition httpStatus_of {A} (r : Reply A) : option nat :=
  match r with
  | Success c _ _ | Failure c _ _ | Acknowledged c _ => Some c
  | Next _ | Crashed => None
  end.

(** A controller method: the reply and the database afterwards. *)
Definition Handler (A : Type) : Type := World -> Reply A * World.

(** [try { result = await call; reply } catch (error) { ... }] where the
    catch block reads [error.message] first. *)
Definition respond {A B} (call : M A) (on_result : A -> Reply B)
    (on_error : string -> Thrown -> Reply B) : Handler B :=
  fun w =>
    match call w with
    | (Returned a, w') => (on_result a, w')
    | (Threw error, w') =>
        (match message error with
         | Some text => on_error text error
         | None => Crashed
         end, w')
    end.

Section Controller.

Variable db_error_text : DbFailure -> string.
Variable keyId keySecret : option string.
Variable hmac_sha256_hex : string -> string -> string.
Variable orders_create : OrderOptions -> Thrown + RazorpayOrder.

(** [createUpgradeOrder]: [userId] is [req.user._id], [planType] comes from
    the body. *)
Definition BillingController_createUpgradeOrder (t_receipt : N)
    (oid : string) (t_save : N) (userId planType : string)
  : Handler OrderDetails :=
  respond
    (createOrder db_error_text keyId keySecret orders_create
       t_receipt oid t_save userId planType)
    (fun orderDetails =>
       Success 201 orderDetails (Some "Order created successfully"))
    (fun text error =>
       if includes text "Invalid plan type" then
         Failure 400 400 "Invalid plan type"
       else if includes text "User is already premium" then
         Failure 409 409 "User is already premium"
       else Next error).

Definition BillingController_verifyPayment (now : N)
    (paymentData : PaymentData) : Handler VerificationResult :=
  respond
    (verifyPayment keySecret hmac_sha256_hex now paymentData)
    (fun result =>
       Success 200 result
         (Some "Payment verified successfully. Premium features activated!"))
    (fun text error =>
       if includes text "Payment verification failed"
          || includes text "Payment record not found"
       then Failure 400 400 text
       else Next error).

Definition BillingController_handlePaymentFailure (now : N)
    (orderId reason : string) : Handler Payment :=
  respond
    (handlePaymentFailure now orderId reason)
    (fun payment => Success 200 payment (Some "Payment failure recorded"))
    (fun text error =>
       if includes text "Payment record not found" then
         Failure 404 404 "Payment record not found"
       else Next error).

Definition BillingController_cancelPayment (now : N)
    (orderId userId : string) : Handler Payment :=
  respond
    (cancelPayment now orderId userId)
    (fun payment =>
       Success 200 payment (Some "Payment cancelled successfully"))
    (fun text error =>
       if includes text "Pending payment not found" then
         Failure 404 404 "Pending payment not found"
       else Next error).

(** [handleWebhook]: the catch block answers 200 as well and does not test
    the message. *)
Definition BillingController_handleWebhook (now : N) (ev : WebhookEvent)
    (signature : option string) : Handler WebhookResult :=
  fun w =>
    match handleWebhook now ev signature w with
    | (Returned result, w') => (Success 200 result None, w')
    | (Threw error, w') => (Acknowledged 200 (message error), w')
    end.

Definition BillingController_getPaymentStats : Handler PaymentStats :=
  fun w =>
    match getPaymentStats None w with
    | (Returned stats, w') => (Success 200 stats None, w')
    | (Threw error, w') => (Next error, w')
    end.

End Controller.

(** ** Authentication middleware *)

(** The claims of an access token that the middleware and the token
    generator use: [generateTokenPair] copies [isPremium] into the token. *)
Record TokenPayload := mkTokenPayload {
  tok_userId : string;
  tok_isPremium : bool
}.

(** What a middleware does: answers with a status and a message, or calls
    [next()] with [req.user] as it then is. *)
Inductive Gate :=
| Denied (httpStatus : nat) (text : string)
| Passed (user : option (string * User)).

Section Auth.

(** [jwt.verify(token, secret, options)] of the jsonwebtoken package: the
    payload, or [None] when it throws. *)
Variable jwt_verify : string -> option TokenPayload.

Definition verifyAccessToken (token : string) : Thrown + TokenPayload :=
  match jwt_verify token with
  | Some payload => inr payload
  | None => inl (Error "Invalid or expired access token")
  end.

(** [authenticate]: [authHeader] is [req.header('Authorization')]. *)
Definition authenticate (authHeader : option string) (w : World) : Gate :=
  match authHeader with
  | None => Denied 401 "Access token is required"
  | Some header =>
      if negb (Js.truthy header) || negb (String.prefix "Bearer " header)
      then Denied 401 "Access token is required"
      else
        let token := substring 7 (String.length header - 7) header in
        match verifyAccessToken token with
        | inl error => Denied 401 (Js.or_else (message error) "Invalid token")
        | inr decoded =>
            match users w !! tok_userId decoded with
            | None => Denied 401 "User not found"
            | Some user => Passed (Some (tok_userId decoded, user))
            end
        end
  end.

(** [optionalAuth]: never answers itself. *)
Definition optionalAuth (authHeader : option string) (w : World) : Gate :=
  match authHeader with
  | None => Passed None
  | Some header =>
      if Js.truthy header && String.prefix "Bearer " header then
        let token := substring 7 (String.length header - 7) header in
        match verifyAccessToken token with
        | inl _ => Passed None
        | inr decoded =>
            Passed ((fun user => (tok_userId decoded, user))
                    <$> users w !! tok_userId decoded)
        end
      else Passed None
  end.

End Auth.

(** [requirePremium], on the [req.user] an earlier middleware left. *)
Definition requirePremium (req_user : option (string * User)) : Gate :=
  match req_user with
  | None => Denied 401 "Authentication required"
  | Some (_, user) =>
      if negb (isPremium user) then Denied 403 "Premium subscription required"
      else Passed req_user
  end.

(** Two middlewares in a row: the second runs when the first calls
    [next()]. *)
Definition then_gate (first : Gate) (second : option (string * User) -> Gate)
  : Gate :=
  match first with
  | Denied c m => Denied c m
  | Passed req_user => second req_user
  end.

(** ** Sequences of calls *)

(** A call of one of the five methods that write, with its arguments and
    what its environment supplies: clock readings, the ObjectId of a new
    document, and the gateway's answer to that call. *)
Inductive Call :=
| CallCreateOrder (t_receipt : N) (oid : string) (t_save : N)
    (answer : OrderOptions -> Thrown + RazorpayOrder) (userId planType : string)
| CallVerifyPayment (now : N) (paymentData : PaymentData)
| CallHandlePaymentFailure (now : N) (orderId reason : string)
| CallCancelPayment (now : N) (orderId user : string)
| CallHandleWebhook (now : N) (ev : WebhookEvent) (signature : option string).

Section Calls.

Variable db_error_text : DbFailure -> string.
Variable keyId keySecret : option string.
Variable hmac_sha256_hex : string -> string -> string.

(** The database a call leaves, whether it returns or throws. *)
Definition run_call (w : World) (c : Call) : World :=
  match c with
  | CallCreateOrder t_receipt oid t_save answer uid planId =>
      (createOrder db_error_text keyId keySecret answer
         t_receipt oid t_save uid planId w).2
  | CallVerifyPayment now pd =>
      (verifyPayment keySecret hmac_sha256_hex now pd w).2
  | CallHandlePaymentFailure now orderId reason =>
      (handlePaymentFailure now orderId reason w).2
  | CallCancelPayment now orderId user =>
      (cancelPayment now orderId user w).2
  | CallHandleWebhook now ev signature =>
      (handleWebhook now ev signature w).2
  end.

Definition run_calls (w : World) (cs : list Call) : World :=
  foldl run_call w cs.

End Calls.

Definition writes_only (c : Call) : bool :=
  match c with CallCreateOrder _ _ _ _ _ _ => false | _ => true end.

(** The fields of a record that no method assigns after creation. *)
Definition same_core (d d' : Payment) : Prop :=
  _id d' = _id d
  ∧ razorpayOrderId d' = razorpayOrderId d
  ∧ userId d' = userId d
  ∧ amount d' = amount d
  ∧ currency d' = currency d
  ∧ planType d' = planType d
  ∧ description d' = description d
  ∧ notes d' = notes d
  ∧ createdAt d' = createdAt d.

(** A record priced as the catalog prices its plan. *)
Definition catalog_priced (d : Payment) : Prop :=
  ∃ plan,
    assoc (planType d) plans = Some plan
    ∧ amount d = plan_amount plan
    ∧ currency d = plan_currency plan
    ∧ description d = Some (plan_description plan).

(** A user as before, except that the premium flag may have been set. *)
Definition premium_kept (u u' : User) : Prop :=
  firstName u' = firstName u
  ∧ lastName u' = lastName u
  ∧ email u' = email u
  ∧ (isPremium u = true → isPremium u' = true).

(** The users of two databases, key by key. *)
Definition users_kept (m m' : gmap string User) : Prop :=
  ∀ k, option_Forall2 premium_kept (m !! k) (m' !! k).

(** What a call other than [createOrder] does to the database: at most one
    save of assignments that keep the core of a record, then at most one
    write of a stored user with the premium flag set. *)
Definition one_save_one_flag (w w' : World) : Prop :=
  ∃ w1,
    (w1 = w
     ∨ ∃ now f d,
         (∀ x, same_core x (f x)) ∧ w1 = (save_changes now f d w).2)
    ∧ (w' = w1
       ∨ ∃ k u,
           users w1 !! k = Some u
           ∧ w' = mkWorld (payments w1)
                    (<[k := set_isPremium true u]> (users w1))).

(** ** More sample data *)

Global Instance newest_first_dec : RelDecision newest_first.
Proof. intros a b. unfold newest_first. apply _. Defined.

Module Fixtures.

(** A sort by insertion time, newest first: stdpp's merge sort. *)
Definition sorted (docs : list Payment) : list Payment :=
  merge_sort newest_first docs.

(** A second sort newest first, which reads the documents in the opposite
    order and so puts documents of the same [createdAt] the other way
    round. *)
Definition sorted_from_end (docs : list Payment) : list Payment :=
  merge_sort newest_first (reverse docs).

(** The order of the query for page [p] on a database that reads from the
    end when asked for page 2. *)
Definition sorted_for_page (p : positive) : list Payment → list Payment :=
  if decide (p = 2%positive) then sorted_from_end else sorted.

Definition pay (id owner order plan : string) (amt : Z) (st : Status)
    (created : N) : Payment :=
  {| _id := id; userId := owner; razorpayOrderId := order;
     razorpayPaymentId := None; razorpaySignature := None;
     amount := amt; currency := "INR"; status := st; planType := plan;
     description := None; notes := ∅; failureReason := None;
     refundId := None; refundAmount := None; refundStatus := None;
     webhookEventId := None; createdAt := created; updatedAt := created |}.

Definition alice_id : string := "64b000000000000000000001".
Definition bob_id : string := "64b000000000000000000002".

(** Five payments of two users, in insertion order. *)
Definition ledger : World :=
  {| payments :=
       [ pay "a" alice_id "order_A" "premium_monthly" 99900 completed 100;
         pay "c" bob_id "order_C" "premium_yearly" 999900 cancelled 200;
         pay "f" bob_id "order_F" "premium_monthly" 99900 pending 250;
         pay "b" alice_id "order_B" "premium_monthly" 99900 failed 300;
         pay "e" alice_id "order_E" "premium_yearly" 999900 pending 400 ];
     users := Sample.people |}.

(** A failure reason between a no-break space (U+00A0) with two blanks and
    a blank with a line feed and a no-break space. *)
Definition padded_reason : string :=
  String (ascii_of_N 160) "  card declined "
  +:+ String (ascii_of_N 10) (String (ascii_of_N 160) EmptyString).

(** Two payments of one user created at the same instant. *)
Definition twins : World :=
  {| payments :=
       [ pay "x" alice_id "order_X" "premium_monthly" 99900 failed 500;
         pay "y" alice_id "order_Y" "premium_monthly" 99900 pending 500 ];
     users := Sample.people |}.

Definition one_per_page : HistoryOptions :=
  {| ho_page := None; ho_limit := Some 1%positive; ho_status := None;
     ho_planType := None; ho_startDate := None; ho_endDate := None;
     ho_minAmount := None; ho_maxAmount := None |}.

Definition two_per_page : HistoryOptions :=
  {| ho_page := None; ho_limit := Some 2%positive; ho_status := None;
     ho_planType := None; ho_startDate := None; ho_endDate := None;
     ho_minAmount := None; ho_maxAmount := None |}.

(** A gateway that rejects every order, the way the SDK does. *)
Definition refusing_gateway (o : OrderOptions) : Thrown + RazorpayOrder :=
  inl {| message := None;
         error_description := Some "Authentication failed";
         thrown_description := None; rendered := None |}.

(** A token check that knows one token, issued to [alice] before she was
    premium. *)
Definition jwt (token : string) : option TokenPayload :=
  if decide (token = "token-of-alice") then
    Some {| tok_userId := alice_id; tok_isPremium := false |}
  else None.

Definition paid (orderId : string) : WebhookEvent :=
  {| event := "order.paid";
     payload :=
       {| payload_payment := None;
          payload_order := Some (Some {| oe_id := orderId |}) |} |}.

Definition declined (orderId : string) : WebhookEvent :=
  {| event := "payment.failed";
     payload :=
       {| payload_payment :=
            Some (Some {| pe_id := "pay_P1"; pe_order_id := orderId;
                          pe_error_description := Some "" |});
          payload_order := None |} |}.

(** A failure event whose description has white space around it. *)
Definition declined_padded (orderId : string) : WebhookEvent :=
  {| event := "payment.failed";
     payload :=
       {| payload_payment :=
            Some (Some {| pe_id := "pay_P1"; pe_order_id := orderId;
                          pe_error_description := Some padded_reason |});
          payload_order := None |} |}.

Definition truncated : WebhookEvent :=
  {| event := "payment.captured";
     payload := {| payload_payment := Some None; payload_order := None |} |}.

End Fixtures.

(** * Properties *)

(** ** The collection *)

(** The primary key: no two documents share an [_id]. *)
Definition ids_unique (w : World) : Prop := NoDup (_id <$> payments w).

(** The unique index of the schema on [razorpayOrderId]. *)
Definition order_ids_unique (w : World) : Prop :=
  NoDup (razorpayOrderId <$> payments w).

(** A record keeps its key, and keeps its status unless it was 'pending'. *)
Definition status_kept (d d' : Payment) : Prop :=
  _id d' = _id d ∧ (status d ≠ pending → status d' = status d).

Lemma find_doc_Some q docs d :
  find_doc q docs = Some d → d ∈ docs ∧ q d = true.
Proof.
  induction docs as [|x rest IH]; simpl; [done|].
  destruct (q x) eqn:Hq.
  - intros [= <-]. split; [apply list_elem_of_here | done].
  - intros H. destruct (IH H) as [Hin Hd]. split; [by apply list_elem_of_further | done].
Qed.

Lemma find_doc_None q docs :
  find_doc q docs = None ↔ ∀ d, d ∈ docs → q d = false.
Proof.
  induction docs as [|x rest IH]; simpl.
  - split; [intros _ d Hd; by apply elem_of_nil in Hd | done].
  - destruct (q x) eqn:Hq.
    + split; [done|]. intros H. specialize (H x (list_elem_of_here _ _)). congruence.
    + rewrite IH. split.
      * intros H d [->|Hd]%elem_of_cons; [done | by apply H].
      * intros H d Hd. apply H. by apply list_elem_of_further.
Qed.

(** Under the unique index a lookup by order id returns the stored record
    that has this id, whichever it is. *)
Lemma find_doc_by_order_id w d :
  order_ids_unique w → d ∈ payments w →
  find_doc (by_order_id (razorpayOrderId d)) (payments w) = Some d.
Proof.
  unfold order_ids_unique. induction (payments w) as [|x rest IH]; simpl.
  - intros _ Hd. by apply elem_of_nil in Hd.
  - rewrite NoDup_cons. intros [Hx Hnd] Hd. unfold by_order_id at 1.
    case_bool_decide as Heq.
    + apply elem_of_cons in Hd as [->|Hd]; [done|].
      exfalso. apply Hx. rewrite Heq. apply list_elem_of_fmap. eauto.
    + apply elem_of_cons in Hd as [->|Hd]; [done | by apply IH].
Qed.

(** Rewriting the document a query found: the query finds the rewritten
    document, provided the rewriting keeps what the query looks at. *)
Lemma find_doc_updateOne q f docs d :
  NoDup (_id <$> docs) →
  (∀ x, q (f x) = q x) →
  find_doc q docs = Some d →
  find_doc q (updateOne (_id d) f docs) = Some (f d).
Proof.
  intros Hnd Hq. induction docs as [|x rest IH]; simpl; [done|].
  apply NoDup_cons in Hnd as [Hx Hnd].
  destruct (q x) eqn:Hqx.
  - intros [= <-]. rewrite decide_True by done. simpl. by rewrite Hq, Hqx.
  - intros Hfind. destruct (find_doc_Some _ _ _ Hfind) as [Hin _].
    rewrite decide_False.
    + simpl. rewrite Hqx. by apply IH.
    + intros Heq. apply Hx. rewrite Heq. apply list_elem_of_fmap. eauto.
Qed.

(** ** Saving a document *)

(** Saving touches [updatedAt] at most: every other field of the saved
    document is the assigned one. *)
Lemma after_save_field {A} (g : Payment → A) now f d :
  (∀ t x, g (set_updatedAt t x) = g x) →
  g (after_save now f d) = g (f d).
Proof.
  intros Hg. unfold after_save. destruct (decide (f d = d)) as [->|_]; [done|].
  apply Hg.
Qed.

(** Assignments that do not depend on [updatedAt] and that are idempotent
    leave a saved document as it is. *)
Lemma after_save_fixed now f d :
  (∀ t x, f (set_updatedAt t x) = set_updatedAt t (f x)) →
  (∀ x, f (f x) = f x) →
  f (after_save now f d) = after_save now f d.
Proof.
  intros Hcomm Hidem. unfold after_save.
  destruct (decide (f d = d)) as [Heq|_]; [done|].
  by rewrite Hcomm, Hidem.
Qed.

(** A save keeps the users, and a query that does not look at the assigned
    fields finds the saved document where it found the original. *)
Lemma save_changes_found q now f w d :
  ids_unique w →
  (∀ x, q (set_updatedAt now (f x)) = q x) →
  find_doc q (payments w) = Some d →
  ∃ w', save_changes now f d w = (Returned (after_save now f d), w')
        ∧ find_doc q (payments w') = Some (after_save now f d)
        ∧ users w' = users w.
Proof.
  intros Hnd Hq Hfind. unfold save_changes, after_save.
  destruct (decide (f d = d)) as [Heq|Hne].
  - exists w. done.
  - eexists. split; [reflexivity|]. simpl. split; [|done].
    by apply (find_doc_updateOne q (λ stored, set_updatedAt now (f stored))).
Qed.

(** A save that changes nothing writes nothing. *)
Lemma save_changes_unchanged now f w d :
  f d = d → save_changes now f d w = (Returned d, w).
Proof.
  intros Heq. unfold save_changes, after_save. by rewrite !decide_True.
Qed.

Lemma markCompleted_fields_fixed now pid sig d :
  markCompleted_fields pid sig (after_save now (markCompleted_fields pid sig) d)
  = after_save now (markCompleted_fields pid sig) d.
Proof. apply after_save_fixed; by intros. Qed.

Lemma set_isPremium_premium u : isPremium u = true → set_isPremium true u = u.
Proof. destruct u as [fn ln em pr]. simpl. by intros ->. Qed.

Section Properties.

Variable db_error_text : DbFailure → string.
Variable keyId keySecret : option string.
Variable hmac_sha256_hex : string → string → string.
Variable orders_create : OrderOptions → Thrown + RazorpayOrder.

(** ** verifyPayment, path by path *)

Lemma verifyPayment_not_found now pd w :
  find_doc (by_order_id (razorpay_order_id pd)) (payments w) = None →
  verifyPayment keySecret hmac_sha256_hex now pd w = (Threw RecordNotFound, w).
Proof.
  intros Hfind. unfold verifyPayment, try_catch, bind, Payment_findOne.
  by rewrite Hfind.
Qed.

Lemma verifyPayment_invalid now pd w d :
  find_doc (by_order_id (razorpay_order_id pd)) (payments w) = Some d →
  verifySignature keySecret hmac_sha256_hex (razorpay_order_id pd) (razorpay_payment_id pd)
    (razorpay_signature pd) = false →
  verifyPayment keySecret hmac_sha256_hex now pd w
  = (Threw VerificationFailed,
     (markFailed now "Invalid payment signature" d w).2).
Proof.
  intros Hfind Hsig.
  unfold verifyPayment, try_catch, bind, Payment_findOne.
  rewrite Hfind, Hsig. simpl. reflexivity.
Qed.

Lemma verifyPayment_valid now pd w d :
  find_doc (by_order_id (razorpay_order_id pd)) (payments w) = Some d →
  verifySignature keySecret hmac_sha256_hex (razorpay_order_id pd) (razorpay_payment_id pd)
    (razorpay_signature pd) = true →
  verifyPayment keySecret hmac_sha256_hex now pd w
  = (Returned {| vr_success := true;
                 vr_paymentId := razorpay_payment_id pd;
                 vr_orderId := razorpay_order_id pd;
                 vr_planType := planType d;
                 vr_amount := amount d;
                 vr_currency := currency d |},
     let w1 :=
       (markCompleted now (Some (razorpay_payment_id pd))
          (Some (razorpay_signature pd)) d w).2 in
     match users w1 !! userId d with
     | Some u => mkWorld (payments w1) (<[userId d := set_isPremium true u]> (users w1))
     | None => w1
     end).
Proof.
  intros Hfind Hsig.
  unfold verifyPayment, try_catch, bind, Payment_findOne.
  rewrite Hfind, Hsig. simpl.
  rewrite !(after_save_field _ now) by done. simpl.
  unfold User_findById, User_save, ret.
  destruct (users _ !! userId d); reflexivity.
Qed.

(** The success path with the collection's key made explicit: the result,
    the record as a later lookup finds it, and the users afterwards. *)
Lemma verifyPayment_valid_found now pd w d :
  ids_unique w →
  find_doc (by_order_id (razorpay_order_id pd)) (payments w) = Some d →
  verifySignature keySecret hmac_sha256_hex (razorpay_order_id pd)
    (razorpay_payment_id pd) (razorpay_signature pd) = true →
  let f := markCompleted_fields (Some (razorpay_payment_id pd))
             (Some (razorpay_signature pd)) in
  ∃ w',
    verifyPayment keySecret hmac_sha256_hex now pd w
    = (Returned {| vr_success := true;
                   vr_paymentId := razorpay_payment_id pd;
                   vr_orderId := razorpay_order_id pd;
                   vr_planType := planType d;
                   vr_amount := amount d;
                   vr_currency := currency d |}, w')
    ∧ find_doc (by_order_id (razorpay_order_id pd)) (payments w')
      = Some (after_save now f d)
    ∧ users w'
      = match users w !! userId d with
        | Some u => <[userId d := set_isPremium true u]> (users w)
        | None => users w
        end.
Proof.
  intros Hnd Hfind Hsig f.
  rewrite (verifyPayment_valid now pd w d Hfind Hsig).
  destruct (save_changes_found (by_order_id (razorpay_order_id pd)) now f w d)
    as (w1 & Hsave & Hfind1 & Husers); [done | done | done |].
  unfold markCompleted. fold f. rewrite Hsave. simpl. rewrite Husers.
  eexists. split; [reflexivity|].
  destruct (users w !! userId d); simpl; by rewrite ?Husers.
Qed.

(** C2: for every stored record with external order id O, verifyPayment(O,
    P, S) with S not the valid signature for O|P throws VerificationFailed
    to the caller and still writes to the database: the record is then
    'failed' with failure reason "Invalid payment signature". *)
Theorem C2_invalid_signature_marks_failed now w d P S :
  ids_unique w → order_ids_unique w → d ∈ payments w →
  verifySignature keySecret hmac_sha256_hex (razorpayOrderId d) P S = false →
  ∃ w' d',
    verifyPayment keySecret hmac_sha256_hex now
      {| razorpay_order_id := razorpayOrderId d;
         razorpay_payment_id := P;
         razorpay_signature := S |} w
    = (Threw VerificationFailed, w')
    ∧ find_doc (by_order_id (razorpayOrderId d)) (payments w') = Some d'
    ∧ _id d' = _id d
    ∧ status d' = failed
    ∧ failureReason d' = Some "Invalid payment signature".
Proof.
  intros Hnd Huniq Hin Hsig.
  pose proof (find_doc_by_order_id w d Huniq Hin) as Hfind.
  set (pd := mkPaymentData (razorpayOrderId d) P S).
  rewrite (verifyPayment_invalid now pd w d Hfind Hsig).
  destruct (save_changes_found (by_order_id (razorpayOrderId d)) now
              (markFailed_fields "Invalid payment signature") w d)
    as (w1 & Hsave & Hfind1 & _); [done | done | done |].
  unfold markFailed. rewrite Hsave. simpl.
  exists w1, (after_save now (markFailed_fields "Invalid payment signature") d).
  split; [done|]. split; [done|].
  by rewrite !(after_save_field _ now).
Qed.

(** C3: for every stored record with external order id O, verifyPayment(O,
    P, S) with S the valid signature for O|P leaves the record 'completed'
    with payment id P and signature S persisted, sets the premium flag of
    the owning user and of no other, and returns success with paymentId,
    orderId and the record's planType, amount and currency; when no record
    has external order id O, the call throws RecordNotFound and the database
    is unchanged. *)
Theorem C3_valid_signature_completes now w O P S :
  ids_unique w → order_ids_unique w →
  (∀ d, d ∈ payments w → razorpayOrderId d = O →
     verifySignature keySecret hmac_sha256_hex O P S = true →
     ∃ w' d',
       verifyPayment keySecret hmac_sha256_hex now
         {| razorpay_order_id := O; razorpay_payment_id := P;
            razorpay_signature := S |} w
       = (Returned {| vr_success := true; vr_paymentId := P; vr_orderId := O;
                      vr_planType := planType d; vr_amount := amount d;
                      vr_currency := currency d |}, w')
       ∧ find_doc (by_order_id O) (payments w') = Some d'
       ∧ _id d' = _id d
       ∧ status d' = completed
       ∧ razorpayPaymentId d' = Some P
       ∧ razorpaySignature d' = Some S
       ∧ (∀ u, users w !! userId d = Some u →
            users w' !! userId d = Some (set_isPremium true u)
            ∧ isPremium <$> users w' !! userId d = Some true)
       ∧ (∀ k, k ≠ userId d → users w' !! k = users w !! k))
  ∧ ((∀ d, d ∈ payments w → razorpayOrderId d ≠ O) →
     verifyPayment keySecret hmac_sha256_hex now
       {| razorpay_order_id := O; razorpay_payment_id := P;
          razorpay_signature := S |} w
     = (Threw RecordNotFound, w)).
Proof.
  intros Hnd Huniq. split.
  - intros d Hin <- Hsig.
    pose proof (find_doc_by_order_id w d Huniq Hin) as Hfind.
    set (pd := mkPaymentData (razorpayOrderId d) P S).
    destruct (verifyPayment_valid_found now pd w d Hnd Hfind Hsig)
      as (w' & Hrun & Hfind' & Husers).
    exists w', (after_save now (markCompleted_fields (Some P) (Some S)) d).
    split; [done|]. split; [done|].
    rewrite !(after_save_field _ now) by done. simpl.
    repeat (split; [done|]). rewrite Husers. split.
    + intros u ->. rewrite lookup_insert_eq. split; reflexivity.
    + intros k Hk. destruct (users w !! userId d); [|done].
      by rewrite lookup_insert_ne.
  - intros Hnone. apply verifyPayment_not_found. simpl.
    apply find_doc_None. intros d Hin. unfold by_order_id.
    apply bool_decide_eq_false. by apply Hnone.
Qed.

(** C10: when the record with external order id O exists but the user it
    references does not, verifyPayment(O, P, S) with a valid signature still
    marks the record 'completed' and returns success; the premium-flag
    update is skipped without an error and no user is written. *)
Theorem C10_missing_owner_still_completes now w d P S :
  ids_unique w → order_ids_unique w → d ∈ payments w →
  users w !! userId d = None →
  verifySignature keySecret hmac_sha256_hex (razorpayOrderId d) P S = true →
  ∃ w' d',
    verifyPayment keySecret hmac_sha256_hex now
      {| razorpay_order_id := razorpayOrderId d;
         razorpay_payment_id := P;
         razorpay_signature := S |} w
    = (Returned {| vr_success := true; vr_paymentId := P;
                   vr_orderId := razorpayOrderId d;
                   vr_planType := planType d; vr_amount := amount d;
                   vr_currency := currency d |}, w')
    ∧ find_doc (by_order_id (razorpayOrderId d)) (payments w') = Some d'
    ∧ status d' = completed
    ∧ users w' = users w.
Proof.
  intros Hnd Huniq Hin Huser Hsig.
  pose proof (find_doc_by_order_id w d Huniq Hin) as Hfind.
  set (pd := mkPaymentData (razorpayOrderId d) P S).
  destruct (verifyPayment_valid_found now pd w d Hnd Hfind Hsig)
    as (w' & Hrun & Hfind' & Husers).
  exists w', (after_save now (markCompleted_fields (Some P) (Some S)) d).
  split; [done|]. split; [done|].
  rewrite (after_save_field status now) by done.
  split; [done|]. by rewrite Husers, Huser.
Qed.

(** C8: verifyPayment is idempotent on its success path.  After a
    successful verifyPayment(O1, P1, signature), which completed the record
    and set the owner's premium flag, the same call again returns the same
    success result and leaves the whole database as it was: status, payment
    id and signature of the record are unchanged and writing the premium
    flag a second time raises nothing. *)
Theorem C8_verifyPayment_idempotent now1 now2 w d P S :
  ids_unique w → order_ids_unique w → d ∈ payments w →
  verifySignature keySecret hmac_sha256_hex (razorpayOrderId d) P S = true →
  let pd := {| razorpay_order_id := razorpayOrderId d;
               razorpay_payment_id := P;
               razorpay_signature := S |} in
  ∃ res w1 d1,
    verifyPayment keySecret hmac_sha256_hex now1 pd w = (Returned res, w1)
    ∧ vr_success res = true
    ∧ find_doc (by_order_id (razorpayOrderId d)) (payments w1) = Some d1
    ∧ status d1 = completed
    ∧ razorpayPaymentId d1 = Some P
    ∧ razorpaySignature d1 = Some S
    ∧ verifyPayment keySecret hmac_sha256_hex now2 pd w1 = (Returned res, w1).
Proof.
  intros Hnd Huniq Hin Hsig pd.
  pose proof (find_doc_by_order_id w d Huniq Hin) as Hfind.
  destruct (verifyPayment_valid_found now1 pd w d Hnd Hfind Hsig)
    as (w1 & Hrun & Hfind1 & Husers).
  set (f := markCompleted_fields (Some P) (Some S)) in *.
  set (d1 := after_save now1 f d) in *.
  eexists _, w1, d1. split; [exact Hrun|]. split; [done|]. split; [done|].
  unfold d1. rewrite !(after_save_field _ now1) by done.
  repeat (split; [done|]).
  rewrite (verifyPayment_valid now2 pd w1 d1 Hfind1 Hsig).
  assert (Hfix : f d1 = d1) by apply markCompleted_fields_fixed.
  unfold markCompleted. simpl. fold f. rewrite !(decide_True _ _ Hfix).
  unfold d1. rewrite !(after_save_field _ now1) by done. simpl.
  f_equal. rewrite Husers.
  destruct (users w !! userId d) as [u|] eqn:Hu.
  - rewrite lookup_insert_eq.
    destruct w1 as [ps us]. simpl in *. f_equal.
    rewrite Husers. apply insert_id.
    rewrite lookup_insert_eq. by destruct u.
  - by rewrite Hu.
Qed.

(** ** verifySignature *)

(** C4: verifySignature(orderId, paymentId, signature) is a total boolean
    function; under a secret it is true exactly when signature is the hex
    HMAC-SHA256 of orderId + '|' + paymentId, and whenever the digest
    computation throws it is false. *)
Theorem C4_verifySignature_exact orderId paymentId signature :
  (∀ secret, keySecret = Some secret →
     (verifySignature keySecret hmac_sha256_hex orderId paymentId signature
      = true
      ↔ signature = hmac_sha256_hex secret (orderId +:+ "|" +:+ paymentId)))
  ∧ (∀ e, createHmac_digest hmac_sha256_hex keySecret
            (orderId +:+ "|" +:+ paymentId) = inl e →
       verifySignature keySecret hmac_sha256_hex orderId paymentId signature
       = false).
Proof.
  unfold verifySignature. split.
  - intros secret ->. simpl. rewrite bool_decide_eq_true. split; congruence.
  - intros e ->. reflexivity.
Qed.

(** ** handleWebhook *)

(** C9: for an event whose type is none of 'payment.captured',
    'payment.failed' and 'order.paid', handleWebhook returns
    {processed: false} (with the event type), throws nothing, and leaves
    every payment record and every user as it was. *)
Theorem C9_unknown_event_ignored now ev signature w :
  event ev ≠ "payment.captured" →
  event ev ≠ "payment.failed" →
  event ev ≠ "order.paid" →
  handleWebhook now ev signature w
  = (Returned {| processed := false; wr_paymentId := None;
                 wr_orderId := None; wr_event := Some (event ev) |}, w).
Proof.
  intros H1 H2 H3. unfold handleWebhook, try_catch.
  by rewrite !decide_False.
Qed.

Lemma handleWebhook_captured now ev signature pe w :
  event ev = "payment.captured" →
  payload_payment (payload ev) = Some (Some pe) →
  handleWebhook now ev signature w
  = match handlePaymentCaptured now (Some pe) w with
    | (Returned r, w') => (Returned r, w')
    | (Threw e, w') =>
        (Threw (Error ("Webhook processing failed: " +:+ message_text e)), w')
    end.
Proof.
  intros Hev Hpe. unfold handleWebhook, try_catch. rewrite Hev, Hpe.
  rewrite decide_True by done.
  by destruct (handlePaymentCaptured now (Some pe) w) as [[r|e] w'].
Qed.

(** C5 (as amended): on a 'payment.captured' event handleWebhook looks the
    record up by payload.payment.entity.order_id, the order id of the
    payment entity.  A record found in status 'pending' becomes 'completed'
    (with the entity's payment id) and its owner's premium flag is true
    afterwards; a record found in another status, or no record found,
    leaves the database untouched.  In each of these cases the result is
    processed: true. *)
Theorem C5_captured_completes_pending now ev signature pe w :
  ids_unique w →
  event ev = "payment.captured" →
  payload_payment (payload ev) = Some (Some pe) →
  ∃ w',
    handleWebhook now ev signature w
    = (Returned {| processed := true; wr_paymentId := Some (pe_id pe);
                   wr_orderId := None; wr_event := None |}, w')
    ∧ match find_doc (by_order_id (pe_order_id pe)) (payments w) with
      | Some d =>
          if decide (status d = pending) then
            ∃ d',
              find_doc (by_order_id (pe_order_id pe)) (payments w') = Some d'
              ∧ _id d' = _id d
              ∧ status d' = completed
              ∧ razorpayPaymentId d' = Some (pe_id pe)
              ∧ (∀ u, users w !! userId d = Some u →
                   users w' !! userId d = Some (set_isPremium true u)
                   ∧ isPremium <$> users w' !! userId d = Some true)
              ∧ (∀ k, k ≠ userId d → users w' !! k = users w !! k)
          else w' = w
      | None => w' = w
      end.
Proof.
  intros Hnd Hev Hpe. rewrite (handleWebhook_captured now ev signature pe w Hev Hpe).
  unfold handlePaymentCaptured, bind, Payment_findOne, ret.
  destruct (find_doc _ (payments w)) as [d|] eqn:Hfind; [|by exists w].
  destruct (decide (status d = pending)) as [Hst|Hst]; [|by exists w].
  set (f := markCompleted_fields (Some (pe_id pe)) None).
  destruct (save_changes_found (by_order_id (pe_order_id pe)) now f w d)
    as (w1 & Hsave & Hfind1 & Husers); [done | done | done |].
  unfold markCompleted. fold f. rewrite Hsave.
  unfold User_findById, User_save.
  rewrite (after_save_field userId now) by done. simpl. rewrite Husers.
  destruct (users w !! userId d) as [u|] eqn:Hu.
  - destruct (isPremium u) eqn:Hprem; simpl.
    + exists w1. split; [done|]. exists (after_save now f d).
      split; [done|]. rewrite !(after_save_field _ now) by done. simpl.
      repeat (split; [done|]). rewrite Husers. split; [|done].
      intros u' [= <-]. rewrite Hu. simpl. rewrite Hprem.
      by rewrite set_isPremium_premium.
    + eexists. split; [reflexivity|]. exists (after_save now f d). simpl.
      split; [done|]. rewrite !(after_save_field _ now) by done. simpl.
      repeat (split; [done|]). rewrite Husers. split.
      * intros u' [= <-]. rewrite lookup_insert_eq. split; reflexivity.
      * intros k Hk. by rewrite lookup_insert_ne.
  - exists w1. split; [done|]. exists (after_save now f d).
    split; [done|]. rewrite !(after_save_field _ now) by done. simpl.
    repeat (split; [done|]). by rewrite Husers.
Qed.

(** ** createOrder *)

Lemma pre_save_amount_integer a : pre_save_amount a = a.
Proof.
  unfold pre_save_amount.
  destruct (0 <? a)%Z eqn:H0, (a <? 1)%Z eqn:H1; simpl; try done.
  apply Z.ltb_lt in H0. apply Z.ltb_lt in H1. lia.
Qed.

Lemma plans_get_catalog planId plan :
  assoc planId plans = Some plan → plans_get planId = Some (OwnPlan plan).
Proof. intros H. unfold plans_get. by rewrite H. Qed.

Lemma key_taken_false key k docs :
  key_taken key k docs = false → ∀ q, q ∈ docs → key q ≠ k.
Proof.
  unfold key_taken. intros H%bool_decide_eq_false q Hq Heq.
  apply H. rewrite <- Heq. apply list_elem_of_fmap. eauto.
Qed.

(** What a successful insertion did. *)
Lemma save_new_Returned oid now i w doc w' :
  save_new db_error_text oid now i w = (Returned doc, w') →
  ∃ a, init_amount i = Some a
       ∧ validate_init i = true
       ∧ key_taken _id oid (payments w) = false
       ∧ key_taken razorpayOrderId (init_razorpayOrderId i) (payments w) = false
       ∧ doc = new_Payment oid now a i
       ∧ w' = mkWorld (payments w ++ [doc]) (users w).
Proof.
  unfold save_new. destruct (init_amount i) as [a|]; [|done].
  destruct (validate_init i); simpl; [|done].
  destruct (key_taken _id oid (payments w)); simpl; [done|].
  destruct (key_taken razorpayOrderId _ (payments w)); simpl; [done|].
  intros [= <- <-]. by exists a.
Qed.

(** C6: for a plan id of the catalog and an eligible user (stored, not
    premium), a createOrder call that returns has appended exactly one
    record to the collection and changed nothing else; the record is
    'pending', its amount is the catalog's amount for the plan, and its
    external order id is the id the gateway answered to this call, which no
    record stored before carries. *)
Theorem C6_createOrder_persists_pending
    t_receipt oid t_save uid planId plan u w res w' :
  assoc planId plans = Some plan →
  users w !! uid = Some u →
  isPremium u = false →
  createOrder db_error_text keyId keySecret orders_create
    t_receipt oid t_save uid planId w = (Returned res, w') →
  ∃ order p,
    orders_create (catalog_order_options t_receipt uid planId plan u)
    = inr order
    ∧ payments w' = (payments w ++ [p])%list
    ∧ users w' = users w
    ∧ status p = pending
    ∧ amount p = plan_amount plan
    ∧ razorpayOrderId p = order_id order
    ∧ od_orderId res = order_id order
    ∧ userId p = uid
    ∧ planType p = planId
    ∧ (∀ q, q ∈ payments w → razorpayOrderId q ≠ razorpayOrderId p).
Proof.
  intros Hplan Hu Hprem. unfold createOrder, try_catch.
  destruct (negb (Js.truthy_opt keyId) || negb (Js.truthy_opt keySecret));
    [done|].
  rewrite (plans_get_catalog planId plan Hplan).
  unfold bind at 1. unfold User_findById at 1. rewrite Hu, Hprem.
  unfold bind at 1. unfold razorpay_orders_create. simpl.
  fold (catalog_order_options t_receipt uid planId plan u).
  destruct (orders_create _) as [e|order]; [done|].
  unfold ret at 1. unfold bind.
  destruct (save_new _ _ _ _ w) as [[doc|e] w1] eqn:Hsave; [|done].
  intros [= <- <-].
  apply save_new_Returned in Hsave
    as (a & Ha & _ & _ & Htaken & -> & ->). simpl in *.
  injection Ha as <-.
  exists order, (new_Payment oid t_save (plan_amount plan)
    {| init_userId := uid; init_razorpayOrderId := order_id order;
       init_amount := Some (plan_amount plan);
       init_currency := Some (plan_currency plan);
       init_planType := planId;
       init_description := Some (plan_description plan);
       init_status := pending;
       init_notes := order_notes uid planId u |}).
  simpl. rewrite pre_save_amount_integer.
  repeat (split; [done|]).
  by apply (key_taken_false razorpayOrderId).
Qed.

(** The call does return when the gateway answers with an order whose id is
    not empty and not stored yet, and the new ObjectId is fresh. *)
Lemma createOrder_succeeds t_receipt oid t_save uid planId plan u w order :
  Js.truthy_opt keyId = true → Js.truthy_opt keySecret = true →
  assoc planId plans = Some plan →
  users w !! uid = Some u →
  isPremium u = false →
  orders_create (catalog_order_options t_receipt uid planId plan u)
  = inr order →
  order_id order ≠ "" →
  (∀ q, q ∈ payments w → razorpayOrderId q ≠ order_id order) →
  (∀ q, q ∈ payments w → _id q ≠ oid) →
  ∃ res w',
    createOrder db_error_text keyId keySecret orders_create
      t_receipt oid t_save uid planId w = (Returned res, w').
Proof.
  intros Hk Hs Hplan Hu Hprem Hgw Hne Hfresh Hoid.
  unfold createOrder, try_catch. rewrite Hk, Hs. simpl.
  rewrite (plans_get_catalog planId plan Hplan).
  unfold bind at 1. unfold User_findById at 1. rewrite Hu, Hprem.
  unfold bind at 1. unfold razorpay_orders_create. simpl.
  fold (catalog_order_options t_receipt uid planId plan u). rewrite Hgw.
  unfold ret at 1. unfold bind, save_new. simpl.
  assert (Hval : validate_init
    {| init_userId := uid; init_razorpayOrderId := order_id order;
       init_amount := Some (plan_amount plan);
       init_currency := Some (plan_currency plan);
       init_planType := planId;
       init_description := Some (plan_description plan);
       init_status := pending;
       init_notes := order_notes uid planId u |} = true).
  { unfold validate_init. simpl.
    assert (Hcat : planId ∈ planType_enum ∧ (0 <=? plan_amount plan)%Z = true).
    { unfold plans, assoc in Hplan. repeat case_decide; simplify_eq;
        (split; [set_solver | done]). }
    destruct Hcat as [Hin Hpos]. rewrite Hpos, bool_decide_eq_true_2 by done.
    destruct (order_id order); [done | reflexivity]. }
  rewrite Hval. simpl.
  assert (Hid : key_taken _id oid (payments w) = false).
  { apply bool_decide_eq_false. intros (q & Hq & Hin)%list_elem_of_fmap.
    by apply (Hoid q). }
  assert (Hoidx : key_taken razorpayOrderId (order_id order) (payments w)
                  = false).
  { apply bool_decide_eq_false. intros (q & Hq & Hin)%list_elem_of_fmap.
    by apply (Hfresh q). }
  rewrite Hid, Hoidx. simpl. eauto.
Qed.

(** C7 (as amended): for every user whose premium flag is already true and
    every plan id, createOrder throws and the database is unchanged (no
    record is created).  With the gateway credentials configured, the error
    is AlreadyPremium when the plan id selects something in the plan table
    (any plan id of the catalog does) and InvalidPlan when it selects
    nothing. *)
Theorem C7_premium_user_rejected t_receipt oid t_save uid planId u w :
  users w !! uid = Some u →
  isPremium u = true →
  (Js.truthy_opt keyId = true → Js.truthy_opt keySecret = true →
   plans_get planId ≠ None →
   createOrder db_error_text keyId keySecret orders_create
     t_receipt oid t_save uid planId w = (Threw AlreadyPremium, w))
  ∧ (Js.truthy_opt keyId = true → Js.truthy_opt keySecret = true →
     plans_get planId = None →
     createOrder db_error_text keyId keySecret orders_create
       t_receipt oid t_save uid planId w = (Threw InvalidPlan, w))
  ∧ ∃ e,
      createOrder db_error_text keyId keySecret orders_create
        t_receipt oid t_save uid planId w = (Threw e, w).
Proof.
  intros Hu Hprem. unfold createOrder, try_catch. split; [|split].
  - intros -> -> Hplan. simpl.
    destruct (plans_get planId); [|done].
    unfold bind, User_findById. by rewrite Hu, Hprem.
  - by intros -> -> ->.
  - destruct (negb _ || negb _); [by eexists|].
    destruct (plans_get planId); [|by eexists].
    unfold bind, User_findById. rewrite Hu, Hprem. by eexists.
Qed.

End Properties.

(** ** Where terminal states are sticky *)

Lemma status_kept_refl d : status_kept d d.
Proof. by split. Qed.

Lemma Forall2_status_kept_refl docs : Forall2 status_kept docs docs.
Proof. induction docs; constructor; auto using status_kept_refl. Qed.

Lemma updateOne_status_kept g docs d :
  NoDup (_id <$> docs) → d ∈ docs →
  status_kept d (g d) →
  Forall2 status_kept docs (updateOne (_id d) g docs).
Proof.
  intros Hnd Hin Hd. induction docs as [|x rest IH]; simpl.
  - constructor.
  - apply NoDup_cons in Hnd as [Hx Hnd].
    destruct (decide (_id x = _id d)) as [Heq|Hne].
    + assert (x = d) as ->.
      { apply elem_of_cons in Hin as [->|Hin]; [done|].
        exfalso. apply Hx. rewrite Heq. apply list_elem_of_fmap. eauto. }
      constructor; [done | apply Forall2_status_kept_refl].
    + constructor; [apply status_kept_refl|].
      apply IH; [done|].
      apply elem_of_cons in Hin as [->|Hin]; [done | done].
Qed.

Lemma save_changes_status_kept now f w d o w' :
  ids_unique w → d ∈ payments w →
  status_kept d (set_updatedAt now (f d)) →
  save_changes now f d w = (o, w') →
  Forall2 status_kept (payments w) (payments w') ∧ users w' = users w.
Proof.
  intros Hnd Hin Hd. unfold save_changes.
  destruct (decide (f d = d)); intros [= <- <-]; simpl.
  - split; [apply Forall2_status_kept_refl | done].
  - split; [|done].
    by apply (updateOne_status_kept (λ stored, set_updatedAt now (f stored))).
Qed.

(** Every webhook handler writes a status only to a record it found
    'pending': whatever the event, no record leaves a terminal state. *)
Lemma handleWebhook_terminal_sticky now ev signature w :
  ids_unique w →
  Forall2 status_kept (payments w)
    (payments (handleWebhook now ev signature w).2).
Proof.
  intros Hnd. unfold handleWebhook, try_catch.
  repeat case_decide; simpl; try apply Forall2_status_kept_refl.
  - destruct (payload_payment (payload ev)) as [[pe|]|]; simpl;
      try apply Forall2_status_kept_refl.
    unfold bind, Payment_findOne, ret.
    destruct (find_doc _ (payments w)) as [d|] eqn:Hfind;
      [|apply Forall2_status_kept_refl].
    apply find_doc_Some in Hfind as [Hin _].
    destruct (decide (status d = pending)) as [Hst|Hst];
      [|apply Forall2_status_kept_refl].
    destruct (markCompleted now (Some (pe_id pe)) None d w) as [o w1] eqn:Hm.
    apply save_changes_status_kept in Hm as [Hkept Husers];
      [ | done | done | by split ].
    destruct o as [d1|e]; [|done].
    unfold User_findById, User_save.
    destruct (users w1 !! userId d1) as [u|]; [|done].
    by destruct (isPremium u).
  - destruct (payload_payment (payload ev)) as [[pe|]|]; simpl;
      try apply Forall2_status_kept_refl.
    unfold bind, Payment_findOne, ret.
    destruct (find_doc _ (payments w)) as [d|] eqn:Hfind;
      [|apply Forall2_status_kept_refl].
    apply find_doc_Some in Hfind as [Hin _].
    destruct (decide (status d = pending)) as [Hst|Hst];
      [|apply Forall2_status_kept_refl].
    destruct (markFailed now _ d w) as [o w1] eqn:Hm.
    apply save_changes_status_kept in Hm as [Hkept Husers];
      [ | done | done | by split ].
    by destruct o.
  - destruct (payload_order (payload ev)) as [[oe|]|]; simpl;
      try apply Forall2_status_kept_refl.
    unfold bind, Payment_findOne, ret.
    destruct (find_doc _ (payments w)) as [d|] eqn:Hfind;
      [|apply Forall2_status_kept_refl].
    apply find_doc_Some in Hfind as [Hin _].
    destruct (save_changes now _ d w) as [o w1] eqn:Hm.
    apply save_changes_status_kept in Hm as [Hkept Husers];
      [ | done | done | by split ].
    by destruct o.
Qed.

(** [cancelPayment] selects among the 'pending' records only. *)
Lemma cancelPayment_terminal_sticky now orderId user w :
  ids_unique w →
  Forall2 status_kept (payments w)
    (payments (cancelPayment now orderId user w).2).
Proof.
  intros Hnd. unfold cancelPayment, try_catch, bind, Payment_findOne.
  destruct (find_doc _ (payments w)) as [d|] eqn:Hfind;
    [|apply Forall2_status_kept_refl].
  apply find_doc_Some in Hfind as [Hin Hq].
  unfold pending_order_of in Hq.
  apply andb_true_iff in Hq as [_ Hst%bool_decide_eq_true].
  destruct (markCancelled now d w) as [o w1] eqn:Hm.
  apply save_changes_status_kept in Hm as [Hkept Husers];
    [ | done | done | by split ].
  by destruct o.
Qed.

(** ** The keys of the collection are invariant *)

Lemma updateOne_keys {A} (key : Payment → A) g id docs :
  (∀ x, key (g x) = key x) →
  key <$> updateOne id g docs = key <$> docs.
Proof.
  intros Hg. induction docs as [|x rest IH]; [done|].
  cbn [updateOne]. case_decide; rewrite !fmap_cons; [by rewrite Hg | by rewrite IH].
Qed.

Lemma save_changes_keys {A} (key : Payment → A) now f d w :
  (∀ x, key (f x) = key x) →
  (∀ t x, key (set_updatedAt t x) = key x) →
  key <$> payments (save_changes now f d w).2 = key <$> payments w.
Proof.
  intros Hf Ht. unfold save_changes. simpl. case_decide; [done|]. simpl.
  apply updateOne_keys. intros x. by rewrite Ht, Hf.
Qed.

(** Both uniqueness constraints, as one invariant of the database. *)
Lemma keys_unique_preserved w w' :
  _id <$> payments w' = _id <$> payments w →
  razorpayOrderId <$> payments w' = razorpayOrderId <$> payments w →
  ids_unique w ∧ order_ids_unique w →
  ids_unique w' ∧ order_ids_unique w'.
Proof. unfold ids_unique, order_ids_unique. by intros -> ->. Qed.

Lemma verifyPayment_keeps_unique keySecret hmac_sha256_hex now pd w :
  ids_unique w ∧ order_ids_unique w →
  ids_unique (verifyPayment keySecret hmac_sha256_hex now pd w).2
  ∧ order_ids_unique (verifyPayment keySecret hmac_sha256_hex now pd w).2.
Proof.
  destruct (find_doc (by_order_id (razorpay_order_id pd)) (payments w))
    as [d|] eqn:Hfind.
  - destruct (verifySignature keySecret hmac_sha256_hex (razorpay_order_id pd)
                (razorpay_payment_id pd) (razorpay_signature pd)) eqn:Hsig.
    + rewrite (verifyPayment_valid _ _ now pd w d Hfind Hsig).
      apply keys_unique_preserved; simpl;
        destruct (users _ !! userId d); simpl;
        by apply save_changes_keys.
    + rewrite (verifyPayment_invalid _ _ now pd w d Hfind Hsig).
      apply keys_unique_preserved; by apply save_changes_keys.
  - by rewrite (verifyPayment_not_found _ _ now pd w Hfind).
Qed.

(** [createOrder] either leaves the database as it found it or appends one
    document whose two keys are new. *)
Lemma createOrder_world db_error_text keyId keySecret orders_create
    t_receipt oid t_save uid planId w o w' :
  createOrder db_error_text keyId keySecret orders_create
    t_receipt oid t_save uid planId w = (o, w') →
  w' = w
  ∨ ∃ doc,
      w' = mkWorld (payments w ++ [doc]) (users w)
      ∧ (_id doc ∉ _id <$> payments w)
      ∧ (razorpayOrderId doc ∉ razorpayOrderId <$> payments w).
Proof.
  unfold createOrder, try_catch.
  destruct (negb _ || negb _); [intros [= _ <-]; by left|].
  destruct (plans_get planId) as [slot|]; [|intros [= _ <-]; by left].
  unfold bind at 1. unfold User_findById at 1.
  destruct (users w !! uid) as [u|]; [|intros [= _ <-]; by left].
  destruct (isPremium u); [intros [= _ <-]; by left|].
  unfold bind at 1. unfold razorpay_orders_create.
  destruct (orders_create _) as [e|order]; [intros [= _ <-]; by left|].
  unfold ret at 1. unfold bind.
  destruct (save_new _ _ _ _ w) as [[doc|e] w1] eqn:Hsave; intros [= _ <-].
  - apply save_new_Returned in Hsave
      as (a & _ & _ & Hid & Hoid & -> & ->). simpl in *.
    right. eexists. split; [reflexivity|]. simpl.
    apply bool_decide_eq_false in Hid. apply bool_decide_eq_false in Hoid.
    done.
  - left. unfold save_new in Hsave.
    repeat (case_match; simplify_eq/=; try done).
Qed.

Lemma createOrder_keeps_unique db_error_text keyId keySecret orders_create
    t_receipt oid t_save uid planId w :
  ids_unique w ∧ order_ids_unique w →
  ids_unique (createOrder db_error_text keyId keySecret orders_create
                t_receipt oid t_save uid planId w).2
  ∧ order_ids_unique (createOrder db_error_text keyId keySecret orders_create
                        t_receipt oid t_save uid planId w).2.
Proof.
  intros [Hid Hoid].
  destruct (createOrder _ _ _ _ _ _ _ _ _ w) as [o w'] eqn:Hrun.
  apply createOrder_world in Hrun
    as [->|(doc & -> & Hfresh_id & Hfresh_oid)]; [done|].
  unfold ids_unique, order_ids_unique in *. simpl.
  rewrite !fmap_app. simpl. split; apply NoDup_app.
  - split; [done|]. split; [|apply NoDup_singleton].
    by intros x Hx ->%list_elem_of_singleton.
  - split; [done|]. split; [|apply NoDup_singleton].
    by intros x Hx ->%list_elem_of_singleton.
Qed.

(** ** Worked instances *)

Ltac by_computation :=
  unfold ids_unique, order_ids_unique;
  apply (bool_decide_unpack _); vm_compute; exact I.

(** A forged signature on the pending order of [alice]. *)
Lemma C2_invalid_signature_marks_failed_witness :
  ∃ w' d',
    verifyPayment Sample.secret Sample.hmac 2000
      {| razorpay_order_id := "order_O1"; razorpay_payment_id := "pay_P1";
         razorpay_signature := "forged" |} Sample.pending_world
    = (Threw VerificationFailed, w')
    ∧ find_doc (by_order_id "order_O1") (payments w') = Some d'
    ∧ _id d' = "p1"
    ∧ status d' = failed
    ∧ failureReason d' = Some "Invalid payment signature".
Proof.
  apply (C2_invalid_signature_marks_failed Sample.secret Sample.hmac 2000
           Sample.pending_world (Sample.order1 pending None None None)
           "pay_P1" "forged").
  - by_computation.
  - by_computation.
  - by_computation.
  - vm_compute. reflexivity.
Defined.

(** The good signature on the pending order of [alice], and an order id
    that is not stored. *)
Lemma C3_valid_signature_completes_witness :
  (∃ w' d',
     verifyPayment Sample.secret Sample.hmac 2000
       {| razorpay_order_id := "order_O1"; razorpay_payment_id := "pay_P1";
          razorpay_signature := Sample.good_sig |} Sample.pending_world
     = (Returned {| vr_success := true; vr_paymentId := "pay_P1";
                    vr_orderId := "order_O1";
                    vr_planType := "premium_monthly"; vr_amount := 99900;
                    vr_currency := "INR" |}, w')
     ∧ find_doc (by_order_id "order_O1") (payments w') = Some d'
     ∧ status d' = completed
     ∧ razorpayPaymentId d' = Some "pay_P1"
     ∧ razorpaySignature d' = Some Sample.good_sig
     ∧ users w' !! "64b000000000000000000001"
       = Some (set_isPremium true Sample.alice)
     ∧ isPremium <$> users w' !! "64b000000000000000000001" = Some true)
  ∧ verifyPayment Sample.secret Sample.hmac 2000
      {| razorpay_order_id := "order_O7"; razorpay_payment_id := "pay_P1";
         razorpay_signature := Sample.good_sig |} Sample.pending_world
    = (Threw RecordNotFound, Sample.pending_world).
Proof.
  split.
  - destruct (C3_valid_signature_completes Sample.secret Sample.hmac 2000
                Sample.pending_world "order_O1" "pay_P1" Sample.good_sig)
      as [Hfound _]; [by_computation | by_computation |].
    destruct (Hfound (Sample.order1 pending None None None))
      as (w' & d' & Hrun & Hfind & _ & Hst & Hpid & Hsig & Hflag & _);
      [by_computation | reflexivity | vm_compute; reflexivity |].
    exists w', d'. repeat (split; [assumption|]).
    apply (Hflag Sample.alice). vm_compute. reflexivity.
  - destruct (C3_valid_signature_completes Sample.secret Sample.hmac 2000
                Sample.pending_world "order_O7" "pay_P1" Sample.good_sig)
      as [_ Hmissing]; [by_computation | by_computation |].
    apply Hmissing. apply Forall_forall. by_computation.
Defined.

(** The good signature on the order whose owner is not stored. *)
Lemma C10_missing_owner_still_completes_witness :
  ∃ w' d',
    verifyPayment Sample.secret Sample.hmac 2000
      {| razorpay_order_id := "order_O9"; razorpay_payment_id := "pay_P9";
         razorpay_signature := Sample.hmac "s3cr3t" "order_O9|pay_P9" |}
      Sample.pending_world
    = (Returned {| vr_success := true; vr_paymentId := "pay_P9";
                   vr_orderId := "order_O9";
                   vr_planType := "premium_yearly"; vr_amount := 999900;
                   vr_currency := "INR" |}, w')
    ∧ find_doc (by_order_id "order_O9") (payments w') = Some d'
    ∧ status d' = completed
    ∧ users w' = Sample.people.
Proof.
  apply (C10_missing_owner_still_completes Sample.secret Sample.hmac 2000
           Sample.pending_world Sample.orphan "pay_P9"
           (Sample.hmac "s3cr3t" "order_O9|pay_P9")).
  - by_computation.
  - by_computation.
  - by_computation.
  - vm_compute. reflexivity.
  - vm_compute. reflexivity.
Defined.

(** The same verification twice, at two different times. *)
Lemma C8_verifyPayment_idempotent_witness :
  ∃ res w1 d1,
    verifyPayment Sample.secret Sample.hmac 2000
      {| razorpay_order_id := "order_O1"; razorpay_payment_id := "pay_P1";
         razorpay_signature := Sample.good_sig |} Sample.pending_world
    = (Returned res, w1)
    ∧ vr_success res = true
    ∧ find_doc (by_order_id "order_O1") (payments w1) = Some d1
    ∧ status d1 = completed
    ∧ razorpayPaymentId d1 = Some "pay_P1"
    ∧ razorpaySignature d1 = Some Sample.good_sig
    ∧ verifyPayment Sample.secret Sample.hmac 3000
        {| razorpay_order_id := "order_O1"; razorpay_payment_id := "pay_P1";
           razorpay_signature := Sample.good_sig |} w1
      = (Returned res, w1).
Proof.
  apply (C8_verifyPayment_idempotent Sample.secret Sample.hmac 2000 3000
           Sample.pending_world (Sample.order1 pending None None None)
           "pay_P1" Sample.good_sig).
  - by_computation.
  - by_computation.
  - by_computation.
  - vm_compute. reflexivity.
Defined.

(** With the sample secret, and with no secret configured. *)
Lemma C4_verifySignature_exact_witness :
  (verifySignature Sample.secret Sample.hmac "order_O1" "pay_P1"
     Sample.good_sig = true
   ↔ Sample.good_sig = Sample.hmac "s3cr3t" ("order_O1" +:+ "|" +:+ "pay_P1"))
  ∧ verifySignature None Sample.hmac "order_O1" "pay_P1" Sample.good_sig
    = false.
Proof.
  split.
  - apply (proj1 (C4_verifySignature_exact Sample.secret Sample.hmac
                    "order_O1" "pay_P1" Sample.good_sig)).
    reflexivity.
  - apply (proj2 (C4_verifySignature_exact None Sample.hmac
                    "order_O1" "pay_P1" Sample.good_sig)
             (Error "The key argument must be of type string")).
    reflexivity.
Defined.

(** A 'refund.created' event. *)
Lemma C9_unknown_event_ignored_witness :
  handleWebhook 2000 Sample.refunded None Sample.pending_world
  = (Returned {| processed := false; wr_paymentId := None;
                 wr_orderId := None; wr_event := Some "refund.created" |},
     Sample.pending_world).
Proof.
  apply (C9_unknown_event_ignored 2000 Sample.refunded None
           Sample.pending_world); vm_compute; discriminate.
Defined.

(** A capture of the pending order, and of the same order once failed. *)
Lemma C5_captured_completes_pending_witness :
  (∃ w',
     handleWebhook 2000 (Sample.captured "order_O1") None Sample.pending_world
     = (Returned {| processed := true; wr_paymentId := Some "pay_P1";
                    wr_orderId := None; wr_event := None |}, w')
     ∧ ∃ d',
         find_doc (by_order_id "order_O1") (payments w') = Some d'
         ∧ _id d' = "p1"
         ∧ status d' = completed
         ∧ razorpayPaymentId d' = Some "pay_P1"
         ∧ users w' !! "64b000000000000000000001"
           = Some (set_isPremium true Sample.alice)
         ∧ isPremium <$> users w' !! "64b000000000000000000001" = Some true)
  ∧ (∃ w',
       handleWebhook 2000 (Sample.captured "order_O1") None
         Sample.failed_world
       = (Returned {| processed := true; wr_paymentId := Some "pay_P1";
                      wr_orderId := None; wr_event := None |}, w')
       ∧ w' = Sample.failed_world).
Proof.
  split.
  - destruct (C5_captured_completes_pending 2000 (Sample.captured "order_O1")
                None
                {| pe_id := "pay_P1"; pe_order_id := "order_O1";
                   pe_error_description := None |}
                Sample.pending_world)
      as (w' & Hrun & d' & Hfind & Hid & Hst & Hpid & Hflag & _);
      [by_computation | reflexivity | reflexivity |].
    exists w'. split; [exact Hrun|]. exists d'.
    repeat (split; [assumption|]).
    apply (Hflag Sample.alice). vm_compute. reflexivity.
  - apply (C5_captured_completes_pending 2000 (Sample.captured "order_O1")
             None
             {| pe_id := "pay_P1"; pe_order_id := "order_O1";
                pe_error_description := None |}
             Sample.failed_world);
      [by_computation | reflexivity | reflexivity].
Defined.

(** [alice] orders the monthly plan. *)
Lemma C6_createOrder_persists_pending_witness :
  ∃ res w',
    createOrder Sample.db_text Sample.key Sample.secret Sample.gateway
      5000 "p2" 5001 "64b000000000000000000001" "premium_monthly"
      Sample.pending_world
    = (Returned res, w')
    ∧ ∃ p,
        payments w' = (payments Sample.pending_world ++ [p])%list
        ∧ users w' = users Sample.pending_world
        ∧ status p = pending
        ∧ amount p = 99900%Z
        ∧ razorpayOrderId p = "order_N2"
        ∧ od_orderId res = "order_N2"
        ∧ (∀ q, q ∈ payments Sample.pending_world →
             razorpayOrderId q ≠ razorpayOrderId p).
Proof.
  destruct (createOrder Sample.db_text Sample.key Sample.secret
              Sample.gateway 5000 "p2" 5001 "64b000000000000000000001"
              "premium_monthly" Sample.pending_world)
    as [[res|e] w'] eqn:Hrun; [|vm_compute in Hrun; discriminate].
  exists res, w'. split; [reflexivity|].
  destruct (C6_createOrder_persists_pending Sample.db_text Sample.key
              Sample.secret Sample.gateway 5000 "p2" 5001
              "64b000000000000000000001" "premium_monthly"
              {| plan_amount := 99900; plan_currency := "INR";
                 plan_description := "Premium Monthly Subscription";
                 plan_duration := 30 |}
              Sample.alice Sample.pending_world res w')
    as (order & p & Hgw & Hps & Hus & Hst & Ham & Hoid & Hres & _ & _ & Hnew);
    [reflexivity | vm_compute; reflexivity | reflexivity | exact Hrun |].
  injection Hgw as <-. exists p. by repeat (split; [assumption|]).
Defined.

(** [bob], already premium, orders the yearly plan, then a plan that does
    not exist, then the same without a key secret configured. *)
Lemma C7_premium_user_rejected_witness :
  createOrder Sample.db_text Sample.key Sample.secret Sample.gateway
    5000 "p2" 5001 "64b000000000000000000002" "premium_yearly"
    Sample.pending_world
  = (Threw AlreadyPremium, Sample.pending_world)
  ∧ createOrder Sample.db_text Sample.key Sample.secret Sample.gateway
      5000 "p2" 5001 "64b000000000000000000002" "gold"
      Sample.pending_world
    = (Threw InvalidPlan, Sample.pending_world)
  ∧ ∃ e,
      createOrder Sample.db_text Sample.key None Sample.gateway
        5000 "p2" 5001 "64b000000000000000000002" "gold"
        Sample.pending_world
      = (Threw e, Sample.pending_world).
Proof.
  split; [|split].
  - apply (proj1 (C7_premium_user_rejected Sample.db_text Sample.key
                    Sample.secret Sample.gateway 5000 "p2" 5001
                    "64b000000000000000000002" "premium_yearly" Sample.bob
                    Sample.pending_world
                    ltac:(vm_compute; reflexivity) eq_refl));
      [reflexivity | reflexivity | vm_compute; discriminate].
  - apply (proj1 (proj2 (C7_premium_user_rejected Sample.db_text Sample.key
                    Sample.secret Sample.gateway 5000 "p2" 5001
                    "64b000000000000000000002" "gold" Sample.bob
                    Sample.pending_world
                    ltac:(vm_compute; reflexivity) eq_refl)));
      reflexivity.
  - apply (proj2 (proj2 (C7_premium_user_rejected Sample.db_text Sample.key
                    None Sample.gateway 5000 "p2" 5001
                    "64b000000000000000000002" "gold" Sample.bob
                    Sample.pending_world
                    ltac:(vm_compute; reflexivity) eq_refl))).
Defined.

(** C7 as stated fails: for the premium user [bob] and the plan id "gold",
    which the plan table does not know, createOrder throws InvalidPlan, not
    AlreadyPremium; the plan is checked before the user is read. *)
Lemma C7_counterexample :
  users Sample.pending_world !! "64b000000000000000000002" = Some Sample.bob
  ∧ isPremium Sample.bob = true
  ∧ createOrder Sample.db_text Sample.key Sample.secret Sample.gateway
      5000 "p2" 5001 "64b000000000000000000002" "gold" Sample.pending_world
    = (Threw InvalidPlan, Sample.pending_world)
  ∧ createOrder Sample.db_text Sample.key Sample.secret Sample.gateway
      5000 "p2" 5001 "64b000000000000000000002" "gold" Sample.pending_world
    ≠ (Threw AlreadyPremium, Sample.pending_world).
Proof.
  split; [vm_compute; reflexivity|]. split; [reflexivity|].
  assert (Hrun : createOrder Sample.db_text Sample.key Sample.secret
            Sample.gateway 5000 "p2" 5001 "64b000000000000000000002" "gold"
            Sample.pending_world = (Threw InvalidPlan, Sample.pending_world))
    by (vm_compute; reflexivity).
  split; [exact Hrun|]. rewrite Hrun. discriminate.
Qed.

(** C5 as stated fails: the order id is not read from payload.payment.  For
    a capture event that carries the order id of the pending record
    directly under payload.payment, without an entity, handleWebhook reads
    [order_id] of the missing entity: it throws, the result is not
    processed: true and the record stays 'pending'. *)
Lemma C5_counterexample :
  let ev := {| event := "payment.captured";
               payload := {| payload_payment := Some None;
                             payload_order := None |} |} in
  status <$> find_doc (by_order_id "order_O1") (payments Sample.pending_world)
  = Some pending
  ∧ handleWebhook 2000 ev None Sample.pending_world
    = (Threw (Error "Webhook processing failed: Cannot read properties of undefined (reading 'order_id')"),
       Sample.pending_world)
  ∧ (∀ result,
       (handleWebhook 2000 ev None Sample.pending_world).1 ≠ Returned result)
  ∧ status
    <$> find_doc (by_order_id "order_O1")
          (payments (handleWebhook 2000 ev None Sample.pending_world).2)
    = Some pending.
Proof.
  intros ev.
  assert (Hrun : handleWebhook 2000 ev None Sample.pending_world
            = (Threw (Error "Webhook processing failed: Cannot read properties of undefined (reading 'order_id')"),
               Sample.pending_world)) by (vm_compute; reflexivity).
  split; [vm_compute; reflexivity|]. split; [exact Hrun|].
  rewrite Hrun. split; [discriminate | vm_compute; reflexivity].
Qed.

(** C1 on the code: a terminal status is overwritten.  On the record
    "order_O1" in status 'failed', verifyPayment with the correct signature
    leaves it 'completed' and makes its owner premium; on the same record in
    status 'completed', verifyPayment with a forged signature leaves it
    'failed', and so does handlePaymentFailure. *)
Theorem C1_terminal_status_overwritten :
  let status_of (w : World) :=
    status <$> find_doc (by_order_id "order_O1") (payments w) in
  let premium_of (w : World) :=
    isPremium <$> users w !! "64b000000000000000000001" in
  let good := {| razorpay_order_id := "order_O1";
                 razorpay_payment_id := "pay_P1";
                 razorpay_signature := Sample.good_sig |} in
  let forged := {| razorpay_order_id := "order_O1";
                   razorpay_payment_id := "pay_P1";
                   razorpay_signature := "forged" |} in
  (status_of Sample.failed_world = Some failed
   ∧ premium_of Sample.failed_world = Some false
   ∧ (verifyPayment Sample.secret Sample.hmac 2000 good Sample.failed_world).1
     = Returned {| vr_success := true; vr_paymentId := "pay_P1";
                   vr_orderId := "order_O1";
                   vr_planType := "premium_monthly"; vr_amount := 99900;
                   vr_currency := "INR" |}
   ∧ status_of
       (verifyPayment Sample.secret Sample.hmac 2000 good
          Sample.failed_world).2 = Some completed
   ∧ premium_of
       (verifyPayment Sample.secret Sample.hmac 2000 good
          Sample.failed_world).2 = Some true)
  ∧ (status_of Sample.completed_world = Some completed
     ∧ status_of
         (verifyPayment Sample.secret Sample.hmac 2000 forged
            Sample.completed_world).2 = Some failed
     ∧ status_of
         (handlePaymentFailure 2000 "order_O1" "card declined"
            Sample.completed_world).2 = Some failed).
Proof. vm_compute. repeat split. Qed.

(** * Further properties of the service *)

(** ** More on the collection *)

Lemma NoDup_fmap_elem_inj {A B} (f : A → B) (l : list A) x y :
  NoDup (f <$> l) → x ∈ l → y ∈ l → f x = f y → x = y.
Proof.
  induction l as [|a l IH]; [by intros _ ?%elem_of_nil|].
  rewrite fmap_cons, NoDup_cons.
  intros [Ha Hnd] [->|Hx]%elem_of_cons [->|Hy]%elem_of_cons Heq; [done| | |by apply IH].
  - exfalso. apply Ha. rewrite Heq. apply list_elem_of_fmap. eauto.
  - exfalso. apply Ha. rewrite <- Heq. apply list_elem_of_fmap. eauto.
Qed.

(** After rewriting the document with key [_id d], the collection holds the
    rewritten document and the documents with another key, nothing else. *)
Lemma elem_of_updateOne g docs d x :
  NoDup (_id <$> docs) → d ∈ docs →
  x ∈ updateOne (_id d) g docs ↔ x = g d ∨ (x ∈ docs ∧ x ≠ d).
Proof.
  intros Hnd Hd. induction docs as [|a rest IH]; [by apply elem_of_nil in Hd|].
  cbn [updateOne]. apply NoDup_cons in Hnd as [Ha Hnd].
  destruct (decide (_id a = _id d)) as [Heq|Hne].
  - assert (a = d) as ->.
    { apply elem_of_cons in Hd as [->|Hd]; [done|].
      exfalso. apply Ha. rewrite Heq. apply list_elem_of_fmap. eauto. }
    rewrite !elem_of_cons. split.
    + intros [->|Hx]; [by left|]. right. split; [by right|].
      intros ->. apply Ha. apply list_elem_of_fmap. eauto.
    + intros [->|[[->|Hx] Hxd]]; [by left | done | by right].
  - assert (d ∈ rest) as Hd'.
    { apply elem_of_cons in Hd as [->|Hd]; [done | done]. }
    rewrite !elem_of_cons, (IH Hnd Hd'). split.
    + intros [->|[->|[Hx Hxd]]].
      * right. split; [by left|]. by intros ->.
      * by left.
      * right. split; [by right | done].
    + intros [->|[[->|Hx] Hxd]]; [right; by left | by left | right; right; done].
Qed.

(** The world a save leaves, element by element. *)
Lemma elem_of_save_changes now f w d x :
  ids_unique w → d ∈ payments w →
  x ∈ payments (save_changes now f d w).2
  ↔ x = after_save now f d ∨ (x ∈ payments w ∧ x ≠ d).
Proof.
  intros Hnd Hd. unfold save_changes, after_save. simpl.
  destruct (decide (f d = d)) as [Heq|Hne]; simpl.
  - split.
    + intros Hx. destruct (decide (x = d)) as [->|]; [by left | by right].
    + intros [->|[Hx _]]; done.
  - by rewrite (elem_of_updateOne (λ stored, set_updatedAt now (f stored))).
Qed.

Lemma users_save_changes now f w d :
  users (save_changes now f d w).2 = users w.
Proof. unfold save_changes. simpl. by case_decide. Qed.

Lemma save_changes_returns now f w d :
  (save_changes now f d w).1 = Returned (after_save now f d).
Proof. done. Qed.

(** No stored record matches a query once the only record that did has been
    rewritten into one that does not. *)
Lemma find_doc_after_save_None q now f w d :
  ids_unique w → d ∈ payments w →
  q (after_save now f d) = false →
  (∀ x, x ∈ payments w → x ≠ d → q x = false) →
  find_doc q (payments (save_changes now f d w).2) = None.
Proof.
  intros Hnd Hd Hq Hothers. apply find_doc_None. intros x Hx.
  apply (elem_of_save_changes now f w d x Hnd Hd) in Hx as [->|[Hx Hne]]; auto.
Qed.

Lemma find_doc_the_only q docs d :
  d ∈ docs → q d = true →
  (∀ x, x ∈ docs → q x = true → x = d) →
  find_doc q docs = Some d.
Proof.
  induction docs as [|a rest IH]; [by intros ?%elem_of_nil|].
  intros Hd Hq Honly. simpl. destruct (q a) eqn:Hqa.
  - f_equal. apply Honly; [apply list_elem_of_here | done].
  - apply IH; [|done|].
    + apply elem_of_cons in Hd as [->|Hd]; [congruence | done].
    + intros x Hx. apply Honly. by apply list_elem_of_further.
Qed.

(** ** handlePaymentFailure *)

Lemma handlePaymentFailure_run now orderId reason w :
  handlePaymentFailure now orderId reason w
  = match find_doc (by_order_id orderId) (payments w) with
    | Some d => save_changes now (markFailed_fields reason) d w
    | None => (Threw FailureRecordNotFound, w)
    end.
Proof.
  unfold handlePaymentFailure, try_catch, bind, Payment_findOne.
  by destruct (find_doc _ (payments w)).
Qed.

(** X1: handlePaymentFailure(orderId, reason) on an order id no record
    carries throws 'Payment record not found' (wrapped) and writes nothing;
    on a stored record it saves status 'failed' with the trimmed reason,
    returns the saved document and leaves the users alone. *)
Theorem X1_handlePaymentFailure_outcome now w orderId reason :
  ids_unique w →
  match find_doc (by_order_id orderId) (payments w) with
  | Some d =>
      ∃ w' d',
        handlePaymentFailure now orderId reason w = (Returned d', w')
        ∧ find_doc (by_order_id orderId) (payments w') = Some d'
        ∧ _id d' = _id d
        ∧ status d' = failed
        ∧ failureReason d' = Some (Js.trim reason)
        ∧ amount d' = amount d
        ∧ users w' = users w
  | None =>
      handlePaymentFailure now orderId reason w
      = (Threw FailureRecordNotFound, w)
  end.
Proof.
  intros Hnd. rewrite handlePaymentFailure_run.
  destruct (find_doc _ (payments w)) as [d|] eqn:Hfind; [|done].
  destruct (save_changes_found (by_order_id orderId) now
              (markFailed_fields reason) w d)
    as (w1 & Hsave & Hfind1 & Husers); [done | done | done |].
  exists w1, (after_save now (markFailed_fields reason) d).
  split; [done|]. split; [done|].
  by rewrite !(after_save_field _ now).
Qed.

(** ** cancelPayment *)

Lemma cancelPayment_run now orderId user w :
  cancelPayment now orderId user w
  = match find_doc (pending_order_of orderId user) (payments w) with
    | Some d => save_changes now markCancelled_fields d w
    | None => (Threw PendingNotFound, w)
    end.
Proof.
  unfold cancelPayment, try_catch, bind, Payment_findOne.
  by destruct (find_doc _ (payments w)).
Qed.

Lemma pending_order_of_true orderId user d :
  pending_order_of orderId user d = true
  ↔ razorpayOrderId d = orderId ∧ userId d = user ∧ status d = pending.
Proof.
  unfold pending_order_of.
  rewrite !andb_true_iff, !bool_decide_eq_true. tauto.
Qed.

(** X2: cancelPayment on a 'pending' record, called by its owner, saves it
    'cancelled' and returns it; the same call again finds no pending record:
    it throws 'Pending payment not found' and writes nothing. *)
Theorem X2_cancelPayment_once now1 now2 w d :
  ids_unique w → order_ids_unique w → d ∈ payments w →
  status d = pending →
  ∃ w1 d1,
    cancelPayment now1 (razorpayOrderId d) (userId d) w = (Returned d1, w1)
    ∧ find_doc (by_order_id (razorpayOrderId d)) (payments w1) = Some d1
    ∧ _id d1 = _id d
    ∧ status d1 = cancelled
    ∧ users w1 = users w
    ∧ cancelPayment now2 (razorpayOrderId d) (userId d) w1
      = (Threw PendingNotFound, w1).
Proof.
  intros Hnd Huniq Hd Hst.
  set (q := pending_order_of (razorpayOrderId d) (userId d)).
  assert (Hothers : ∀ x, x ∈ payments w → q x = true → x = d).
  { intros x Hx (Hoid & _ & _)%pending_order_of_true.
    by apply (NoDup_fmap_elem_inj razorpayOrderId (payments w)). }
  assert (Hfind : find_doc q (payments w) = Some d).
  { apply find_doc_the_only; [done | by apply pending_order_of_true | done]. }
  rewrite cancelPayment_run. fold q. rewrite Hfind.
  destruct (save_changes_found (by_order_id (razorpayOrderId d)) now1
              markCancelled_fields w d)
    as (w1 & Hsave & Hfind1 & Husers);
    [done | done | by apply find_doc_by_order_id |].
  exists w1, (after_save now1 markCancelled_fields d).
  split; [done|]. split; [done|].
  rewrite !(after_save_field _ now1) by done. do 3 (split; [done|]).
  rewrite cancelPayment_run. fold q.
  replace w1 with (save_changes now1 markCancelled_fields d w).2
    by (by rewrite Hsave).
  rewrite find_doc_after_save_None; [done | done | done | |].
  - unfold q, pending_order_of.
    rewrite (after_save_field status now1) by done. simpl.
    by rewrite andb_false_r.
  - intros x Hx Hne. destruct (q x) eqn:Hqx; [|done].
    by apply Hothers in Hqx.
Qed.

(** X3: cancelPayment refuses whatever is not a 'pending' record of the
    caller: when every record with this order id is in another status or
    belongs to another user (or there is none), it throws 'Pending payment
    not found' and writes nothing. *)
Theorem X3_cancelPayment_refused now w orderId user :
  (∀ d, d ∈ payments w → razorpayOrderId d = orderId →
        status d ≠ pending ∨ userId d ≠ user) →
  cancelPayment now orderId user w = (Threw PendingNotFound, w).
Proof.
  intros Hnone. rewrite cancelPayment_run.
  destruct (find_doc _ (payments w)) as [d|] eqn:Hfind; [|done].
  apply find_doc_Some in Hfind as [Hd (Hoid & Hu & Hst)%pending_order_of_true].
  destruct (Hnone d Hd Hoid); done.
Qed.

(** ** Webhook handlers *)

Lemma handleWebhook_captured_run now ev signature pe w :
  event ev = "payment.captured" →
  payload_payment (payload ev) = Some (Some pe) →
  handleWebhook now ev signature w
  = (Returned (processed_payment (pe_id pe)), captured_world now pe w).
Proof.
  intros Hev Hpe. unfold handleWebhook, try_catch. rewrite Hev, Hpe.
  rewrite decide_True by done.
  unfold handlePaymentCaptured, captured_world, bind, Payment_findOne, ret.
  destruct (find_doc _ (payments w)) as [d|]; [|done].
  destruct (decide (status d = pending)); [|done].
  unfold markCompleted. simpl.
  rewrite (after_save_field userId now) by done. simpl.
  unfold User_findById, User_save.
  destruct (users _ !! userId d) as [u|]; [|done].
  by destruct (isPremium u).
Qed.

Lemma handleWebhook_failed_run now ev signature pe w :
  event ev = "payment.failed" →
  payload_payment (payload ev) = Some (Some pe) →
  handleWebhook now ev signature w
  = (Returned (processed_payment (pe_id pe)),
     match find_doc (by_order_id (pe_order_id pe)) (payments w) with
     | Some d =>
         if decide (status d = pending) then
           (save_changes now
              (markFailed_fields
                 (Js.or_else (pe_error_description pe) "Payment failed"))
              d w).2
         else w
     | None => w
     end).
Proof.
  intros Hev Hpe. unfold handleWebhook, try_catch. rewrite Hev, Hpe.
  rewrite decide_False by done. rewrite decide_True by done.
  unfold handlePaymentFailedWebhook, bind, Payment_findOne, ret.
  destruct (find_doc _ (payments w)) as [d|]; [|done].
  by destruct (decide (status d = pending)).
Qed.

Lemma handleWebhook_order_paid_run now ev signature oe w :
  event ev = "order.paid" →
  payload_order (payload ev) = Some (Some oe) →
  handleWebhook now ev signature w
  = (Returned (processed_order (oe_id oe)),
     match find_doc (by_order_id (oe_id oe)) (payments w) with
     | Some d =>
         (save_changes now (set_webhookEventId (Some (oe_id oe))) d w).2
     | None => w
     end).
Proof.
  intros Hev Hoe. unfold handleWebhook, try_catch. rewrite Hev, Hoe.
  rewrite !decide_False by done. rewrite decide_True by done.
  unfold handleOrderPaid, bind, Payment_findOne, ret.
  by destruct (find_doc _ (payments w)).
Qed.

(** X4: on a 'payment.failed' event the record found by the entity's order
    id, when 'pending', is saved 'failed' with the gateway's error
    description, or 'Payment failed' when that is missing or empty; a record
    in another status, or no record, means no write.  The result is
    processed: true with the entity's payment id in every case, and no user
    is touched. *)
Theorem X4_failed_event_fails_pending now ev signature pe w :
  ids_unique w →
  event ev = "payment.failed" →
  payload_payment (payload ev) = Some (Some pe) →
  ∃ w',
    handleWebhook now ev signature w
    = (Returned (processed_payment (pe_id pe)), w')
    ∧ users w' = users w
    ∧ match find_doc (by_order_id (pe_order_id pe)) (payments w) with
      | Some d =>
          if decide (status d = pending) then
            ∃ d',
              find_doc (by_order_id (pe_order_id pe)) (payments w') = Some d'
              ∧ _id d' = _id d
              ∧ status d' = failed
              ∧ failureReason d'
                = Some (Js.trim
                          (match pe_error_description pe with
                           | Some "" | None => "Payment failed"
                           | Some reason => reason
                           end))
          else w' = w
      | None => w' = w
      end.
Proof.
  intros Hnd Hev Hpe.
  rewrite (handleWebhook_failed_run now ev signature pe w Hev Hpe).
  eexists. split; [reflexivity|].
  destruct (find_doc _ (payments w)) as [d|] eqn:Hfind; [|done].
  destruct (decide (status d = pending)) as [Hst|Hst]; [|done].
  rewrite users_save_changes. split; [done|].
  set (f := markFailed_fields _).
  destruct (save_changes_found (by_order_id (pe_order_id pe)) now f w d)
    as (w1 & Hsave & Hfind1 & _); [done | done | done |].
  rewrite Hsave. simpl. exists (after_save now f d). split; [done|].
  rewrite !(after_save_field _ now) by done. simpl.
  repeat (split; [done|]).
  by destruct (pe_error_description pe) as [[|c r]|].
Qed.

Lemma set_webhookEventId_fixed now v d :
  set_webhookEventId v (after_save now (set_webhookEventId v) d)
  = after_save now (set_webhookEventId v) d.
Proof. apply after_save_fixed; by intros. Qed.

(** X5: an 'order.paid' event writes the order id into webhookEventId of
    the matching record and changes neither its status nor any user; a
    second delivery of the same event writes nothing at all. *)
Theorem X5_order_paid_bookkeeping now1 now2 ev sig1 sig2 oe w :
  ids_unique w →
  event ev = "order.paid" →
  payload_order (payload ev) = Some (Some oe) →
  ∃ w1,
    handleWebhook now1 ev sig1 w = (Returned (processed_order (oe_id oe)), w1)
    ∧ users w1 = users w
    ∧ match find_doc (by_order_id (oe_id oe)) (payments w) with
      | Some d =>
          ∃ d1,
            find_doc (by_order_id (oe_id oe)) (payments w1) = Some d1
            ∧ _id d1 = _id d
            ∧ status d1 = status d
            ∧ webhookEventId d1 = Some (oe_id oe)
      | None => w1 = w
      end
    ∧ handleWebhook now2 ev sig2 w1
      = (Returned (processed_order (oe_id oe)), w1).
Proof.
  intros Hnd Hev Hoe.
  rewrite (handleWebhook_order_paid_run now1 ev sig1 oe w Hev Hoe).
  eexists. split; [reflexivity|].
  rewrite (handleWebhook_order_paid_run now2 ev sig2 oe _ Hev Hoe).
  destruct (find_doc _ (payments w)) as [d|] eqn:Hfind.
  - set (f := set_webhookEventId (Some (oe_id oe))).
    rewrite users_save_changes. split; [done|].
    destruct (save_changes_found (by_order_id (oe_id oe)) now1 f w d)
      as (w1 & Hsave & Hfind1 & _); [done | done | done |].
    rewrite Hsave. cbn [snd]. split.
    + exists (after_save now1 f d). split; [done|].
      by rewrite !(after_save_field _ now1).
    + rewrite Hfind1. fold f.
      rewrite (save_changes_unchanged now2 f w1)
        by apply set_webhookEventId_fixed.
      done.
  - split; [done|]. split; [done|]. by rewrite Hfind.
Qed.

(** X6: a known event type whose payload lacks the object the handler
    reads makes handleWebhook throw 'Webhook processing failed: ...' (the
    TypeError of the property read) and write nothing. *)
Theorem X6_malformed_payload_throws now ev signature w :
  ((event ev = "payment.captured" ∨ event ev = "payment.failed")
   ∧ (payload_payment (payload ev) = None
      ∨ payload_payment (payload ev) = Some None))
  ∨ (event ev = "order.paid"
     ∧ (payload_order (payload ev) = None
        ∨ payload_order (payload ev) = Some None)) →
  ∃ prop,
    handleWebhook now ev signature w
    = (Threw (Error ("Webhook processing failed: "
                     +:+ "Cannot read properties of undefined (reading '"
                     +:+ prop +:+ "')")), w).
Proof.
  unfold handleWebhook, try_catch.
  intros [[[Hev|Hev] [Hp|Hp]]|[Hev [Hp|Hp]]]; rewrite Hev, Hp;
    repeat (rewrite decide_False by done); rewrite decide_True by done;
    simpl; by eexists.
Qed.

(** ** Verification and capture in either order *)

Lemma ids_unique_save_changes now f d w :
  (∀ x, _id (f x) = _id x) →
  ids_unique w → ids_unique (save_changes now f d w).2.
Proof.
  intros Hf. unfold ids_unique. by rewrite (save_changes_keys _id).
Qed.

Lemma captured_world_pending now pe w d :
  ids_unique w →
  find_doc (by_order_id (pe_order_id pe)) (payments w) = Some d →
  status d = pending →
  ids_unique (captured_world now pe w)
  ∧ find_doc (by_order_id (pe_order_id pe))
      (payments (captured_world now pe w))
    = Some (after_save now (markCompleted_fields (Some (pe_id pe)) None) d)
  ∧ (∀ u, users w !! userId d = Some u →
       users (captured_world now pe w) !! userId d
       = Some (set_isPremium true u)).
Proof.
  intros Hnd Hfind Hst. unfold captured_world. rewrite Hfind.
  rewrite decide_True by done.
  set (f := markCompleted_fields (Some (pe_id pe)) None).
  pose proof (ids_unique_save_changes now f d w (λ _, eq_refl) Hnd) as Hnd1.
  destruct (save_changes_found (by_order_id (pe_order_id pe)) now f w d)
    as (w1 & Hsave & Hfind1 & Husers); [done | done | done |].
  rewrite Hsave in *. cbn [snd] in *. rewrite Husers.
  destruct (users w !! userId d) as [u|] eqn:Hu.
  - destruct (isPremium u) eqn:Hprem.
    + repeat (split; [done|]). intros u' [= <-].
      by rewrite Husers, Hu, set_isPremium_premium.
    + repeat (split; [done|]). intros u' [= <-]. simpl.
      by rewrite lookup_insert_eq.
  - repeat (split; [done|]). by intros u' [=].
Qed.

(** X7: verifyPayment and the 'payment.captured' webhook for the same
    pending order may come in either order.  When the webhook comes second
    it writes nothing; in both orders the record ends 'completed' with the
    payment id and signature of the verification and its stored owner ends
    with isPremium true, the other fields of the user kept. *)
Theorem X7_verify_and_capture_converge
    keySecret hmac_sha256_hex now1 now2 w d P S pe ev signature :
  ids_unique w → order_ids_unique w → d ∈ payments w →
  status d = pending →
  verifySignature keySecret hmac_sha256_hex (razorpayOrderId d) P S = true →
  event ev = "payment.captured" →
  payload_payment (payload ev) = Some (Some pe) →
  pe_order_id pe = razorpayOrderId d →
  let pd := {| razorpay_order_id := razorpayOrderId d;
               razorpay_payment_id := P; razorpay_signature := S |} in
  let verified := (verifyPayment keySecret hmac_sha256_hex now1 pd w).2 in
  let captured := (handleWebhook now1 ev signature w).2 in
  handleWebhook now2 ev signature verified
  = (Returned (processed_payment (pe_id pe)), verified)
  ∧ ∀ w',
      w' = verified
      ∨ w' = (verifyPayment keySecret hmac_sha256_hex now2 pd captured).2 →
      (∃ d',
         find_doc (by_order_id (razorpayOrderId d)) (payments w') = Some d'
         ∧ _id d' = _id d
         ∧ status d' = completed
         ∧ razorpayPaymentId d' = Some P
         ∧ razorpaySignature d' = Some S)
      ∧ (∀ u, users w !! userId d = Some u →
           users w' !! userId d = Some (set_isPremium true u)
           ∧ isPremium <$> users w' !! userId d = Some true).
Proof.
  intros Hnd Huniq Hd Hst Hsig Hev Hpe Hoid pd verified captured.
  pose proof (find_doc_by_order_id w d Huniq Hd) as Hfind.
  set (fV := markCompleted_fields (Some P) (Some S)).
  assert (Hverified :
    find_doc (by_order_id (razorpayOrderId d)) (payments verified)
    = Some (after_save now1 fV d)
    ∧ ∀ u, users w !! userId d = Some u →
           users verified !! userId d = Some (set_isPremium true u)).
  { destruct (verifyPayment_valid_found keySecret hmac_sha256_hex now1 pd w d
                Hnd Hfind Hsig) as (w1 & Hrun & Hfind1 & Husers).
    unfold verified. rewrite Hrun. cbn [snd]. split; [done|].
    intros u Hu. by rewrite Husers, Hu, lookup_insert_eq. }
  destruct Hverified as [Hfind_v Husers_v]. split.
  - rewrite (handleWebhook_captured_run now2 ev signature pe verified Hev Hpe).
    f_equal. unfold captured_world. rewrite Hoid, Hfind_v.
    rewrite decide_False; [done|].
    by rewrite (after_save_field status now1).
  - intros w' Hw'.
    cut ((∃ d',
            find_doc (by_order_id (razorpayOrderId d)) (payments w') = Some d'
            ∧ _id d' = _id d
            ∧ status d' = completed
            ∧ razorpayPaymentId d' = Some P
            ∧ razorpaySignature d' = Some S)
         ∧ (∀ u, users w !! userId d = Some u →
              users w' !! userId d = Some (set_isPremium true u))).
    { intros [Hrec Hflag]. split; [exact Hrec|].
      intros u Hu. rewrite (Hflag u Hu). split; reflexivity. }
    destruct Hw' as [->| ->].
    + split; [|done]. exists (after_save now1 fV d). split; [done|].
      by rewrite !(after_save_field _ now1).
    + unfold captured.
      rewrite (handleWebhook_captured_run now1 ev signature pe w Hev Hpe).
      cbn [snd].
      destruct (captured_world_pending now1 pe w d Hnd) as (Hnd_c & Hfind_c & Husers_c);
        [by rewrite Hoid | done |].
      rewrite Hoid in Hfind_c.
      set (dc := after_save now1 (markCompleted_fields (Some (pe_id pe)) None) d) in *.
      destruct (verifyPayment_valid_found keySecret hmac_sha256_hex now2 pd
                  (captured_world now1 pe w) dc Hnd_c Hfind_c Hsig)
        as (w3 & Hrun & Hfind3 & Husers3).
      rewrite Hrun. cbn [snd]. split.
      * exists (after_save now2 fV dc). split; [done|].
        rewrite !(after_save_field _ now2) by done. simpl.
        unfold dc. by rewrite (after_save_field _id now1).
      * intros u Hu. rewrite Husers3.
        assert (userId dc = userId d) as ->
          by (unfold dc; by rewrite (after_save_field userId now1)).
        rewrite (Husers_c u Hu), lookup_insert_eq. by destruct u.
Qed.

(** ** What the calls keep *)

Lemma same_core_refl d : same_core d d.
Proof. by repeat split. Qed.

Lemma same_core_trans d1 d2 d3 :
  same_core d1 d2 → same_core d2 d3 → same_core d1 d3.
Proof.
  unfold same_core. intros H12 H23.
  destruct_and!. repeat split; congruence.
Qed.

Lemma Forall2_same_core_refl docs : Forall2 same_core docs docs.
Proof. induction docs; constructor; auto using same_core_refl. Qed.

Lemma premium_kept_refl u : premium_kept u u.
Proof. by repeat split. Qed.

Lemma users_kept_refl m : users_kept m m.
Proof.
  intros k. destruct (m !! k); constructor. apply premium_kept_refl.
Qed.

Lemma users_kept_trans m1 m2 m3 :
  users_kept m1 m2 → users_kept m2 m3 → users_kept m1 m3.
Proof.
  intros H12 H23 k. specialize (H12 k). specialize (H23 k).
  destruct H12 as [u1 u2 Hu|]; inversion H23 as [u2' u3 Hu'|]; subst;
    constructor.
  unfold premium_kept in *. destruct_and!. repeat split; try congruence. auto.
Qed.

Lemma users_kept_flag m k u :
  m !! k = Some u → users_kept m (<[k := set_isPremium true u]> m).
Proof.
  intros Hu k'. destruct (decide (k = k')) as [<-|Hne].
  - rewrite Hu, lookup_insert_eq. constructor. by repeat split.
  - rewrite lookup_insert_ne by done. apply users_kept_refl.
Qed.

Lemma updateOne_Forall2 (R : Payment → Payment → Prop) g id docs :
  (∀ x, R x x) → (∀ x, R x (g x)) →
  Forall2 R docs (updateOne id g docs).
Proof.
  intros Hrefl Hg. induction docs as [|a rest IH]; [constructor|].
  cbn [updateOne]. case_decide; constructor; auto.
  clear IH. induction rest; constructor; auto.
Qed.

Lemma save_changes_same_core now f d w :
  (∀ x, same_core x (f x)) →
  Forall2 same_core (payments w) (payments (save_changes now f d w).2).
Proof.
  intros Hf. unfold save_changes. simpl. case_decide; simpl.
  - apply Forall2_same_core_refl.
  - apply updateOne_Forall2; [apply same_core_refl|].
    intros x. destruct (Hf x) as (?&?&?&?&?&?&?&?&?). by repeat split.
Qed.

Lemma one_save_one_flag_keeps w w' :
  one_save_one_flag w w' →
  Forall2 same_core (payments w) (payments w')
  ∧ users_kept (users w) (users w').
Proof.
  intros (w1 & Hsave & Hflag).
  assert (Forall2 same_core (payments w) (payments w1)
          ∧ users w1 = users w) as [Hdocs Husers].
  { destruct Hsave as [->|(now & f & d & Hf & ->)].
    - split; [apply Forall2_same_core_refl | done].
    - split; [by apply save_changes_same_core | apply users_save_changes]. }
  destruct Hflag as [->|(k & u & Hu & ->)]; simpl.
  - split; [done|]. rewrite Husers. apply users_kept_refl.
  - split; [done|]. rewrite Husers in *. by apply users_kept_flag.
Qed.

Lemma one_save_one_flag_refl w : one_save_one_flag w w.
Proof. exists w. split; by left. Qed.

Lemma one_save_one_flag_save now f d w :
  (∀ x, same_core x (f x)) →
  one_save_one_flag w (save_changes now f d w).2.
Proof. intros Hf. eexists. split; [right; eauto | by left]. Qed.

Lemma markCompleted_same_core pid sig x :
  same_core x (markCompleted_fields pid sig x).
Proof. by repeat split. Qed.

Lemma markFailed_same_core reason x : same_core x (markFailed_fields reason x).
Proof. by repeat split. Qed.

Lemma verifyPayment_shape keySecret hmac_sha256_hex now pd w :
  one_save_one_flag w (verifyPayment keySecret hmac_sha256_hex now pd w).2.
Proof.
  destruct (find_doc (by_order_id (razorpay_order_id pd)) (payments w))
    as [d|] eqn:Hfind.
  - destruct (verifySignature keySecret hmac_sha256_hex (razorpay_order_id pd)
                (razorpay_payment_id pd) (razorpay_signature pd)) eqn:Hsig.
    + rewrite (verifyPayment_valid _ _ now pd w d Hfind Hsig). cbn [snd].
      unfold markCompleted. eexists. split.
      * right. eexists now, _, d. split; [|reflexivity].
        apply markCompleted_same_core.
      * destruct (users _ !! userId d) as [u|] eqn:Hu; [|by left].
        right. by exists (userId d), u.
    + rewrite (verifyPayment_invalid _ _ now pd w d Hfind Hsig). cbn [snd].
      apply one_save_one_flag_save, markFailed_same_core.
  - rewrite (verifyPayment_not_found _ _ now pd w Hfind).
    apply one_save_one_flag_refl.
Qed.

Lemma handleWebhook_shape now ev signature w :
  one_save_one_flag w (handleWebhook now ev signature w).2.
Proof.
  destruct (decide (event ev = "payment.captured")) as [Hev|Hev1].
  { destruct (payload_payment (payload ev)) as [[pe|]|] eqn:Hpe.
    - rewrite (handleWebhook_captured_run now ev signature pe w Hev Hpe).
      cbn [snd]. unfold captured_world.
      destruct (find_doc _ (payments w)) as [d|];
        [|apply one_save_one_flag_refl].
      case_decide; [|apply one_save_one_flag_refl].
      eexists. split.
      + right. eexists now, _, d. split; [|reflexivity].
        apply markCompleted_same_core.
      + destruct (users _ !! userId d) as [u|] eqn:Hu; [|by left].
        destruct (isPremium u); [by left|]. right. by exists (userId d), u.
    - unfold handleWebhook, try_catch. rewrite Hev, Hpe. simpl.
      apply one_save_one_flag_refl.
    - unfold handleWebhook, try_catch. rewrite Hev, Hpe. simpl.
      apply one_save_one_flag_refl. }
  destruct (decide (event ev = "payment.failed")) as [Hev|Hev2].
  { destruct (payload_payment (payload ev)) as [[pe|]|] eqn:Hpe.
    - rewrite (handleWebhook_failed_run now ev signature pe w Hev Hpe).
      cbn [snd].
      destruct (find_doc _ (payments w)) as [d|];
        [|apply one_save_one_flag_refl].
      case_decide; [|apply one_save_one_flag_refl].
      apply one_save_one_flag_save, markFailed_same_core.
    - unfold handleWebhook, try_catch. rewrite Hev, Hpe. simpl.
      apply one_save_one_flag_refl.
    - unfold handleWebhook, try_catch. rewrite Hev, Hpe. simpl.
      apply one_save_one_flag_refl. }
  destruct (decide (event ev = "order.paid")) as [Hev|Hev3].
  { destruct (payload_order (payload ev)) as [[oe|]|] eqn:Hoe.
    - rewrite (handleWebhook_order_paid_run now ev signature oe w Hev Hoe).
      cbn [snd].
      destruct (find_doc _ (payments w)) as [d|];
        [|apply one_save_one_flag_refl].
      apply one_save_one_flag_save. intros x. by repeat split.
    - unfold handleWebhook, try_catch. rewrite Hev, Hoe. simpl.
      apply one_save_one_flag_refl.
    - unfold handleWebhook, try_catch. rewrite Hev, Hoe. simpl.
      apply one_save_one_flag_refl. }
  unfold handleWebhook, try_catch. rewrite !decide_False by done.
  apply one_save_one_flag_refl.
Qed.

(** ** createOrder, every path *)

Lemma plans_get_own planId plan :
  plans_get planId = Some (OwnPlan plan) → assoc planId plans = Some plan.
Proof.
  unfold plans_get. destruct (assoc planId plans); [congruence|].
  by case_bool_decide.
Qed.

(** The document [createOrder] inserts for a plan of the catalog. *)
Lemma createOrder_cases db_error_text keyId keySecret orders_create
    t_receipt oid t_save uid planId w o w' :
  createOrder db_error_text keyId keySecret orders_create
    t_receipt oid t_save uid planId w = (o, w') →
  (∃ e, o = Threw e ∧ w' = w)
  ∨ ∃ res plan u order,
      o = Returned res
      ∧ Js.truthy_opt keyId = true ∧ Js.truthy_opt keySecret = true
      ∧ assoc planId plans = Some plan
      ∧ users w !! uid = Some u ∧ isPremium u = false
      ∧ orders_create (catalog_order_options t_receipt uid planId plan u)
        = inr order
      ∧ od_orderId res = order_id order
      ∧ key_taken _id oid (payments w) = false
      ∧ key_taken razorpayOrderId (order_id order) (payments w) = false
      ∧ w' = mkWorld
               (payments w
                ++ [new_Payment oid t_save (plan_amount plan)
                      {| init_userId := uid;
                         init_razorpayOrderId := order_id order;
                         init_amount := Some (plan_amount plan);
                         init_currency := Some (plan_currency plan);
                         init_planType := planId;
                         init_description := Some (plan_description plan);
                         init_status := pending;
                         init_notes := order_notes uid planId u |}])
               (users w).
Proof.
  unfold createOrder, try_catch.
  destruct (Js.truthy_opt keyId) eqn:Hk; simpl;
    [|intros [= <- <-]; left; by eexists].
  destruct (Js.truthy_opt keySecret) eqn:Hs; simpl;
    [|intros [= <- <-]; left; by eexists].
  destruct (plans_get planId) as [slot|] eqn:Hslot;
    [|intros [= <- <-]; left; by eexists].
  unfold bind at 1. unfold User_findById at 1.
  destruct (users w !! uid) as [u|] eqn:Hu;
    [|intros [= <- <-]; left; by eexists].
  destruct (isPremium u) eqn:Hprem; [intros [= <- <-]; left; by eexists|].
  unfold bind at 1. unfold razorpay_orders_create.
  destruct (orders_create _) as [e|order] eqn:Hgw;
    [intros [= <- <-]; left; by eexists|].
  unfold ret at 1. unfold bind.
  destruct (save_new _ _ _ _ w) as [[doc|e] w1] eqn:Hsave; intros [= <- <-].
  - apply save_new_Returned in Hsave
      as (a & Ha & _ & Hid & Hoid & -> & ->). simpl in *.
    destruct slot as [plan|]; [|done]. simpl in *. injection Ha as <-.
    right. eexists _, plan, u, order. simpl.
    repeat (split; [done || by apply plans_get_own|]). done.
  - left. eexists. split; [done|]. unfold save_new in Hsave.
    repeat (case_match; simplify_eq/=; try done).
Qed.

(** X8: createOrder is all or nothing.  A call that throws leaves the
    database exactly as it was; a call that returns was made with
    configured credentials, for a plan of the catalog and a stored user who
    was not premium, the gateway answered with an order, and the database
    differs by one appended 'pending' record for that user, plan and
    order. *)
Theorem X8_createOrder_all_or_nothing
    db_error_text keyId keySecret orders_create
    t_receipt oid t_save uid planId w o w' :
  createOrder db_error_text keyId keySecret orders_create
    t_receipt oid t_save uid planId w = (o, w') →
  match o with
  | Threw _ => w' = w
  | Returned res =>
      ∃ plan u order doc,
        Js.truthy_opt keyId = true ∧ Js.truthy_opt keySecret = true
        ∧ assoc planId plans = Some plan
        ∧ users w !! uid = Some u ∧ isPremium u = false
        ∧ orders_create (catalog_order_options t_receipt uid planId plan u)
          = inr order
        ∧ w' = mkWorld (payments w ++ [doc]) (users w)
        ∧ _id doc = oid ∧ razorpayOrderId doc = order_id order
        ∧ userId doc = uid ∧ planType doc = planId ∧ status doc = pending
        ∧ od_orderId res = order_id order
  end.
Proof.
  intros Hrun. apply createOrder_cases in Hrun
    as [(e & -> & ->)|(res & plan & u & order & -> & Hrest)]; [done|].
  destruct Hrest as (?&?&?&?&?&?&?&?&?&->).
  eexists plan, u, order, _. by repeat (split; [done|]).
Qed.

(** X9: the checks of createOrder come in a fixed order, each with its own
    error and none with a write: missing credentials first, then a plan id
    that selects nothing in the plan table (InvalidPlan, whoever asks), then
    a user id that is not stored (UserNotFound). *)
Theorem X9_createOrder_rejections
    db_error_text keyId keySecret orders_create
    t_receipt oid t_save uid planId w :
  (Js.truthy_opt keyId = false ∨ Js.truthy_opt keySecret = false →
   createOrder db_error_text keyId keySecret orders_create
     t_receipt oid t_save uid planId w
   = (Threw (Error "Failed to create order: Razorpay credentials are missing. Set RAZORPAY_KEY_ID and RAZORPAY_KEY_SECRET."), w))
  ∧ (Js.truthy_opt keyId = true → Js.truthy_opt keySecret = true →
     plans_get planId = None →
     createOrder db_error_text keyId keySecret orders_create
       t_receipt oid t_save uid planId w = (Threw InvalidPlan, w))
  ∧ (Js.truthy_opt keyId = true → Js.truthy_opt keySecret = true →
     plans_get planId ≠ None → users w !! uid = None →
     createOrder db_error_text keyId keySecret orders_create
       t_receipt oid t_save uid planId w = (Threw UserNotFound, w)).
Proof.
  unfold createOrder, try_catch. repeat split.
  - intros [-> | ->]; simpl; [done|]. by rewrite orb_true_r.
  - intros -> -> ->. done.
  - intros -> -> Hplan Hu. simpl.
    destruct (plans_get planId); [|done].
    unfold bind, User_findById. by rewrite Hu.
Qed.

(** X10: a rejection by the gateway is passed on, not swallowed: for an
    eligible user and a plan id that passes the plan check, createOrder
    throws 'Failed to create order: ' followed by the text formatError
    extracts from what the gateway rejected with, and writes nothing. *)
Theorem X10_createOrder_gateway_error
    db_error_text keyId keySecret orders_create
    t_receipt oid t_save uid planId slot u e w :
  Js.truthy_opt keyId = true → Js.truthy_opt keySecret = true →
  plans_get planId = Some slot →
  users w !! uid = Some u → isPremium u = false →
  orders_create
    {| opt_amount := slot_amount slot; opt_currency := slot_currency slot;
       opt_receipt := generateReceipt t_receipt uid;
       opt_notes := order_notes uid planId u |} = inl e →
  createOrder db_error_text keyId keySecret orders_create
    t_receipt oid t_save uid planId w
  = (Threw (Error ("Failed to create order: " +:+ formatError e)), w).
Proof.
  intros Hk Hs Hslot Hu Hprem Hgw. unfold createOrder, try_catch.
  rewrite Hk, Hs, Hslot. simpl.
  unfold bind at 1. unfold User_findById at 1. rewrite Hu, Hprem.
  unfold bind at 1. unfold razorpay_orders_create. by rewrite Hgw.
Qed.

(** X11: a plan id that names a member every object inherits (such as
    'constructor') passes the plan check although the catalog does not have
    it; the gateway is then asked for an order without an amount, and even
    when it answers with one the document fails validation: createOrder
    throws and writes nothing. *)
Theorem X11_createOrder_inherited_key
    db_error_text keyId keySecret orders_create
    t_receipt oid t_save uid planId u w :
  Js.truthy_opt keyId = true → Js.truthy_opt keySecret = true →
  planId ∈ object_prototype_keys →
  users w !! uid = Some u → isPremium u = false →
  plans_get planId = Some Inherited
  ∧ createOrder db_error_text keyId keySecret orders_create
      t_receipt oid t_save uid planId w
    = (Threw
         (Error ("Failed to create order: "
                 +:+ match orders_create
                             {| opt_amount := None; opt_currency := None;
                                opt_receipt := generateReceipt t_receipt uid;
                                opt_notes := order_notes uid planId u |} with
                     | inl e => formatError e
                     | inr _ => formatError
                                  (Error (db_error_text ValidationFailed))
                     end)), w).
Proof.
  intros Hk Hs Hin Hu Hprem.
  assert (Hslot : plans_get planId = Some Inherited).
  { unfold plans_get.
    assert (assoc planId plans = None) as ->.
    { pose proof Hin as Hk'. unfold object_prototype_keys in Hk'.
      repeat (apply elem_of_cons in Hk' as [->|Hk']; [reflexivity|]).
      by apply elem_of_nil in Hk'. }
    by rewrite bool_decide_eq_true_2. }
  split; [done|]. unfold createOrder, try_catch.
  rewrite Hk, Hs, Hslot. simpl.
  unfold bind at 1. unfold User_findById at 1. rewrite Hu, Hprem.
  unfold bind at 1. unfold razorpay_orders_create.
  by destruct (orders_create _) as [e|order].
Qed.

(** ** Invariants of every sequence of calls *)

Lemma catalog_plan_fixed planId plan :
  assoc planId plans = Some plan →
  planId ∈ planType_enum
  ∧ Js.toUpperCase (plan_currency plan) = plan_currency plan
  ∧ Js.trim (plan_description plan) = plan_description plan.
Proof.
  unfold plans, assoc. intros H.
  repeat case_decide; simplify_eq; (split; [|done]);
    unfold planType_enum; rewrite !elem_of_cons; auto.
Qed.

(** What one call does to the database. *)
Lemma run_call_cases db_error_text keyId keySecret hmac_sha256_hex w c :
  let w' := run_call db_error_text keyId keySecret hmac_sha256_hex w c in
  one_save_one_flag w w'
  ∨ ∃ doc,
      w' = mkWorld (payments w ++ [doc]) (users w)
      ∧ catalog_priced doc
      ∧ status doc = pending
      ∧ (_id doc ∉ _id <$> payments w)
      ∧ (razorpayOrderId doc ∉ razorpayOrderId <$> payments w).
Proof.
  destruct c as [t_receipt oid t_save answer uid planId | now pd
                | now orderId reason | now orderId user | now ev signature];
    simpl.
  - destruct (createOrder _ _ _ _ _ _ _ _ _ w) as [o w'] eqn:Hrun.
    apply createOrder_cases in Hrun
      as [(e & -> & ->)|(res & plan & u & order & -> & Hrest)].
    + left. apply one_save_one_flag_refl.
    + destruct Hrest as (_&_&Hplan&_&_&_&_&Hid&Hoid&->).
      right. eexists. split; [reflexivity|].
      destruct (catalog_plan_fixed planId plan Hplan) as (_ & Hcur & Hdesc).
      apply bool_decide_eq_false in Hid. apply bool_decide_eq_false in Hoid.
      repeat split; try done.
      exists plan. simpl. rewrite pre_save_amount_integer, Hcur, Hdesc. done.
  - left. apply verifyPayment_shape.
  - left. rewrite handlePaymentFailure_run.
    destruct (find_doc _ (payments w)); [|apply one_save_one_flag_refl].
    apply one_save_one_flag_save, markFailed_same_core.
  - left. rewrite cancelPayment_run.
    destruct (find_doc _ (payments w)); [|apply one_save_one_flag_refl].
    apply one_save_one_flag_save. intros x. by repeat split.
  - left. apply handleWebhook_shape.
Qed.

Lemma same_core_fmap {A} (key : Payment → A) docs docs' :
  (∀ d d', same_core d d' → key d' = key d) →
  Forall2 same_core docs docs' → key <$> docs' = key <$> docs.
Proof.
  intros Hkey H. induction H as [|d d' l l' Hd _ IH]; [done|].
  rewrite !fmap_cons. f_equal; [by apply Hkey | done].
Qed.

Lemma same_core_priced d d' :
  same_core d d' → catalog_priced d → catalog_priced d'.
Proof.
  intros (_&_&_&Ha&Hc&Hp&Hd&_) (plan & ? & ? & ? & ?).
  exists plan. rewrite Ha, Hc, Hp, Hd. done.
Qed.

Lemma run_calls_invariant db_error_text keyId keySecret hmac_sha256_hex
    (P : World → Prop) cs w :
  (∀ w c, P w →
          P (run_call db_error_text keyId keySecret hmac_sha256_hex w c)) →
  P w →
  P (run_calls db_error_text keyId keySecret hmac_sha256_hex w cs).
Proof.
  intros Hstep. revert w. unfold run_calls.
  induction cs as [|c cs IH]; intros w Hw; simpl; [done|].
  apply IH. by apply Hstep.
Qed.

(** X12: starting from an empty payment collection, after any sequence of
    calls of createOrder, verifyPayment, handlePaymentFailure, cancelPayment
    and handleWebhook, with any arguments and any gateway answers, no two
    records share an internal id and no two share an external order id. *)
Theorem X12_order_ids_stay_unique
    db_error_text keyId keySecret hmac_sha256_hex accounts cs :
  let w := run_calls db_error_text keyId keySecret hmac_sha256_hex
             (mkWorld [] accounts) cs in
  ids_unique w ∧ order_ids_unique w.
Proof.
  apply (run_calls_invariant _ _ _ _
           (λ w, ids_unique w ∧ order_ids_unique w)).
  - intros w c [Hid Hoid].
    destruct (run_call_cases db_error_text keyId keySecret hmac_sha256_hex
                w c) as [Hshape|(doc & -> & _ & _ & Hfid & Hfoid)].
    + apply one_save_one_flag_keeps in Hshape as [Hdocs _].
      unfold ids_unique, order_ids_unique in *.
      rewrite (same_core_fmap _id _ _ ltac:(by intros ?? (?&?)) Hdocs).
      rewrite (same_core_fmap razorpayOrderId _ _
                 ltac:(by intros ?? (?&?&?)) Hdocs).
      done.
    + unfold ids_unique, order_ids_unique in *. simpl.
      rewrite !fmap_app. simpl. split; apply NoDup_app.
      * split; [done|]. split; [|apply NoDup_singleton].
        by intros x Hx ->%list_elem_of_singleton.
      * split; [done|]. split; [|apply NoDup_singleton].
        by intros x Hx ->%list_elem_of_singleton.
  - split; apply NoDup_nil_2.
Qed.

(** X13: starting from an empty payment collection, after any sequence of
    calls every stored record is priced by the catalog: its plan is a plan
    of the catalog and its amount, currency and description are the
    catalog's for that plan, whatever the gateway answered and whatever
    status the record has reached. *)
Theorem X13_records_priced_by_catalog
    db_error_text keyId keySecret hmac_sha256_hex accounts cs :
  Forall catalog_priced
    (payments (run_calls db_error_text keyId keySecret hmac_sha256_hex
                 (mkWorld [] accounts) cs)).
Proof.
  apply (run_calls_invariant _ _ _ _
           (λ w, Forall catalog_priced (payments w))).
  - intros w c Hw.
    destruct (run_call_cases db_error_text keyId keySecret hmac_sha256_hex
                w c) as [Hshape|(doc & -> & Hdoc & _)].
    + apply one_save_one_flag_keeps in Hshape as [Hdocs _].
      induction Hdocs as [|d d' l l' Hd _ IH]; [constructor|].
      apply Forall_cons in Hw as [Hpd Hw].
      constructor; [by apply (same_core_priced d) | by apply IH].
    + simpl. apply Forall_app. split; [done|]. by constructor.
  - constructor.
Qed.

(** X14: no call deletes or reorders records or rewrites the core of one.
    After any sequence of calls the collection is the old one, record by
    record with the same id, order id, owner, amount, currency, plan,
    description, notes and creation time, followed by the records created
    since. *)
Theorem X14_records_kept_in_place
    db_error_text keyId keySecret hmac_sha256_hex w cs :
  ∃ kept added,
    payments (run_calls db_error_text keyId keySecret hmac_sha256_hex w cs)
    = (kept ++ added)%list
    ∧ Forall2 same_core (payments w) kept.
Proof.
  apply (run_calls_invariant _ _ _ _
           (λ w', ∃ kept added,
                    payments w' = (kept ++ added)%list
                    ∧ Forall2 same_core (payments w) kept)).
  - intros w1 c (kept & added & Heq & Hkept).
    destruct (run_call_cases db_error_text keyId keySecret hmac_sha256_hex
                w1 c) as [Hshape|(doc & -> & _)].
    + apply one_save_one_flag_keeps in Hshape as [Hdocs _].
      rewrite Heq in Hdocs.
      apply Forall2_app_inv_l in Hdocs as (kept' & added' & Hk & _ & ->).
      exists kept', added'. split; [done|].
      clear Heq. revert kept' Hk.
      induction Hkept as [|d d1 l l1 Hd _ IH]; intros kept' Hk.
      * apply Forall2_nil_inv_l in Hk as ->. constructor.
      * apply Forall2_cons_inv_l in Hk as (d2 & l2 & Hd2 & Hl2 & ->).
        constructor; [by apply (same_core_trans d d1) | by apply IH].
    + exists kept, (added ++ [doc])%list. simpl.
      by rewrite Heq, app_assoc.
  - exists (payments w), []. split; [by rewrite app_nil_r|].
    apply Forall2_same_core_refl.
Qed.

(** X15: no call adds or removes a user, changes a name or an e-mail
    address, or takes the premium flag away: after any sequence of calls a
    user who was premium still is. *)
Theorem X15_premium_never_revoked
    db_error_text keyId keySecret hmac_sha256_hex w cs :
  users_kept (users w)
    (users (run_calls db_error_text keyId keySecret hmac_sha256_hex w cs)).
Proof.
  apply (run_calls_invariant _ _ _ _
           (λ w', users_kept (users w) (users w'))).
  - intros w1 c Hw1.
    destruct (run_call_cases db_error_text keyId keySecret hmac_sha256_hex
                w1 c) as [Hshape|(doc & -> & _)]; [|done].
    apply one_save_one_flag_keeps in Hshape as [_ Husers].
    by apply (users_kept_trans _ (users w1)).
  - apply users_kept_refl.
Qed.

(** ** generateReceipt *)

Lemma length_substring_le n m s :
  (String.length (substring n m s) ≤ m)%nat.
Proof.
  revert n m. induction s as [|c s IH]; intros [|n] [|m]; simpl; try lia.
  - specialize (IH 0 m). lia.
  - apply (IH n 0).
  - apply (IH n (S m)).
Qed.

(** X16: the receipt sent to the gateway never exceeds 40 characters,
    whatever the user id and the clock, always starts with "r_", and
    depends on the user id through its last 8 characters only. *)
Theorem X16_generateReceipt_bounded now uid :
  (String.length (generateReceipt now uid) ≤ 40)%nat
  ∧ (∃ rest, generateReceipt now uid = "r_" +:+ rest)
  ∧ (∀ uid', Js.slice_last 8 uid' = Js.slice_last 8 uid →
             generateReceipt now uid' = generateReceipt now uid).
Proof.
  unfold generateReceipt. repeat split.
  - case_decide; [apply length_substring_le | lia].
  - case_decide; simpl; eauto.
  - by intros uid' ->.
Qed.

(** ** Statistics *)

Lemma stats_eq a b :
  totalPayments a = totalPayments b → totalAmount a = totalAmount b →
  completedPayments a = completedPayments b →
  completedAmount a = completedAmount b →
  failedPayments a = failedPayments b →
  pendingPayments a = pendingPayments b → a = b.
Proof. destruct a, b; simpl; congruence. Qed.

Lemma foldl_group_step acc docs :
  foldl group_step acc docs
  = stats_plus acc (foldl group_step stats_zero docs).
Proof.
  revert acc. induction docs as [|d docs IH]; intros acc; simpl.
  - apply stats_eq; simpl; lia.
  - rewrite (IH (group_step acc d)), (IH (group_step stats_zero d)).
    apply stats_eq; simpl; lia.
Qed.

Lemma getPaymentStats_run user w :
  getPaymentStats user w
  = (Returned
       (foldl group_step stats_zero
          (List.filter (stats_match user) (payments w))), w).
Proof.
  unfold getPaymentStats, try_catch, bind, Payment_getStats, ret.
  by destruct (List.filter _ _).
Qed.

Lemma stats_counts docs :
  let s := foldl group_step stats_zero docs in
  totalPayments s = Z.of_nat (length docs)
  ∧ completedPayments s = count_status completed docs
  ∧ failedPayments s = count_status failed docs
  ∧ pendingPayments s = count_status pending docs
  ∧ (totalPayments s
     = completedPayments s + failedPayments s + pendingPayments s
       + count_status cancelled docs)%Z.
Proof.
  induction docs as [|d docs IH]; simpl; [done|].
  rewrite foldl_group_step. simpl. destruct IH as (Ht & Hc & Hf & Hp & Hsum).
  unfold count_status, cond_status in *. simpl.
  destruct (status d) eqn:Hst; simpl;
    repeat (rewrite decide_True by done || rewrite decide_False by done);
    simpl; repeat split; lia.
Qed.

(** X17: getPaymentStats never throws and never writes.  With no matching
    record every field is 0.  The three status counts it reports are the
    numbers of 'completed', 'failed' and 'pending' records among the
    matching ones, and they fall short of totalPayments by exactly the
    number of 'cancelled' records, which are counted in the totals but
    reported nowhere. *)
Theorem X17_stats_counts_and_cancelled user w :
  ∃ s,
    getPaymentStats user w = (Returned s, w)
    ∧ (List.filter (stats_match user) (payments w) = [] → s = stats_zero)
    ∧ completedPayments s
      = count_status completed (List.filter (stats_match user) (payments w))
    ∧ failedPayments s
      = count_status failed (List.filter (stats_match user) (payments w))
    ∧ pendingPayments s
      = count_status pending (List.filter (stats_match user) (payments w))
    ∧ (totalPayments s
       = completedPayments s + failedPayments s + pendingPayments s
         + count_status cancelled
             (List.filter (stats_match user) (payments w)))%Z.
Proof.
  rewrite getPaymentStats_run. eexists. split; [reflexivity|].
  split; [by intros ->|].
  destruct (stats_counts (List.filter (stats_match user) (payments w)))
    as (_ & Hc & Hf & Hp & Hsum).
  done.
Qed.

Lemma stats_amounts docs :
  Forall (λ d, (0 ≤ amount d)%Z) docs →
  let s := foldl group_step stats_zero docs in
  (0 ≤ completedAmount s ∧ completedAmount s ≤ totalAmount s)%Z.
Proof.
  induction 1 as [|d docs Hd _ IH]; simpl; [done|].
  rewrite foldl_group_step. cbv zeta in IH. simpl. unfold cond_status.
  case_decide; lia.
Qed.

(** X18: when no stored amount is negative (the schema's [min: 0]), the
    completed amount reported by getPaymentStats lies between 0 and the
    total amount. *)
Theorem X18_completed_amount_bounded user w s :
  Forall (λ d, (0 ≤ amount d)%Z) (payments w) →
  (getPaymentStats user w).1 = Returned s →
  (0 ≤ completedAmount s ∧ completedAmount s ≤ totalAmount s)%Z.
Proof.
  intros Hpos. rewrite getPaymentStats_run. intros [= <-].
  apply stats_amounts.
  apply Forall_forall. intros d Hd%list_elem_of_In%filter_In.
  destruct Hd as [Hd _]. apply list_elem_of_In in Hd.
  by apply (proj1 (Forall_forall _ _) Hpos).
Qed.

Lemma updateOne_split g docs d :
  NoDup (_id <$> docs) → d ∈ docs →
  ∃ l1 l2,
    docs = (l1 ++ d :: l2)%list
    ∧ updateOne (_id d) g docs = (l1 ++ g d :: l2)%list.
Proof.
  intros Hnd Hd. induction docs as [|a rest IH]; [by apply elem_of_nil in Hd|].
  cbn [updateOne]. apply NoDup_cons in Hnd as [Ha Hnd].
  destruct (decide (_id a = _id d)) as [Heq|Hne].
  - assert (a = d) as ->.
    { apply elem_of_cons in Hd as [->|Hd]; [done|].
      exfalso. apply Ha. rewrite Heq. apply list_elem_of_fmap. eauto. }
    by exists [], rest.
  - apply elem_of_cons in Hd as [->|Hd]; [done|].
    destruct (IH Hnd Hd) as (l1 & l2 & -> & ->).
    by exists (a :: l1), l2.
Qed.

Lemma stats_of_split p l1 x l2 :
  foldl group_step stats_zero (List.filter p (l1 ++ x :: l2))
  = stats_plus (foldl group_step stats_zero (List.filter p l1))
      (stats_plus (if p x then group_step stats_zero x else stats_zero)
         (foldl group_step stats_zero (List.filter p l2))).
Proof.
  rewrite List.filter_app, foldl_app, foldl_group_step. f_equal. simpl.
  destruct (p x); simpl.
  - by rewrite foldl_group_step.
  - apply stats_eq; simpl; lia.
Qed.

(** X19: statistics follow a verification.  After verifyPayment succeeds on
    a 'pending' record, the statistics that include the record show one
    more completed payment, the record's amount more as completed amount
    and one pending payment less, with the totals and the failed count
    unchanged; statistics of another user are unchanged. *)
Theorem X19_stats_after_verification
    keySecret hmac_sha256_hex now w d P S user s s' :
  ids_unique w → order_ids_unique w → d ∈ payments w →
  status d = pending →
  verifySignature keySecret hmac_sha256_hex (razorpayOrderId d) P S = true →
  (getPaymentStats user w).1 = Returned s →
  (getPaymentStats user
     (verifyPayment keySecret hmac_sha256_hex now
        {| razorpay_order_id := razorpayOrderId d; razorpay_payment_id := P;
           razorpay_signature := S |} w).2).1 = Returned s' →
  s' = if stats_match user d then
         {| totalPayments := totalPayments s;
            totalAmount := totalAmount s;
            completedPayments := completedPayments s + 1;
            completedAmount := completedAmount s + amount d;
            failedPayments := failedPayments s;
            pendingPayments := pendingPayments s - 1 |}%Z
       else s.
Proof.
  intros Hnd Huniq Hd Hst Hsig.
  pose proof (find_doc_by_order_id w d Huniq Hd) as Hfind.
  set (pd := mkPaymentData (razorpayOrderId d) P S).
  set (f := markCompleted_fields (Some P) (Some S)).
  set (g := λ stored, set_updatedAt now (f stored)).
  assert (Hpay : ∃ l1 l2,
            payments w = (l1 ++ d :: l2)%list
            ∧ payments (verifyPayment keySecret hmac_sha256_hex now pd w).2
              = (l1 ++ g d :: l2)%list).
  { destruct (updateOne_split g (payments w) d Hnd Hd) as (l1 & l2 & H1 & H2).
    exists l1, l2. split; [done|]. rewrite <- H2.
    rewrite (verifyPayment_valid keySecret hmac_sha256_hex now pd w d
               Hfind Hsig).
    unfold markCompleted, save_changes. simpl. fold f.
    rewrite decide_False.
    - simpl. by destruct (users w !! userId d).
    - intros Heq. apply (f_equal status) in Heq. simpl in Heq. congruence. }
  destruct Hpay as (l1 & l2 & H1 & H2).
  rewrite !getPaymentStats_run. cbn [fst]. rewrite H1, H2.
  intros [= <-] [= <-].
  rewrite !stats_of_split.
  assert (stats_match user (g d) = stats_match user d) as -> by done.
  destruct (stats_match user d); [|done].
  generalize (foldl group_step stats_zero (List.filter (stats_match user) l1)).
  generalize (foldl group_step stats_zero (List.filter (stats_match user) l2)).
  intros B A. unfold g, f.
  apply stats_eq; simpl; unfold cond_status; simpl; rewrite ?Hst; simpl; lia.
Qed.

(** ** Payment history *)

Lemma ceil_div_bounds total limit :
  (0 < limit)%nat →
  (total ≤ ceil_div total limit * limit)%nat
  ∧ (ceil_div total limit * limit < total + limit)%nat.
Proof.
  intros Hl. unfold ceil_div.
  pose proof (Nat.div_mod_eq (total + limit - 1) limit) as Hdm.
  pose proof (Nat.mod_upper_bound (total + limit - 1) limit) as Hub.
  split; nia.
Qed.

(** Cutting a list into pages of [n] and gluing the pages gives the list. *)
Lemma concat_pages {A} (n m : nat) (l : list A) :
  (0 < n)%nat → (length l ≤ m * n)%nat →
  concat ((λ k, take n (drop (k * n) l)) <$> seq 0 m) = l.
Proof.
  intros Hn. revert l. induction m as [|m IH]; intros l Hlen.
  - simpl in *. by destruct l; [|simpl in Hlen; lia].
  - cbn [seq fmap list_fmap concat]. rewrite <- fmap_S_seq, <- list_fmap_compose.
    simpl. rewrite drop_0.
    transitivity (take n l ++ drop n l)%list; [|apply take_drop]. f_equal.
    etrans; [|apply (IH (drop n l)); rewrite length_drop; lia].
    f_equal. apply list_fmap_ext. intros _ k _. simpl.
    by rewrite drop_drop.
Qed.

Lemma filter_none {A} (P : A → Prop) `{!∀ x, Decision (P x)} (l : list A) :
  Forall (λ x, ¬ P x) l → filter P l = [].
Proof.
  induction 1 as [|x l Hx _ IH]; [done|]. by rewrite filter_cons_False.
Qed.

Lemma filter_all {A} (P : A → Prop) `{!∀ x, Decision (P x)} (l : list A) :
  Forall P l → filter P l = l.
Proof.
  induction 1 as [|x l Hx _ IH]; [done|].
  rewrite filter_cons_True by done. by f_equal.
Qed.

Lemma NoDup_fmap_inj_on {A B} (f : A → B) (l : list A) x y :
  NoDup (f <$> l) → x ∈ l → y ∈ l → f x = f y → x = y.
Proof.
  induction l as [|z l IH]; csimpl; intros Hnd Hx Hy Hf.
  - by apply elem_of_nil in Hx.
  - apply NoDup_cons in Hnd as [Hz Hnd].
    apply elem_of_cons in Hx as [->|Hx]; apply elem_of_cons in Hy as [->|Hy].
    + done.
    + exfalso. apply Hz. rewrite Hf. by apply list_elem_of_fmap_2.
    + exfalso. apply Hz. rewrite <- Hf. by apply list_elem_of_fmap_2.
    + by apply IH.
Qed.

(** Two orders of the same documents, both newest first, may differ, but
    only among documents of one [createdAt]: what stands at a place in one
    is no older than what stands at that place or behind it in the other. *)
Lemma newest_first_positions (s1 s2 : list Payment) i j a b :
  s1 ≡ₚ s2 →
  StronglySorted newest_first s1 → StronglySorted newest_first s2 →
  s1 !! i = Some a → s2 !! j = Some b → (i ≤ j)%nat →
  (createdAt b <= createdAt a)%N.
Proof.
  intros Hperm Hs1 Hs2 Ha Hb Hij.
  destruct (N.le_gt_cases (createdAt b) (createdAt a)) as [|Hlt]; [done|].
  exfalso.
  set (P := λ d : Payment, (createdAt a < createdAt d)%N).
  assert (Hcount : length (filter P s1) = length (filter P s2))
    by (by rewrite Hperm).
  assert (Hle : (length (filter P s1) ≤ i)%nat).
  { clear Hcount Hperm.
    assert (Hlen : (length (take i s1) ≤ i)%nat) by (rewrite length_take; lia).
    pose proof (take_drop_middle s1 i a Ha) as E.
    revert Hlen E. generalize (take i s1) (drop (S i) s1).
    intros l1 l2 Hlen E. subst s1.
    apply StronglySorted_app_1_r, StronglySorted_inv in Hs1 as [_ Hrest].
    rewrite filter_app, length_app, (filter_none P (a :: l2)).
    - pose proof (length_filter P l1). simpl. lia.
    - constructor; [unfold P; lia|].
      eapply Forall_impl; [exact Hrest|].
      intros x Hx. unfold P, newest_first in *. lia. }
  assert (Hge : (S j ≤ length (filter P s2))%nat).
  { clear Hcount Hperm Hle.
    assert (Hlen : length (take j s2) = j).
    { apply length_take_le. apply lookup_lt_Some in Hb. lia. }
    pose proof (take_drop_middle s2 j b Hb) as E.
    revert Hlen E. generalize (take j s2) (drop (S j) s2).
    intros l1 l2 Hlen E. subst s2.
    rewrite filter_app, length_app, (filter_all P l1).
    - rewrite filter_cons_True by done. simpl. lia.
    - apply Forall_forall. intros x Hx.
      assert (newest_first x b) as Hxb.
      { apply (StronglySorted_app_1_elem_of _ _ _ x b Hs2);
          [done | by left]. }
      unfold P, newest_first in *. lia. }
  lia.
Qed.

Lemma getPaymentHistory_run sort_newest_first user o w :
  getPaymentHistory sort_newest_first user o w
  = (Returned
       {| hr_payments :=
            populate (users w)
            <$> take (Pos.to_nat (default 10%positive (ho_limit o)))
                  (drop ((Pos.to_nat (default 1%positive (ho_page o)) - 1)
                         * Pos.to_nat (default 10%positive (ho_limit o)))
                     (sort_newest_first
                        (List.filter (query_matches (history_query user o))
                           (payments w))));
          hr_pagination :=
            {| currentPage := default 1%positive (ho_page o);
               totalPages :=
                 ceil_div
                   (length (List.filter (query_matches (history_query user o))
                              (payments w)))
                   (Pos.to_nat (default 10%positive (ho_limit o)));
               totalItems :=
                 length (List.filter (query_matches (history_query user o))
                           (payments w));
               itemsPerPage := default 10%positive (ho_limit o) |} |}, w).
Proof. reflexivity. Qed.

Lemma page_payments_run sort_newest_first user o w :
  page_payments (getPaymentHistory sort_newest_first user o w)
  = take (Pos.to_nat (default 10%positive (ho_limit o)))
      (drop ((Pos.to_nat (default 1%positive (ho_page o)) - 1)
             * Pos.to_nat (default 10%positive (ho_limit o)))
         (sort_newest_first
            (List.filter (query_matches (history_query user o))
               (payments w)))).
Proof.
  rewrite getPaymentHistory_run. unfold page_payments. cbn [fst hr_payments].
  rewrite <- list_fmap_compose. apply list_fmap_id.
Qed.

Lemma page_payments_with_page sort_newest_first user o w p :
  page_payments
    (getPaymentHistory sort_newest_first user (with_page p o) w)
  = take (Pos.to_nat (default 10%positive (ho_limit o)))
      (drop ((Pos.to_nat p - 1)
             * Pos.to_nat (default 10%positive (ho_limit o)))
         (sort_newest_first
            (List.filter (query_matches (history_query user o))
               (payments w)))).
Proof. by rewrite page_payments_run. Qed.

Section HistoryProperties.

(** The order of the query of a call. *)
Variable sort_newest_first : list Payment → list Payment.
Hypothesis sort_permutes : ∀ docs, sort_newest_first docs ≡ₚ docs.
Hypothesis sort_sorts :
  ∀ docs, StronglySorted newest_first (sort_newest_first docs).

(** The order of the query of a later call. *)
Variable sort_later : list Payment → list Payment.
Hypothesis later_permutes : ∀ docs, sort_later docs ≡ₚ docs.
Hypothesis later_sorts :
  ∀ docs, StronglySorted newest_first (sort_later docs).

(** The order of the query of the call that asks for page [p]. *)
Variable sort_of_page : positive → list Payment → list Payment.
Hypothesis page_permutes : ∀ p docs, sort_of_page p docs ≡ₚ docs.
Hypothesis page_sorts :
  ∀ p docs, StronglySorted newest_first (sort_of_page p docs).

(** X20: getPaymentHistory never writes.  totalItems is the number of
    stored records that match the filter, totalPages is that number divided
    by the page size and rounded up, the page holds
    min(limit, totalItems - (page - 1) * limit) records (none beyond the
    last page), and every record on it is a stored record that matches the
    filter. *)
Theorem X20_history_page_counts user o w :
  let matching :=
    List.filter (query_matches (history_query user o)) (payments w) in
  let page := Pos.to_nat (default 1%positive (ho_page o)) in
  let limit := Pos.to_nat (default 10%positive (ho_limit o)) in
  ∃ r,
    getPaymentHistory sort_newest_first user o w = (Returned r, w)
    ∧ totalItems (hr_pagination r) = length matching
    ∧ (length matching ≤ totalPages (hr_pagination r) * limit)%nat
    ∧ (totalPages (hr_pagination r) * limit < length matching + limit)%nat
    ∧ length (hr_payments r)
      = (limit `min` (length matching - (page - 1) * limit))%nat
    ∧ ∀ item, item ∈ hr_payments r →
        item_payment item ∈ payments w
        ∧ query_matches (history_query user o) (item_payment item) = true.
Proof.
  intros matching page limit. rewrite getPaymentHistory_run.
  eexists. split; [reflexivity|]. cbn [hr_pagination hr_payments totalItems totalPages].
  fold matching. split; [done|].
  destruct (ceil_div_bounds (length matching) limit) as [Hlo Hhi];
    [unfold limit; lia|].
  split; [done|]. split; [done|]. split.
  - rewrite length_fmap, length_take, length_drop.
    by rewrite (Permutation_length (sort_permutes matching)).
  - intros item (d & -> & Hd)%list_elem_of_fmap. simpl.
    apply subseteq_take, subseteq_drop in Hd.
    rewrite (sort_permutes matching) in Hd.
    apply list_elem_of_In, filter_In in Hd as [Hd Hq].
    split; [by apply list_elem_of_In | done].
Qed.

(** X21: the pages partition the matching records.  When no two matching
    records have the same createdAt, asking for pages 1 to totalPages of the
    same listing on the same database, each page by a call and a query of
    its own, ordered as the database then chooses, and putting the pages
    together gives every matching record exactly once. *)
Theorem X21_history_pages_partition user o w r :
  NoDup (createdAt
         <$> List.filter (query_matches (history_query user o)) (payments w)) →
  (getPaymentHistory sort_newest_first user o w).1 = Returned r →
  concat
    ((λ k, page_payments
             (getPaymentHistory (sort_of_page (Pos.of_nat (S k))) user
                (with_page (Pos.of_nat (S k)) o) w))
     <$> seq 0 (totalPages (hr_pagination r)))
  ≡ₚ List.filter (query_matches (history_query user o)) (payments w).
Proof.
  rewrite getPaymentHistory_run. intros Hties [= <-].
  cbn [hr_pagination totalPages].
  set (matching := List.filter _ _) in *.
  set (limit := Pos.to_nat (default 10%positive (ho_limit o))).
  assert (Hsame : ∀ p,
            sort_of_page p matching = sort_of_page 1%positive matching).
  { intros p.
    apply (StronglySorted_unique_strong newest_first);
      [| apply page_sorts | apply page_sorts
       | by rewrite !page_permutes].
    intros x1 x2 Hx1 Hx2 H12 H21.
    rewrite page_permutes in Hx1, Hx2.
    apply (NoDup_fmap_inj_on createdAt matching); [done..|].
    unfold newest_first in *. lia. }
  rewrite <- (page_permutes 1%positive matching) at 2.
  rewrite <- (concat_pages limit (ceil_div (length matching) limit)
                (sort_of_page 1%positive matching)).
  - apply reflexive_eq. f_equal. apply list_fmap_ext. intros _ k _.
    rewrite page_payments_with_page, Nat2Pos.id by done.
    fold matching limit. rewrite Hsame.
    by replace (S k - 1)%nat with k by lia.
  - unfold limit. lia.
  - rewrite (Permutation_length (page_permutes 1%positive matching)).
    by apply ceil_div_bounds; unfold limit; lia.
Qed.

(** X22: newest first.  The records on a page are in descending order of
    creation time, and every record on a page was created no earlier than
    every record on a later page of the same listing, also when the later
    page comes from a call and a query of its own, ordered as the database
    then chooses. *)
Theorem X22_history_newest_first user o w p q a b :
  (p < q)%positive →
  StronglySorted newest_first
    (page_payments (getPaymentHistory sort_newest_first user o w))
  ∧ (a ∈ page_payments
           (getPaymentHistory sort_newest_first user (with_page p o) w) →
     b ∈ page_payments
           (getPaymentHistory sort_newest_first user (with_page q o) w) →
     (createdAt b <= createdAt a)%N)
  ∧ (a ∈ page_payments
           (getPaymentHistory sort_newest_first user (with_page p o) w) →
     b ∈ page_payments
           (getPaymentHistory sort_later user (with_page q o) w) →
     (createdAt b <= createdAt a)%N).
Proof.
  intros Hpq. rewrite !page_payments_with_page, page_payments_run.
  set (matching := List.filter _ _).
  set (limit := Pos.to_nat (default 10%positive (ho_limit o))).
  assert (Hcross : ∀ s1 s2 : list Payment,
            s1 ≡ₚ s2 →
            StronglySorted newest_first s1 → StronglySorted newest_first s2 →
            a ∈ take limit (drop ((Pos.to_nat p - 1) * limit) s1) →
            b ∈ take limit (drop ((Pos.to_nat q - 1) * limit) s2) →
            (createdAt b <= createdAt a)%N).
  { intros s1 s2 Hperm Hs1 Hs2 [i Hi]%list_elem_of_lookup
      [j Hj]%list_elem_of_lookup.
    apply lookup_take_Some in Hi as [Hi Hil].
    apply lookup_take_Some in Hj as [Hj Hjl].
    rewrite lookup_drop in Hi, Hj.
    apply (newest_first_positions s1 s2 _ _ a b Hperm Hs1 Hs2 Hi Hj). nia. }
  pose proof (sort_sorts matching) as Hsorted.
  split; [|split].
  - set (skip := (_ * limit)%nat).
    rewrite <- (take_drop skip (sort_newest_first matching)) in Hsorted.
    apply StronglySorted_app_1_r in Hsorted.
    rewrite <- (take_drop limit (drop skip (sort_newest_first matching)))
      in Hsorted.
    by apply StronglySorted_app_1_l in Hsorted.
  - by apply Hcross.
  - apply Hcross; [|done|apply later_sorts].
    by rewrite sort_permutes, later_permutes.
Qed.

(** X23: a bound of 0 is no bound.  Because the amount filters are tested
    for truthiness, maxAmount 0 does not select the records with amount at
    most 0: the call answers exactly as it does without maxAmount.  A bound
    other than 0 is applied: no record on the page exceeds it. *)
Theorem X23_history_zero_bound_ignored user o w :
  getPaymentHistory sort_newest_first user (with_maxAmount (Some 0%Z) o) w
  = getPaymentHistory sort_newest_first user (with_maxAmount None o) w
  ∧ ∀ m d,
      m ≠ 0%Z →
      d ∈ page_payments
            (getPaymentHistory sort_newest_first user
               (with_maxAmount (Some m) o) w) →
      (amount d ≤ m)%Z.
Proof.
  split; [reflexivity|].
  intros m d Hm. rewrite page_payments_run.
  intros Hd%subseteq_take%subseteq_drop.
  rewrite sort_permutes in Hd.
  apply list_elem_of_In, filter_In in Hd as [_ Hq].
  assert (truthy_num (Some m) = true) as Ht
    by (simpl; by apply negb_true_iff, Z.eqb_neq).
  unfold query_matches, history_query in Hq.
  cbn [q_amount with_maxAmount ho_maxAmount ho_minAmount] in Hq.
  rewrite Ht, orb_true_r in Hq. cbn [holds keep_if snd] in Hq.
  apply andb_true_iff in Hq as [_ Hq]. apply andb_true_iff in Hq as [_ Hq].
  by apply Z.leb_le.
Qed.

End HistoryProperties.

(** ** The billing controller *)

Lemma prefix_append p s : String.prefix p (p +:+ s) = true.
Proof.
  induction p as [|c p IH]; simpl; [by destruct s|].
  by destruct (ascii_dec c c).
Qed.

Lemma includes_unfold s sub :
  includes s sub
  = if String.prefix sub s then true
    else match s with
         | EmptyString => false
         | String _ rest => includes rest sub
         end.
Proof. by destruct s. Qed.

Lemma includes_prefix p s : includes (p +:+ s) p = true.
Proof. by rewrite includes_unfold, prefix_append. Qed.

Lemma verifyPayment_throws keySecret hmac_sha256_hex now pd w e w' :
  verifyPayment keySecret hmac_sha256_hex now pd w = (Threw e, w') →
  ∃ cause, e = Error ("Payment verification failed: " +:+ cause).
Proof.
  unfold verifyPayment, try_catch.
  match goal with
  | |- context [match ?m w with _ => _ end] => destruct (m w) as [[r|e0] w0]
  end; intros [= <- <-]; eauto.
Qed.

(** X24: the verify endpoint answers 200 or 400 and nothing else.  When
    verifyPayment returns, the reply is 200 with its result; whenever it
    throws, whatever the cause, the reply is 400 with the error's message,
    never a call of the error middleware. *)
Theorem X24_verify_endpoint_200_or_400 keySecret hmac_sha256_hex now pd w :
  match verifyPayment keySecret hmac_sha256_hex now pd w with
  | (Returned result, w') =>
      BillingController_verifyPayment keySecret hmac_sha256_hex now pd w
      = (Success 200 result
           (Some "Payment verified successfully. Premium features activated!"),
         w')
  | (Threw error, w') =>
      ∃ text,
        message error = Some text
        ∧ BillingController_verifyPayment keySecret hmac_sha256_hex now pd w
          = (Failure 400 400 text, w')
  end.
Proof.
  unfold BillingController_verifyPayment, respond.
  destruct (verifyPayment keySecret hmac_sha256_hex now pd w)
    as [[result|error] w'] eqn:Hrun; [done|].
  apply verifyPayment_throws in Hrun as (cause & ->).
  assert (Hincl : includes ("Payment verification failed: " +:+ cause)
                    "Payment verification failed" = true)
    by apply (includes_prefix "Payment verification failed" (": " +:+ cause)).
  cbn [message Error]. eexists. split; [reflexivity|]. by rewrite Hincl.
Qed.

(** X25: the webhook endpoint answers 200 whatever the event and whatever
    the handler does: with the handler's result when it returns, and with
    the error text when it throws.  In particular a known event type with a
    payload that lacks its entity is acknowledged with 200 and
    {success: false, error: 'Webhook processing failed: ...'}, the database
    untouched. *)
Theorem X25_webhook_endpoint_always_200 now ev signature w :
  httpStatus_of (BillingController_handleWebhook now ev signature w).1
  = Some 200
  ∧ (BillingController_handleWebhook now ev signature w).2
    = (handleWebhook now ev signature w).2
  ∧ (∀ result, (handleWebhook now ev signature w).1 = Returned result →
       (BillingController_handleWebhook now ev signature w).1
       = Success 200 result None)
  ∧ (((event ev = "payment.captured" ∨ event ev = "payment.failed")
      ∧ (payload_payment (payload ev) = None
         ∨ payload_payment (payload ev) = Some None))
     ∨ (event ev = "order.paid"
        ∧ (payload_order (payload ev) = None
           ∨ payload_order (payload ev) = Some None)) →
     ∃ prop,
       BillingController_handleWebhook now ev signature w
       = (Acknowledged 200
            (Some ("Webhook processing failed: "
                   +:+ "Cannot read properties of undefined (reading '"
                   +:+ prop +:+ "')")), w)).
Proof.
  unfold BillingController_handleWebhook. repeat split.
  - by destruct (handleWebhook now ev signature w) as [[result|error] w'].
  - by destruct (handleWebhook now ev signature w) as [[result|error] w'].
  - intros result.
    destruct (handleWebhook now ev signature w) as [[r|error] w']; simpl;
      by intros [= ->].
  - unfold handleWebhook, try_catch.
    intros [[[Hev|Hev] [Hp|Hp]]|[Hev [Hp|Hp]]]; rewrite Hev, Hp;
      repeat (rewrite decide_False by done); rewrite decide_True by done;
      simpl; by eexists.
Qed.

(** X26: the upgrade endpoint maps the errors of createOrder by their text.
    For a premium user with configured credentials and a plan id that
    passes the plan check the reply is 409; for a plan id that selects
    nothing it is 400; for a user id that is not stored the error goes to
    the error middleware.  None of the three writes. *)
Theorem X26_upgrade_endpoint_errors
    db_error_text keyId keySecret orders_create
    t_receipt oid t_save uid planId w :
  Js.truthy_opt keyId = true → Js.truthy_opt keySecret = true →
  (plans_get planId = None →
   BillingController_createUpgradeOrder db_error_text keyId keySecret
     orders_create t_receipt oid t_save uid planId w
   = (Failure 400 400 "Invalid plan type", w))
  ∧ (plans_get planId ≠ None →
     (∀ u, users w !! uid = Some u → isPremium u = true →
        BillingController_createUpgradeOrder db_error_text keyId keySecret
          orders_create t_receipt oid t_save uid planId w
        = (Failure 409 409 "User is already premium", w))
     ∧ (users w !! uid = None →
        BillingController_createUpgradeOrder db_error_text keyId keySecret
          orders_create t_receipt oid t_save uid planId w
        = (Next UserNotFound, w))).
Proof.
  intros Hk Hs. unfold BillingController_createUpgradeOrder, respond.
  unfold createOrder, try_catch. rewrite Hk, Hs. simpl. split.
  - by intros ->.
  - intros Hplan. destruct (plans_get planId); [|done].
    unfold bind, User_findById. split.
    + intros u -> ->. reflexivity.
    + intros ->. reflexivity.
Qed.

(** X27: the cancel endpoint answers 404 when cancelPayment finds no
    'pending' record of the caller with this order id, and the failure
    endpoint answers 404 when no record has the order id; neither writes in
    that case. *)
Theorem X27_not_found_endpoints now w orderId user reason :
  ((∀ d, d ∈ payments w → razorpayOrderId d = orderId →
         status d ≠ pending ∨ userId d ≠ user) →
   BillingController_cancelPayment now orderId user w
   = (Failure 404 404 "Pending payment not found", w))
  ∧ ((∀ d, d ∈ payments w → razorpayOrderId d ≠ orderId) →
     BillingController_handlePaymentFailure now orderId reason w
     = (Failure 404 404 "Payment record not found", w)).
Proof.
  split.
  - intros Hnone. unfold BillingController_cancelPayment, respond.
    rewrite cancelPayment_run.
    destruct (find_doc _ (payments w)) as [d|] eqn:Hfind; [|done].
    apply find_doc_Some in Hfind
      as [Hd (Hoid & Hu & Hst)%pending_order_of_true].
    destruct (Hnone d Hd Hoid); done.
  - intros Hnone. unfold BillingController_handlePaymentFailure, respond.
    rewrite handlePaymentFailure_run.
    destruct (find_doc _ (payments w)) as [d|] eqn:Hfind; [|done].
    apply find_doc_Some in Hfind as [Hd Hq].
    apply bool_decide_eq_true in Hq. by destruct (Hnone d Hd).
Qed.

(** ** Authentication and the premium gate *)

Lemma substring_whole s : substring 0 (String.length s) s = s.
Proof. induction s as [|c s IH]; simpl; [done | by rewrite IH]. Qed.

Lemma bearer_token token :
  substring 7 (String.length ("Bearer " +:+ token) - 7) ("Bearer " +:+ token)
  = token.
Proof. simpl. rewrite Nat.sub_0_r. apply substring_whole. Qed.

Lemma authenticate_bearer jwt_verify token w :
  authenticate jwt_verify (Some ("Bearer " +:+ token)) w
  = match jwt_verify token with
    | None => Denied 401 "Invalid or expired access token"
    | Some decoded =>
        match users w !! tok_userId decoded with
        | None => Denied 401 "User not found"
        | Some user => Passed (Some (tok_userId decoded, user))
        end
    end.
Proof.
  unfold authenticate.
  rewrite prefix_append, bearer_token. unfold verifyAccessToken. simpl.
  by destruct (jwt_verify token).
Qed.

(** X28: the premium gate follows the database, not the token.  Behind
    authenticate, requirePremium lets a request through exactly when its
    bearer token verifies and names a stored user whose premium flag is set
    in the database; it then carries that stored user.  The isPremium claim
    inside the token plays no part.  Every refusal is a 401, except the
    stored user who is not premium: 403. *)
Theorem X28_premium_gate_reads_database jwt_verify token decoded w :
  jwt_verify token = Some decoded →
  then_gate (authenticate jwt_verify (Some ("Bearer " +:+ token)) w)
    requirePremium
  = match users w !! tok_userId decoded with
    | None => Denied 401 "User not found"
    | Some user =>
        if isPremium user then Passed (Some (tok_userId decoded, user))
        else Denied 403 "Premium subscription required"
    end.
Proof.
  intros Hjwt. rewrite authenticate_bearer, Hjwt.
  destruct (users w !! tok_userId decoded) as [user|]; [|done].
  simpl. by destruct (isPremium user).
Qed.

(** X29: a header that is missing or does not start with "Bearer ", and a
    token that does not verify, are refused with 401 by authenticate,
    whatever the database holds; optionalAuth lets the same requests
    through without a user. *)
Theorem X29_authenticate_refuses jwt_verify header w :
  (header = None
   ∨ (∃ h, header = Some h ∧ String.prefix "Bearer " h = false)
   ∨ (∃ token, header = Some ("Bearer " +:+ token)
               ∧ jwt_verify token = None)) →
  (∃ text, authenticate jwt_verify header w = Denied 401 text)
  ∧ optionalAuth jwt_verify header w = Passed None.
Proof.
  intros [->|[(h & -> & Hh)|(token & -> & Hjwt)]].
  - split; [by eexists | done].
  - unfold authenticate, optionalAuth. rewrite Hh, orb_true_r, andb_false_r.
    split; [by eexists | done].
  - rewrite authenticate_bearer, Hjwt. split; [by eexists|].
    unfold optionalAuth. rewrite prefix_append, bearer_token.
    unfold verifyAccessToken. simpl. by rewrite Hjwt.
Qed.

(** X30: premium access opens with the verification.  After verifyPayment
    succeeds on a record whose owner is stored, a request of that owner
    passes authenticate and requirePremium with the token it already had,
    although the token was issued when the owner was not premium. *)
Theorem X30_verification_opens_gate
    keySecret hmac_sha256_hex jwt_verify now w d P S u token decoded :
  ids_unique w → order_ids_unique w → d ∈ payments w →
  users w !! userId d = Some u →
  verifySignature keySecret hmac_sha256_hex (razorpayOrderId d) P S = true →
  jwt_verify token = Some decoded →
  tok_userId decoded = userId d →
  then_gate
    (authenticate jwt_verify (Some ("Bearer " +:+ token))
       (verifyPayment keySecret hmac_sha256_hex now
          {| razorpay_order_id := razorpayOrderId d;
             razorpay_payment_id := P; razorpay_signature := S |} w).2)
    requirePremium
  = Passed (Some (userId d, set_isPremium true u)).
Proof.
  intros Hnd Huniq Hd Hu Hsig Hjwt Hid.
  pose proof (find_doc_by_order_id w d Huniq Hd) as Hfind.
  set (pd := mkPaymentData (razorpayOrderId d) P S).
  destruct (verifyPayment_valid_found keySecret hmac_sha256_hex now pd w d
              Hnd Hfind Hsig) as (w' & Hrun & _ & Husers).
  rewrite authenticate_bearer, Hjwt, Hrun. cbn [snd].
  rewrite Husers, Hu, Hid, lookup_insert_eq. done.
Qed.

(** * Worked instances of the further properties *)

(** A failure reported with white space around the reason, a no-break
    space included, on the pending order. *)
Lemma X1_handlePaymentFailure_outcome_witness :
  (∃ w' d',
     handlePaymentFailure 2000 "order_O1" Fixtures.padded_reason
       Sample.pending_world
     = (Returned d', w')
     ∧ find_doc (by_order_id "order_O1") (payments w') = Some d'
     ∧ _id d' = "p1"
     ∧ status d' = failed
     ∧ failureReason d' = Some "card declined"
     ∧ amount d' = 99900%Z
     ∧ users w' = Sample.people)
  ∧ handlePaymentFailure 2000 "order_O7" "card declined" Sample.pending_world
    = (Threw FailureRecordNotFound, Sample.pending_world).
Proof.
  split.
  - apply (X1_handlePaymentFailure_outcome 2000 Sample.pending_world
             "order_O1" Fixtures.padded_reason). by_computation.
  - apply (X1_handlePaymentFailure_outcome 2000 Sample.pending_world
             "order_O7" "card declined"). by_computation.
Defined.

(** [alice] cancels her pending order, twice. *)
Lemma X2_cancelPayment_once_witness :
  ∃ w1 d1,
    cancelPayment 2000 "order_O1" "64b000000000000000000001"
      Sample.pending_world = (Returned d1, w1)
    ∧ find_doc (by_order_id "order_O1") (payments w1) = Some d1
    ∧ _id d1 = "p1"
    ∧ status d1 = cancelled
    ∧ users w1 = Sample.people
    ∧ cancelPayment 3000 "order_O1" "64b000000000000000000001" w1
      = (Threw PendingNotFound, w1).
Proof.
  apply (X2_cancelPayment_once 2000 3000 Sample.pending_world
           (Sample.order1 pending None None None)).
  - by_computation.
  - by_computation.
  - by_computation.
  - reflexivity.
Defined.

(** [bob] tries to cancel the pending order of [alice]; [alice] tries to
    cancel her completed order. *)
Lemma X3_cancelPayment_refused_witness :
  cancelPayment 2000 "order_O1" "64b000000000000000000002"
    Sample.pending_world
  = (Threw PendingNotFound, Sample.pending_world)
  ∧ cancelPayment 2000 "order_O1" "64b000000000000000000001"
      Sample.completed_world
    = (Threw PendingNotFound, Sample.completed_world).
Proof.
  split.
  - apply (X3_cancelPayment_refused 2000 Sample.pending_world "order_O1"
             "64b000000000000000000002").
    refine (proj1 (Forall_forall
                     (λ d, razorpayOrderId d = "order_O1" →
                           status d ≠ pending
                           ∨ userId d ≠ "64b000000000000000000002") _) _).
    by_computation.
  - apply (X3_cancelPayment_refused 2000 Sample.completed_world "order_O1"
             "64b000000000000000000001").
    refine (proj1 (Forall_forall
                     (λ d, razorpayOrderId d = "order_O1" →
                           status d ≠ pending
                           ∨ userId d ≠ "64b000000000000000000001") _) _).
    by_computation.
Defined.

(** A failure event without a description, on the pending order and on the
    completed one, and a failure event whose description has white space
    around it, a no-break space included, on the pending order. *)
Lemma X4_failed_event_fails_pending_witness :
  (∃ w',
     handleWebhook 2000 (Fixtures.declined "order_O1") None
       Sample.pending_world
     = (Returned (processed_payment "pay_P1"), w')
     ∧ users w' = Sample.people
     ∧ ∃ d',
         find_doc (by_order_id "order_O1") (payments w') = Some d'
         ∧ _id d' = "p1"
         ∧ status d' = failed
         ∧ failureReason d' = Some "Payment failed")
  ∧ (∃ w',
       handleWebhook 2000 (Fixtures.declined "order_O1") None
         Sample.completed_world
       = (Returned (processed_payment "pay_P1"), w')
       ∧ users w' = Sample.people
       ∧ w' = Sample.completed_world)
  ∧ (∃ w',
       handleWebhook 2000 (Fixtures.declined_padded "order_O1") None
         Sample.pending_world
       = (Returned (processed_payment "pay_P1"), w')
       ∧ users w' = Sample.people
       ∧ ∃ d',
           find_doc (by_order_id "order_O1") (payments w') = Some d'
           ∧ _id d' = "p1"
           ∧ status d' = failed
           ∧ failureReason d' = Some "card declined").
Proof.
  split; [|split].
  - apply (X4_failed_event_fails_pending 2000 (Fixtures.declined "order_O1")
             None
             {| pe_id := "pay_P1"; pe_order_id := "order_O1";
                pe_error_description := Some "" |}
             Sample.pending_world);
      [by_computation | reflexivity | reflexivity].
  - apply (X4_failed_event_fails_pending 2000 (Fixtures.declined "order_O1")
             None
             {| pe_id := "pay_P1"; pe_order_id := "order_O1";
                pe_error_description := Some "" |}
             Sample.completed_world);
      [by_computation | reflexivity | reflexivity].
  - apply (X4_failed_event_fails_pending 2000
             (Fixtures.declined_padded "order_O1") None
             {| pe_id := "pay_P1"; pe_order_id := "order_O1";
                pe_error_description := Some Fixtures.padded_reason |}
             Sample.pending_world);
      [by_computation | reflexivity | reflexivity].
Defined.

(** The 'order.paid' event of the completed order, delivered twice. *)
Lemma X5_order_paid_bookkeeping_witness :
  ∃ w1,
    handleWebhook 2000 (Fixtures.paid "order_O1") None Sample.completed_world
    = (Returned (processed_order "order_O1"), w1)
    ∧ users w1 = Sample.people
    ∧ (∃ d1,
         find_doc (by_order_id "order_O1") (payments w1) = Some d1
         ∧ _id d1 = "p1"
         ∧ status d1 = completed
         ∧ webhookEventId d1 = Some "order_O1")
    ∧ handleWebhook 3000 (Fixtures.paid "order_O1") None w1
      = (Returned (processed_order "order_O1"), w1).
Proof.
  apply (X5_order_paid_bookkeeping 2000 3000 (Fixtures.paid "order_O1")
           None None {| oe_id := "order_O1" |} Sample.completed_world);
    [by_computation | reflexivity | reflexivity].
Defined.

(** A capture event whose payment object has no entity. *)
Lemma X6_malformed_payload_throws_witness :
  ∃ prop,
    handleWebhook 2000 Fixtures.truncated None Sample.pending_world
    = (Threw (Error ("Webhook processing failed: "
                     +:+ "Cannot read properties of undefined (reading '"
                     +:+ prop +:+ "')")), Sample.pending_world).
Proof.
  apply (X6_malformed_payload_throws 2000 Fixtures.truncated None
           Sample.pending_world).
  left. split; [by left | by right].
Defined.

(** The good signature and the capture event for the pending order. *)
Lemma X7_verify_and_capture_converge_witness :
  let pd := {| razorpay_order_id := "order_O1";
               razorpay_payment_id := "pay_P1";
               razorpay_signature := Sample.good_sig |} in
  let verified :=
    (verifyPayment Sample.secret Sample.hmac 2000 pd Sample.pending_world).2 in
  let captured :=
    (handleWebhook 2000 (Sample.captured "order_O1") None
       Sample.pending_world).2 in
  handleWebhook 3000 (Sample.captured "order_O1") None verified
  = (Returned (processed_payment "pay_P1"), verified)
  ∧ ∀ w',
      w' = verified
      ∨ w' = (verifyPayment Sample.secret Sample.hmac 3000 pd captured).2 →
      (∃ d',
         find_doc (by_order_id "order_O1") (payments w') = Some d'
         ∧ _id d' = "p1"
         ∧ status d' = completed
         ∧ razorpayPaymentId d' = Some "pay_P1"
         ∧ razorpaySignature d' = Some Sample.good_sig)
      ∧ (∀ u, Sample.people !! "64b000000000000000000001" = Some u →
           users w' !! "64b000000000000000000001"
           = Some (set_isPremium true u)
           ∧ isPremium <$> users w' !! "64b000000000000000000001"
             = Some true).
Proof.
  apply (X7_verify_and_capture_converge Sample.secret Sample.hmac 2000 3000
           Sample.pending_world (Sample.order1 pending None None None)
           "pay_P1" Sample.good_sig
           {| pe_id := "pay_P1"; pe_order_id := "order_O1";
              pe_error_description := None |}
           (Sample.captured "order_O1") None).
  - by_computation.
  - by_computation.
  - by_computation.
  - reflexivity.
  - vm_compute. reflexivity.
  - reflexivity.
  - reflexivity.
  - reflexivity.
Defined.

(** [alice] orders the monthly plan: the call returns. *)
Lemma X8_createOrder_all_or_nothing_witness :
  ∃ res w' doc,
    createOrder Sample.db_text Sample.key Sample.secret Sample.gateway
      5000 "p2" 5001 "64b000000000000000000001" "premium_monthly"
      Sample.pending_world = (Returned res, w')
    ∧ w' = mkWorld (payments Sample.pending_world ++ [doc]) Sample.people
    ∧ _id doc = "p2" ∧ razorpayOrderId doc = "order_N2"
    ∧ userId doc = "64b000000000000000000001"
    ∧ planType doc = "premium_monthly" ∧ status doc = pending
    ∧ od_orderId res = "order_N2".
Proof.
  destruct (createOrder Sample.db_text Sample.key Sample.secret
              Sample.gateway 5000 "p2" 5001 "64b000000000000000000001"
              "premium_monthly" Sample.pending_world)
    as [[res|e] w'] eqn:Hrun; [|vm_compute in Hrun; discriminate].
  destruct (X8_createOrder_all_or_nothing _ _ _ _ _ _ _ _ _ _ _ _ Hrun)
    as (plan & u & order & doc & _ & _ & _ & _ & _ & Hgw & Hw & Hrest).
  injection Hgw as <-. exists res, w', doc. split; [reflexivity|].
  exact (conj Hw Hrest).
Defined.

(** No key id configured; the plan "gold"; a user id that is not stored. *)
Lemma X9_createOrder_rejections_witness :
  createOrder Sample.db_text None Sample.secret Sample.gateway
    5000 "p2" 5001 "64b000000000000000000001" "premium_monthly"
    Sample.pending_world
  = (Threw (Error "Failed to create order: Razorpay credentials are missing. Set RAZORPAY_KEY_ID and RAZORPAY_KEY_SECRET."),
     Sample.pending_world)
  ∧ createOrder Sample.db_text Sample.key Sample.secret Sample.gateway
      5000 "p2" 5001 "64b000000000000000000007" "gold" Sample.pending_world
    = (Threw InvalidPlan, Sample.pending_world)
  ∧ createOrder Sample.db_text Sample.key Sample.secret Sample.gateway
      5000 "p2" 5001 "64b000000000000000000007" "premium_monthly"
      Sample.pending_world
    = (Threw UserNotFound, Sample.pending_world).
Proof.
  split; [|split].
  - apply (X9_createOrder_rejections Sample.db_text None Sample.secret
             Sample.gateway 5000 "p2" 5001 "64b000000000000000000001"
             "premium_monthly" Sample.pending_world).
    left. reflexivity.
  - apply (X9_createOrder_rejections Sample.db_text Sample.key Sample.secret
             Sample.gateway 5000 "p2" 5001 "64b000000000000000000007"
             "gold" Sample.pending_world); reflexivity.
  - apply (X9_createOrder_rejections Sample.db_text Sample.key Sample.secret
             Sample.gateway 5000 "p2" 5001 "64b000000000000000000007"
             "premium_monthly" Sample.pending_world);
      [reflexivity | reflexivity | vm_compute; discriminate
      | vm_compute; reflexivity].
Defined.

(** The gateway rejects the order of [alice] with an SDK error object. *)
Lemma X10_createOrder_gateway_error_witness :
  createOrder Sample.db_text Sample.key Sample.secret
    Fixtures.refusing_gateway 5000 "p2" 5001 "64b000000000000000000001"
    "premium_monthly" Sample.pending_world
  = (Threw (Error "Failed to create order: Authentication failed"),
     Sample.pending_world).
Proof.
  apply (X10_createOrder_gateway_error Sample.db_text Sample.key
           Sample.secret Fixtures.refusing_gateway 5000 "p2" 5001
           "64b000000000000000000001" "premium_monthly"
           (OwnPlan {| plan_amount := 99900; plan_currency := "INR";
                       plan_description := "Premium Monthly Subscription";
                       plan_duration := 30 |})
           Sample.alice
           {| message := None;
              error_description := Some "Authentication failed";
              thrown_description := None; rendered := None |}
           Sample.pending_world);
    first [reflexivity | vm_compute; reflexivity].
Defined.

(** [alice] asks for the plan 'constructor'. *)
Lemma X11_createOrder_inherited_key_witness :
  plans_get "constructor" = Some Inherited
  ∧ createOrder Sample.db_text Sample.key Sample.secret Sample.gateway
      5000 "p2" 5001 "64b000000000000000000001" "constructor"
      Sample.pending_world
    = (Threw (Error "Failed to create order: Payment validation failed"),
       Sample.pending_world).
Proof.
  apply (X11_createOrder_inherited_key Sample.db_text Sample.key
           Sample.secret Sample.gateway 5000 "p2" 5001
           "64b000000000000000000001" "constructor" Sample.alice
           Sample.pending_world);
    first [reflexivity | by_computation | vm_compute; reflexivity].
Defined.

(** The receipt for [alice] at a time of 2023. *)
Lemma X16_generateReceipt_bounded_witness :
  (String.length (generateReceipt 1700000000000 Fixtures.alice_id) ≤ 40)%nat
  ∧ (∃ rest, generateReceipt 1700000000000 Fixtures.alice_id = "r_" +:+ rest)
  ∧ generateReceipt 1700000000000 "00000001"
    = generateReceipt 1700000000000 Fixtures.alice_id.
Proof.
  destruct (X16_generateReceipt_bounded 1700000000000 Fixtures.alice_id)
    as (Hlen & Hprefix & Hsame).
  split; [exact Hlen|]. split; [exact Hprefix|].
  apply Hsame. reflexivity.
Defined.

(** Statistics of the ledger: of everybody, and of a user without
    payments. *)
Lemma X17_stats_counts_and_cancelled_witness :
  (∃ s,
     getPaymentStats None Fixtures.ledger = (Returned s, Fixtures.ledger)
     ∧ completedPayments s = 1%Z
     ∧ failedPayments s = 1%Z
     ∧ pendingPayments s = 2%Z
     ∧ totalPayments s = (1 + 1 + 2 + 1)%Z)
  ∧ getPaymentStats (Some "64b000000000000000000009") Fixtures.ledger
    = (Returned stats_zero, Fixtures.ledger).
Proof.
  split.
  - destruct (X17_stats_counts_and_cancelled None Fixtures.ledger)
      as (s & Hrun & _ & Hc & Hf & Hp & Ht).
    exists s. split; [exact Hrun|]. rewrite Hc, Hf, Hp in Ht.
    exact (conj Hc (conj Hf (conj Hp Ht))).
  - destruct (X17_stats_counts_and_cancelled
                (Some "64b000000000000000000009") Fixtures.ledger)
      as (s & Hrun & Hzero & _).
    rewrite Hrun. rewrite (Hzero eq_refl). reflexivity.
Defined.

(** The amounts of the ledger. *)
Lemma X18_completed_amount_bounded_witness :
  let s := {| totalPayments := 5; totalAmount := 2299500;
              completedPayments := 1; completedAmount := 99900;
              failedPayments := 1; pendingPayments := 2 |} in
  (getPaymentStats None Fixtures.ledger).1 = Returned s
  ∧ (0 ≤ completedAmount s ∧ completedAmount s ≤ totalAmount s)%Z.
Proof.
  intros s.
  assert (Hrun : (getPaymentStats None Fixtures.ledger).1 = Returned s)
    by (vm_compute; reflexivity).
  split; [exact Hrun|].
  apply (X18_completed_amount_bounded None Fixtures.ledger s);
    [by_computation | exact Hrun].
Defined.

(** The statistics of everybody before and after the verification of the
    pending order of [alice]. *)
Lemma X19_stats_after_verification_witness :
  let before := {| totalPayments := 2; totalAmount := 1099800;
                   completedPayments := 0; completedAmount := 0;
                   failedPayments := 0; pendingPayments := 2 |} in
  let after := {| totalPayments := 2; totalAmount := 1099800;
                  completedPayments := 1; completedAmount := 99900;
                  failedPayments := 0; pendingPayments := 1 |} in
  (getPaymentStats None Sample.pending_world).1 = Returned before
  ∧ (getPaymentStats None
       (verifyPayment Sample.secret Sample.hmac 2000
          {| razorpay_order_id := "order_O1"; razorpay_payment_id := "pay_P1";
             razorpay_signature := Sample.good_sig |}
          Sample.pending_world).2).1 = Returned after.
Proof.
  intros before after.
  assert (Hbefore : (getPaymentStats None Sample.pending_world).1
                    = Returned before) by (vm_compute; reflexivity).
  split; [exact Hbefore|].
  destruct (getPaymentStats None
       (verifyPayment Sample.secret Sample.hmac 2000
          {| razorpay_order_id := "order_O1"; razorpay_payment_id := "pay_P1";
             razorpay_signature := Sample.good_sig |}
          Sample.pending_world).2) as [[s'|e] w'] eqn:Hafter;
    [|vm_compute in Hafter; discriminate].
  cbn [fst]. f_equal.
  apply (X19_stats_after_verification Sample.secret Sample.hmac 2000
           Sample.pending_world (Sample.order1 pending None None None)
           "pay_P1" Sample.good_sig None before s').
  - by_computation.
  - by_computation.
  - by_computation.
  - reflexivity.
  - vm_compute. reflexivity.
  - exact Hbefore.
  - cbn [razorpayOrderId Sample.order1]. by rewrite Hafter.
Defined.

(** ** The sample sort is a sort *)

Global Instance newest_first_total : Total newest_first.
Proof. intros a b. unfold newest_first. lia. Qed.

Global Instance newest_first_transitive : Transitive newest_first.
Proof. intros a b c. unfold newest_first. lia. Qed.

Lemma sorted_permutes docs : Fixtures.sorted docs ≡ₚ docs.
Proof. apply merge_sort_Permutation. Qed.

Lemma sorted_sorts docs : StronglySorted newest_first (Fixtures.sorted docs).
Proof. apply (StronglySorted_merge_sort newest_first). Qed.

(** The second page of the history of [alice], two records a page. *)
Lemma X20_history_page_counts_witness :
  ∃ r,
    getPaymentHistory Fixtures.sorted (Some Fixtures.alice_id)
      (with_page 2 Fixtures.two_per_page) Fixtures.ledger
    = (Returned r, Fixtures.ledger)
    ∧ totalItems (hr_pagination r) = 3%nat
    ∧ (3 ≤ totalPages (hr_pagination r) * 2)%nat
    ∧ (totalPages (hr_pagination r) * 2 < 3 + 2)%nat
    ∧ length (hr_payments r) = 1%nat
    ∧ ∀ item, item ∈ hr_payments r →
        item_payment item ∈ payments Fixtures.ledger
        ∧ query_matches
            (history_query (Some Fixtures.alice_id)
               (with_page 2 Fixtures.two_per_page))
            (item_payment item) = true.
Proof.
  exact (X20_history_page_counts Fixtures.sorted sorted_permutes
           (Some Fixtures.alice_id) (with_page 2 Fixtures.two_per_page)
           Fixtures.ledger).
Defined.

Lemma sorted_from_end_permutes docs : Fixtures.sorted_from_end docs ≡ₚ docs.
Proof.
  unfold Fixtures.sorted_from_end.
  by rewrite merge_sort_Permutation, reverse_Permutation.
Qed.

Lemma sorted_from_end_sorts docs :
  StronglySorted newest_first (Fixtures.sorted_from_end docs).
Proof. apply (StronglySorted_merge_sort newest_first). Qed.

Lemma sorted_for_page_permutes p docs : Fixtures.sorted_for_page p docs ≡ₚ docs.
Proof.
  unfold Fixtures.sorted_for_page.
  case_decide; [apply sorted_from_end_permutes | apply sorted_permutes].
Qed.

Lemma sorted_for_page_sorts p docs :
  StronglySorted newest_first (Fixtures.sorted_for_page p docs).
Proof.
  unfold Fixtures.sorted_for_page.
  case_decide; [apply sorted_from_end_sorts | apply sorted_sorts].
Qed.

(** The three pages of the whole ledger, two records a page, the query for
    page 2 reading from the end.  No two records of the ledger were created
    at the same instant. *)
Lemma X21_history_pages_partition_witness :
  NoDup (createdAt <$> payments Fixtures.ledger)
  ∧ concat
      ((λ k, page_payments
               (getPaymentHistory
                  (Fixtures.sorted_for_page (Pos.of_nat (S k))) None
                  (with_page (Pos.of_nat (S k)) Fixtures.two_per_page)
                  Fixtures.ledger))
       <$> seq 0 3)
    ≡ₚ payments Fixtures.ledger.
Proof.
  assert (Hties : NoDup (createdAt <$> payments Fixtures.ledger))
    by by_computation.
  split; [exact Hties|].
  exact (X21_history_pages_partition Fixtures.sorted
           Fixtures.sorted_for_page sorted_for_page_permutes
           sorted_for_page_sorts None Fixtures.two_per_page Fixtures.ledger _
           Hties eq_refl).
Defined.

(** The hypothesis of X21 is needed.  Of two records created at the same
    instant, listed one a page, the query for page 1 and a query for page 2
    that puts the two the other way round hand over the same record: it is
    listed twice and the other record on no page. *)
Lemma history_pages_with_ties :
  let page1 :=
    page_payments
      (getPaymentHistory Fixtures.sorted None
         (with_page 1 Fixtures.one_per_page) Fixtures.twins) in
  let page2 :=
    page_payments
      (getPaymentHistory Fixtures.sorted_from_end None
         (with_page 2 Fixtures.one_per_page) Fixtures.twins) in
  length (payments Fixtures.twins) = 2%nat
  ∧ (∃ d, page1 = [d] ∧ page2 = [d])
  ∧ ¬ ((page1 ++ page2)%list ≡ₚ payments Fixtures.twins).
Proof.
  intros page1 page2. split; [reflexivity|]. split.
  - eexists. split; vm_compute; reflexivity.
  - intros Hperm.
    assert (Hy : Fixtures.pay "y" Fixtures.alice_id "order_Y"
                   "premium_monthly" 99900 pending 500
                 ∈ (page1 ++ page2)%list)
      by (rewrite Hperm; by_computation).
    revert Hy. apply (bool_decide_unpack _). vm_compute. exact I.
Qed.

(** The newest record, on page 1, and the oldest, on page 3, page 3 asked
    of the same query and of a query that reads from the end. *)
Lemma X22_history_newest_first_witness :
  StronglySorted newest_first
    (page_payments
       (getPaymentHistory Fixtures.sorted None Fixtures.two_per_page
          Fixtures.ledger))
  ∧ (createdAt
       (Fixtures.pay "a" Fixtures.alice_id "order_A" "premium_monthly"
          99900 completed 100)
     <= createdAt
          (Fixtures.pay "e" Fixtures.alice_id "order_E" "premium_yearly"
             999900 pending 400))%N
  ∧ Fixtures.pay "a" Fixtures.alice_id "order_A" "premium_monthly"
      99900 completed 100
    ∈ page_payments
        (getPaymentHistory Fixtures.sorted_from_end None
           (with_page 3 Fixtures.two_per_page) Fixtures.ledger).
Proof.
  destruct (X22_history_newest_first Fixtures.sorted sorted_permutes
              sorted_sorts Fixtures.sorted_from_end sorted_from_end_permutes
              sorted_from_end_sorts None
              Fixtures.two_per_page Fixtures.ledger 1 3
              (Fixtures.pay "e" Fixtures.alice_id "order_E" "premium_yearly"
                 999900 pending 400)
              (Fixtures.pay "a" Fixtures.alice_id "order_A" "premium_monthly"
                 99900 completed 100)) as (Hsorted & Hsame & Hlater);
    [reflexivity|].
  split; [exact Hsorted|].
  split; [apply Hlater; by_computation | by_computation].
Defined.

(** A maximum of 0, and a maximum of 99900, on the ledger. *)
Lemma X23_history_zero_bound_ignored_witness :
  getPaymentHistory Fixtures.sorted None
    (with_maxAmount (Some 0%Z) Fixtures.two_per_page) Fixtures.ledger
  = getPaymentHistory Fixtures.sorted None
      (with_maxAmount None Fixtures.two_per_page) Fixtures.ledger
  ∧ (amount
       (Fixtures.pay "b" Fixtures.alice_id "order_B" "premium_monthly"
          99900 failed 300) ≤ 99900)%Z.
Proof.
  destruct (X23_history_zero_bound_ignored Fixtures.sorted sorted_permutes
              None Fixtures.two_per_page Fixtures.ledger) as [Hzero Hbound].
  split; [exact Hzero|].
  apply (Hbound 99900%Z); [discriminate | by_computation].
Defined.

(** An event of an unknown type, and a capture event without entity. *)
Lemma X25_webhook_endpoint_always_200_witness :
  BillingController_handleWebhook 2000 Sample.refunded None
    Sample.pending_world
  = (Success 200
       {| processed := false; wr_paymentId := None; wr_orderId := None;
          wr_event := Some "refund.created" |} None, Sample.pending_world)
  ∧ ∃ prop,
      BillingController_handleWebhook 2000 Fixtures.truncated None
        Sample.pending_world
      = (Acknowledged 200
           (Some ("Webhook processing failed: "
                  +:+ "Cannot read properties of undefined (reading '"
                  +:+ prop +:+ "')")), Sample.pending_world).
Proof.
  split.
  - destruct (X25_webhook_endpoint_always_200 2000 Sample.refunded None
                Sample.pending_world) as (_ & Hw & Hreturned & _).
    apply injective_projections; [by apply Hreturned | exact Hw].
  - apply (X25_webhook_endpoint_always_200 2000 Fixtures.truncated None
             Sample.pending_world).
    left. split; [by left | by right].
Defined.

(** The plan "gold"; [bob], premium, and an unknown user with the monthly
    plan. *)
Lemma X26_upgrade_endpoint_errors_witness :
  BillingController_createUpgradeOrder Sample.db_text Sample.key
    Sample.secret Sample.gateway 5000 "p2" 5001 Fixtures.bob_id "gold"
    Sample.pending_world
  = (Failure 400 400 "Invalid plan type", Sample.pending_world)
  ∧ BillingController_createUpgradeOrder Sample.db_text Sample.key
      Sample.secret Sample.gateway 5000 "p2" 5001 Fixtures.bob_id
      "premium_monthly" Sample.pending_world
    = (Failure 409 409 "User is already premium", Sample.pending_world)
  ∧ BillingController_createUpgradeOrder Sample.db_text Sample.key
      Sample.secret Sample.gateway 5000 "p2" 5001
      "64b000000000000000000007" "premium_monthly" Sample.pending_world
    = (Next UserNotFound, Sample.pending_world).
Proof.
  split; [|split].
  - apply (X26_upgrade_endpoint_errors Sample.db_text Sample.key
             Sample.secret Sample.gateway 5000 "p2" 5001 Fixtures.bob_id
             "gold" Sample.pending_world); reflexivity.
  - apply (X26_upgrade_endpoint_errors Sample.db_text Sample.key
             Sample.secret Sample.gateway 5000 "p2" 5001 Fixtures.bob_id
             "premium_monthly" Sample.pending_world) with Sample.bob;
      first [reflexivity | vm_compute; discriminate | vm_compute; reflexivity].
  - apply (X26_upgrade_endpoint_errors Sample.db_text Sample.key
             Sample.secret Sample.gateway 5000 "p2" 5001
             "64b000000000000000000007" "premium_monthly"
             Sample.pending_world);
      first [reflexivity | vm_compute; discriminate | vm_compute; reflexivity].
Defined.

(** [bob] cancels the order of [alice]; a failure for an unknown order. *)
Lemma X27_not_found_endpoints_witness :
  BillingController_cancelPayment 2000 "order_O1" Fixtures.bob_id
    Sample.pending_world
  = (Failure 404 404 "Pending payment not found", Sample.pending_world)
  ∧ BillingController_handlePaymentFailure 2000 "order_O7" "card declined"
      Sample.pending_world
    = (Failure 404 404 "Payment record not found", Sample.pending_world).
Proof.
  split.
  - apply (X27_not_found_endpoints 2000 Sample.pending_world "order_O1"
             Fixtures.bob_id "card declined").
    refine (proj1 (Forall_forall
                     (λ d, razorpayOrderId d = "order_O1" →
                           status d ≠ pending
                           ∨ userId d ≠ Fixtures.bob_id) _) _).
    by_computation.
  - apply (X27_not_found_endpoints 2000 Sample.pending_world "order_O7"
             Fixtures.bob_id "card declined").
    apply Forall_forall. by_computation.
Defined.

(** The token of [alice] while she is not premium: 403. *)
Lemma X28_premium_gate_reads_database_witness :
  then_gate
    (authenticate Fixtures.jwt (Some "Bearer token-of-alice")
       Sample.pending_world)
    requirePremium
  = Denied 403 "Premium subscription required".
Proof.
  exact (X28_premium_gate_reads_database Fixtures.jwt "token-of-alice"
           {| tok_userId := Fixtures.alice_id; tok_isPremium := false |}
           Sample.pending_world eq_refl).
Defined.

(** No header, a Basic header, and a token that does not verify. *)
Lemma X29_authenticate_refuses_witness :
  ((∃ text, authenticate Fixtures.jwt None Sample.pending_world
            = Denied 401 text)
   ∧ optionalAuth Fixtures.jwt None Sample.pending_world = Passed None)
  ∧ ((∃ text, authenticate Fixtures.jwt (Some "Basic YWxpY2U6cHc=")
                Sample.pending_world = Denied 401 text)
     ∧ optionalAuth Fixtures.jwt (Some "Basic YWxpY2U6cHc=")
         Sample.pending_world = Passed None)
  ∧ ((∃ text, authenticate Fixtures.jwt (Some "Bearer forged")
                Sample.pending_world = Denied 401 text)
     ∧ optionalAuth Fixtures.jwt (Some "Bearer forged")
         Sample.pending_world = Passed None).
Proof.
  split; [|split].
  - apply (X29_authenticate_refuses Fixtures.jwt None Sample.pending_world).
    by left.
  - apply (X29_authenticate_refuses Fixtures.jwt (Some "Basic YWxpY2U6cHc=")
             Sample.pending_world).
    right; left. by eexists.
  - apply (X29_authenticate_refuses Fixtures.jwt (Some "Bearer forged")
             Sample.pending_world).
    right; right. by exists "forged".
Defined.

(** [alice] verifies her payment and comes back with her old token. *)
Lemma X30_verification_opens_gate_witness :
  then_gate
    (authenticate Fixtures.jwt (Some "Bearer token-of-alice")
       (verifyPayment Sample.secret Sample.hmac 2000
          {| razorpay_order_id := "order_O1"; razorpay_payment_id := "pay_P1";
             razorpay_signature := Sample.good_sig |}
          Sample.pending_world).2)
    requirePremium
  = Passed (Some (Fixtures.alice_id, set_isPremium true Sample.alice)).
Proof.
  apply (X30_verification_opens_gate Sample.secret Sample.hmac Fixtures.jwt
           2000 Sample.pending_world (Sample.order1 pending None None None)
           "pay_P1" Sample.good_sig Sample.alice "token-of-alice"
           {| tok_userId := Fixtures.alice_id; tok_isPremium := false |}).
  - by_computation.
  - by_computation.
  - by_computation.
  - vm_compute. reflexivity.
  - vm_compute. reflexivity.
  - reflexivity.
  - reflexivity.
Defined.
